(** * Databricks-VSCode: connection manager and job-run tree item

    A shallow embedding of

    - [DatabricksConnectionManager] (the connection manager that merges the
      connections of three configuration sources and activates one), and
    - [DatabricksJobRun] (the tree item of one job run),

    together with the properties of their documented behaviour.

    Conventions.  A TypeScript field that may hold [undefined] is an
    [option]; a method that mutates [this], calls the editor or throws is a
    computation in the monad [M] below, whose state is the object together
    with the chronological list of the calls made to the collaborators
    (configuration updates, log lines, notifications, API-client
    initialisation).  All reads of the editor configuration made by one
    operation precede its writes, so the configuration read by an operation
    is a value [Configuration] given to it. *)

From Stdlib Require Import ZArith List String Ascii Bool Lia.
From Stdlib Require Import DecimalString.
Import ListNotations.

Local Open Scope string_scope.
Local Open Scope list_scope.

(** ** Results of a call *)

(** A JavaScript [Error] with its message. *)
Inductive JsError : Type :=
| Error (msg : string)
| TypeError (msg : string)
| RangeError (msg : string).

(** What a call does: it returns, it throws, or it never comes back. *)
Inductive Outcome (A : Type) : Type :=
| Returned (a : A)
| Threw (e : JsError)
| Hangs.

Arguments Returned {A} a.
Arguments Threw {A} e.
Arguments Hangs {A}.

(** ** JavaScript numbers

    The Number type of JavaScript is the binary64 format of IEEE 754.  A
    finite double is a whole number of units of 2^-1074, the smallest
    double above zero, so it is written here as its integer count of
    units; next to the finite ones stand the two infinities and NaN.  The
    two zeros are one value: no code below divides by zero or prints the
    sign of a zero.  Every operation is the exact one followed by rounding
    to the nearest double, ties to the even one. *)
Module JsNumber.

Local Open Scope Z_scope.

(** The number 1, and the first power of two past the largest double
    (2^1024), in units. *)
Definition one : Z := Z.shiftl 1 1074.
Definition overflow : Z := Z.shiftl 1 2098.

Inductive number : Type :=
| NaN
| Infinity (negative : bool)
| Finite (units : Z).

(** The integer nearest to [p / q], the even one of two; [0 <= p], [0 < q]. *)
Definition half_even (p q : Z) : Z :=
  let f := p / q in
  match 2 * (p mod q) ?= q with
  | Lt => f
  | Gt => f + 1
  | Eq => if Z.even f then f else f + 1
  end.

(** The units of the double nearest to [p / q] units, for [0 <= p] and
    [0 < q]: a double has 53 significant bits, so a quotient of more bits
    is rounded at the bit that many places below its leading one. *)
Definition round_magnitude (p q : Z) : Z :=
  let b := Z.log2 (p / q) in
  if b <=? 52 then half_even p q
  else let e := b - 52 in Z.shiftl (half_even p (Z.shiftl q e)) e.

Definition nearest (p q : Z) : number :=
  let m := round_magnitude (Z.abs p) q in
  if overflow <=? m then Infinity (p <? 0)
  else Finite (if p <? 0 then - m else m).

(** The doubles among the counts of units: at most 53 significant bits,
    and below 2^1024. *)
Definition on_grid (m : Z) : Prop :=
  m mod 2 ^ Z.max 0 (Z.log2 m - 52) = 0.

Definition double (x : number) : Prop :=
  match x with
  | Finite units => on_grid (Z.abs units) /\ Z.abs units < overflow
  | _ => True
  end.

(** The double of an integer literal, as [JSON.parse] reads it. *)
Definition of_Z (z : Z) : number := nearest (z * one) 1.

Definition opp (a : number) : number :=
  match a with
  | NaN => NaN
  | Infinity s => Infinity (negb s)
  | Finite n => Finite (- n)
  end.

Definition add (a b : number) : number :=
  match a, b with
  | NaN, _ | _, NaN => NaN
  | Infinity s, Infinity t => if Bool.eqb s t then Infinity s else NaN
  | Infinity s, Finite _ | Finite _, Infinity s => Infinity s
  | Finite x, Finite y => nearest (x + y) 1
  end.

Definition sub (a b : number) : number := add a (opp b).

Definition div (a b : number) : number :=
  match a, b with
  | NaN, _ | _, NaN => NaN
  | Infinity _, Infinity _ => NaN
  | Infinity s, Finite y => Infinity (xorb s (y <? 0))
  | Finite _, Infinity _ => Finite 0
  | Finite x, Finite y =>
      if y =? 0 then (if x =? 0 then NaN else Infinity (x <? 0))
      else nearest (if y <? 0 then - (x * one) else x * one) (Z.abs y)
  end.

Definition eqb (a b : number) : bool :=
  match a, b with
  | Finite x, Finite y => x =? y
  | Infinity s, Infinity t => Bool.eqb s t
  | _, _ => false
  end.

(** *** [Number::toString]

    The digits of a finite double are the shortest decimal that reads
    back as that double, and of the decimals of that length the one
    closest to it. *)

(** The decimal digits of [z], the first one first; none for zero. *)
Fixpoint digits_upto (fuel : nat) (z : Z) (acc : list Z) : list Z :=
  match fuel with
  | O => acc
  | S f => if z <=? 0 then acc else digits_upto f (z / 10) (z mod 10 :: acc)
  end.

Definition digits (z : Z) : list Z :=
  digits_upto (S (Z.to_nat (Z.log2 z))) z [].

Definition decimal_digits (z : Z) : Z := Z.of_nat (List.length (digits z)).

(** [n] with [10^(n-1) <= units/one < 10^n], for [0 < units]. *)
Definition integer_digits (units : Z) : Z :=
  if one <=? units then decimal_digits (units / one)
  else 1 - decimal_digits ((one - 1) / units).

(** The double nearest to [s * 10^e]. *)
Definition of_decimal (s e : Z) : number :=
  if 0 <=? e then nearest (s * 10 ^ e * one) 1
  else nearest (s * one) (10 ^ (- e)).

(** [k] digits that have rounded up to [10^k] are the one digit 1. *)
Definition carried (k : Z) (d : Z * Z) : Z * Z :=
  if fst d =? 10 ^ k then (10 ^ (k - 1), snd d + 1) else d.

Definition reads_back (units : Z) (d : Z * Z) : bool :=
  eqb (of_decimal (fst d) (snd d)) (Finite units).

(** The decimal [s * 10^(n - k)] of [k] digits next to [units], if one of
    the two next to it reads back as the double: the closer one if both
    do, the even one if they are as close. *)
Definition candidate (units n k : Z) : option (Z * Z) :=
  let P := if n <=? k then units * 10 ^ (k - n) else units in
  let Q := if n <=? k then one else one * 10 ^ (n - k) in
  let below := carried k (P / Q, n - k) in
  let above := carried k (P / Q + 1, n - k) in
  let upper := match 2 * (P mod Q) ?= Q with
               | Lt => false
               | Gt => true
               | Eq => Z.odd (P / Q)
               end in
  match reads_back units below, reads_back units above with
  | true, true => Some (if upper then above else below)
  | true, false => Some below
  | false, true => Some above
  | false, false => None
  end.

Fixpoint search (fuel : nat) (units n k : Z) : option (Z * Z) :=
  match fuel with
  | O => None
  | S f =>
      match candidate units n k with
      | Some d => Some d
      | None => search f units n (k + 1)
      end
  end.

(** All the digits of the double: units / 2^1074 = units * 5^1074 / 10^1074. *)
Definition exact_digits (units : Z) : Z * Z := (units * 5 ^ 1074, -1074).

(** Seventeen digits tell any two doubles apart, so that the search ends
    by then. *)
Definition shortest (units : Z) : Z * Z :=
  match search 17 units (integer_digits units) 1 with
  | Some d => d
  | None => exact_digits units
  end.

Definition digit_char (d : Z) : ascii := ascii_of_nat (48 + Z.to_nat d).

Definition chars (ds : list Z) : list ascii := map digit_char ds.

(** The text of the digits [ds] times [10^e], with [k] the number of
    digits and [n = e + k] the place of the point: the four layouts of
    [Number::toString]. *)
Definition format (ds : list Z) (e : Z) : list ascii :=
  let k := Z.of_nat (List.length ds) in
  let n := e + k in
  if (k <=? n) && (n <=? 21) then
    chars ds ++ repeat "0"%char (Z.to_nat e)
  else if (0 <? n) && (n <=? 21) then
    chars (firstn (Z.to_nat n) ds) ++ "."%char :: chars (skipn (Z.to_nat n) ds)
  else if (-6 <? n) && (n <=? 0) then
    "0"%char :: "."%char :: repeat "0"%char (Z.to_nat (- n)) ++ chars ds
  else
    let x := n - 1 in
    let sign := if x <? 0 then "-"%char else "+"%char in
    let mantissa :=
      match ds with
      | d :: (_ :: _) as rest => digit_char d :: "."%char :: chars rest
      | _ => chars ds
      end in
    mantissa ++ "e"%char :: sign :: chars (digits (Z.abs x)).

Definition toString (x : number) : string :=
  match x with
  | NaN => "NaN"
  | Infinity false => "Infinity"
  | Infinity true => "-Infinity"
  | Finite 0 => "0"
  | Finite units =>
      let d := shortest (Z.abs units) in
      (if units <? 0 then "-" else "")
      ++ string_of_list_ascii (format (digits (fst d)) (snd d))
  end.

(** *** Reading a number back from its text *)

Definition char_digit (c : ascii) : option Z :=
  let n := nat_of_ascii c in
  if ((48 <=? n) && (n <=? 57))%nat then Some (Z.of_nat (n - 48)) else None.

(** The integer that digits spell after the integer [acc]. *)
Definition spelled (ds : list Z) (acc : Z) : Z :=
  fold_left (fun a d => a * 10 + d) ds acc.

(** A decimal digit, and a text without the letter of the exponent. *)
Definition valid (d : Z) : Prop := 0 <= d <= 9.

Definition plain (l : list ascii) : Prop :=
  Forall (fun c => Ascii.eqb c "e" = false) l.

(** Digits with at most one point among them: the integer that all the
    digits spell, and the number of digits after the point. *)
Fixpoint read_digits (l : list ascii) (acc : Z) (point : option Z)
  : option (Z * Z) :=
  match l with
  | [] => Some (acc, match point with Some f => f | None => 0 end)
  | c :: rest =>
      if Ascii.eqb c "." then
        match point with
        | None => read_digits rest acc (Some 0)
        | Some _ => None
        end
      else
        match char_digit c with
        | Some d => read_digits rest (acc * 10 + d) (option_map (Z.add 1) point)
        | None => None
        end
  end.

(** The text before the first [e], and the text after it if there is one. *)
Fixpoint split_exponent (l : list ascii) : list ascii * option (list ascii) :=
  match l with
  | [] => ([], None)
  | c :: rest =>
      if Ascii.eqb c "e" then ([], Some rest)
      else let (m, x) := split_exponent rest in (c :: m, x)
  end.

Definition read_integer (l : list ascii) : option Z :=
  match read_digits l 0 (Some 0) with
  | Some (z, _) => Some z
  | None => None
  end.

Definition read_exponent (l : list ascii) : option Z :=
  match l with
  | c :: rest =>
      if Ascii.eqb c "+" then read_integer rest
      else if Ascii.eqb c "-" then option_map Z.opp (read_integer rest)
      else None
  | [] => None
  end.

(** The digits [m] and the power of ten [e] of a decimal text: it
    stands for [m * 10^e]. *)
Definition read_decimal (l : list ascii) : option (Z * Z) :=
  let (mantissa, exponent) := split_exponent l in
  match read_digits mantissa 0 None, exponent with
  | Some (m, f), None => Some (m, - f)
  | Some (m, f), Some x =>
      match read_exponent x with
      | Some e => Some (m, e - f)
      | None => None
      end
  | None, _ => None
  end.

Definition read_unsigned (l : list ascii) : number :=
  match read_decimal l with
  | Some (m, e) => of_decimal m e
  | None =>
      if String.eqb (string_of_list_ascii l) "Infinity" then Infinity false
      else NaN
  end.

(** The number a text stands for. *)
Definition of_text (t : string) : number :=
  match list_ascii_of_string t with
  | c :: rest =>
      if Ascii.eqb c "-" then opp (read_unsigned rest)
      else read_unsigned (c :: rest)
  | [] => read_unsigned []
  end.

End JsNumber.

(** [String(n)] for the length of an array, whose digits are those of the
    natural number, and [String(x)] for the number of an integer
    literal. *)
Definition nat_toString (n : nat) : string :=
  NilZero.string_of_uint (Nat.to_uint n).

Definition Number_toString (z : Z) : string :=
  JsNumber.toString (JsNumber.of_Z z).

(** [Array.prototype.join] on an array of strings. *)
Fixpoint join (sep : string) (l : list string) : string :=
  match l with
  | [] => ""
  | [x] => x
  | x :: rest => x ++ sep ++ join sep rest
  end.

(** ** The state-and-exception monad of a method call *)

Section Monad.

Variable World : Type.

Definition M (A : Type) : Type := World -> Outcome A * World.

Definition ret {A} (a : A) : M A := fun w => (Returned a, w).

Definition bind {A B} (m : M A) (f : A -> M B) : M B :=
  fun w =>
    match m w with
    | (Returned a, w') => f a w'
    | (Threw e, w') => (Threw e, w')
    | (Hangs, w') => (Hangs, w')
    end.

Definition throw {A} (e : JsError) : M A := fun w => (Threw e, w).

Definition hang {A} : M A := fun w => (Hangs, w).

(** [try { m } catch (error) { h error }] *)
Definition try_catch {A} (m : M A) (h : JsError -> M A) : M A :=
  fun w =>
    match m w with
    | (Threw e, w') => h e w'
    | r => r
    end.

Definition gets {A} (f : World -> A) : M A := fun w => (Returned (f w), w).

Definition modify (f : World -> World) : M unit := fun w => (Returned tt, f w).

End Monad.

Arguments ret {World A} a.
Arguments bind {World A B} m f.
Arguments throw {World A} e.
Arguments hang {World A}.
Arguments try_catch {World A} m h.
Arguments gets {World A} f.
Arguments modify {World} f.

Declare Scope js_scope.
Delimit Scope js_scope with js.
Notation "x <- m ;; k" := (bind m (fun x => k))
  (at level 61, m at next level, right associativity) : js_scope.
Notation "m ;; k" := (bind m (fun _ => k))
  (at level 61, right associativity) : js_scope.

(** ** The connection manager *)

Module ConnectionManager.

Section Manager.

(** [ExportFormatsConfiguration] is declared in [ThisExtension]; the
    manager only passes it along. *)
Variable ExportFormatsConfiguration : Type.

Record iDatabricksConnection : Type := {
  displayName : string;
  cloudProvider : string;
  apiRootUrl : string;
  personalAccessToken : string;
  localSyncFolder : string;
  exportFormats : ExportFormatsConfiguration;
  useCodeCells : bool
}.

(** The class [DatabricksConnection] wraps the interface object it is
    built from and exposes its fields. *)
Definition DatabricksConnection : Type := iDatabricksConnection.

Definition new_DatabricksConnection (con : iDatabricksConnection)
  : DatabricksConnection := con.

(** [DatabricksConnection.validate()], a method of that class. *)
Variable validate : DatabricksConnection -> bool.

Record iWorkspaceConfiguration : Type := {
  workspaceGuid : option string;
  lastActiveConnection : option string
}.

Record iUserWorkspaceConfiguration : Type := {
  workspaceConfig : iWorkspaceConfiguration;
  connections : list DatabricksConnection
}.

(** What [vscode.workspace.getConfiguration().get(key)] returns for the
    keys the manager reads, and the value [Helper.newGuid()] returns. *)
Record Configuration : Type := {
  (* 'databricks.workspaceConfiguration' *)
  cfg_workspaceConfiguration : iWorkspaceConfiguration;
  (* 'databricks.connections' *)
  cfg_connections : list iDatabricksConnection;
  (* 'databricks.connection.default.*', one key per field *)
  cfg_connection_default : iDatabricksConnection;
  (* 'databricks.userWorkspaceConfigurations' *)
  cfg_userWorkspaceConfigurations : list iUserWorkspaceConfiguration;
  Helper_newGuid : string
}.

Inductive ConfigurationTarget : Type := Global | Workspace | WorkspaceFolder.

(** The values the manager writes to the configuration. *)
Inductive ConfigValue : Type :=
| undefined
| VString (s : string)
| VWorkspaceConfiguration (w : iWorkspaceConfiguration)
| VUserWorkspaceConfigurations (l : list iUserWorkspaceConfiguration).

(** The calls to the collaborators. *)
Inductive Effect : Type :=
| Log (msg : string)                       (* ThisExtension.log *)
| ShowErrorMessage (msg : string)          (* vscode.window.showErrorMessage *)
| ConfigUpdate (key : string) (value : ConfigValue)
               (target : ConfigurationTarget)
                                           (* getConfiguration().update *)
| ApiInitialize (con : option DatabricksConnection).
                                           (* DatabricksApiService.initialize *)

(** The fields of the class. *)
Record DatabricksConnectionManager : Type := {
  _workspaceConfig : iWorkspaceConfiguration;
  _connections : list DatabricksConnection;
  _activeConnection : option DatabricksConnection;
  _initialized : bool
}.

Record World : Type := {
  this : DatabricksConnectionManager;
  trace : list Effect
}.

Local Open Scope js_scope.

Definition emit (e : Effect) : M World unit :=
  modify (fun w => {| this := this w; trace := trace w ++ [e] |}).

Definition update_this (f : DatabricksConnectionManager -> DatabricksConnectionManager)
  : M World unit :=
  modify (fun w => {| this := f (this w); trace := trace w |}).

Definition set_workspaceConfig (c : iWorkspaceConfiguration) : M World unit :=
  update_this (fun t => {| _workspaceConfig := c;
                           _connections := _connections t;
                           _activeConnection := _activeConnection t;
                           _initialized := _initialized t |}).

Definition set_connections (l : list DatabricksConnection) : M World unit :=
  update_this (fun t => {| _workspaceConfig := _workspaceConfig t;
                           _connections := l;
                           _activeConnection := _activeConnection t;
                           _initialized := _initialized t |}).

Definition set_activeConnection (c : option DatabricksConnection) : M World unit :=
  update_this (fun t => {| _workspaceConfig := _workspaceConfig t;
                           _connections := _connections t;
                           _activeConnection := c;
                           _initialized := _initialized t |}).

Definition set_initialized (b : bool) : M World unit :=
  update_this (fun t => {| _workspaceConfig := _workspaceConfig t;
                           _connections := _connections t;
                           _activeConnection := _activeConnection t;
                           _initialized := b |}).

(** [this._workspaceConfig.workspaceGuid = g] *)
Definition set_workspaceGuid (g : string) : M World unit :=
  c <- gets (fun w => _workspaceConfig (this w)) ;;
  set_workspaceConfig {| workspaceGuid := Some g;
                         lastActiveConnection := lastActiveConnection c |}.

(** [this._workspaceConfig.lastActiveConnection = n] *)
Definition set_lastActiveConnection (n : string) : M World unit :=
  c <- gets (fun w => _workspaceConfig (this w)) ;;
  set_workspaceConfig {| workspaceGuid := workspaceGuid c;
                         lastActiveConnection := Some n |}.

(** [==] on two values that are a string or [undefined]. *)
Definition opt_string_eqb (a b : option string) : bool :=
  match a, b with
  | Some x, Some y => String.eqb x y
  | None, None => true
  | _, _ => false
  end.

(** [names.includes(n)] *)
Definition includes (names : list string) (n : string) : bool :=
  existsb (String.eqb n) names.

(** [get Connections()]: spins while the manager is not initialised. *)
Definition Connections : M World (list DatabricksConnection) :=
  i <- gets (fun w => _initialized (this w)) ;;
  if i then gets (fun w => _connections (this w)) else hang.

(** [get ActiveConnection()] *)
Definition ActiveConnection : M World (option DatabricksConnection) :=
  gets (fun w => _activeConnection (this w)).

(** The loop of [getConnectionsFromWorkspace] and of
    [getConnectionsFromUserConfig]: build, validate, push. *)
Definition push_valid (cons : list iDatabricksConnection)
  : list DatabricksConnection :=
  fold_left
    (fun ret con =>
       let dbCon := new_DatabricksConnection con in
       if validate dbCon then ret ++ [dbCon] else ret)
    cons [].

Definition getConnectionsFromWorkspace (cfg : Configuration)
  : list DatabricksConnection :=
  push_valid (cfg_connections cfg).

(** [null] is [None]. *)
Definition getDefaultConnectionFromWorkspace (cfg : Configuration)
  : option DatabricksConnection :=
  let defaultCon := new_DatabricksConnection (cfg_connection_default cfg) in
  if String.eqb (displayName defaultCon) "" || negb (validate defaultCon)
  then None
  else Some defaultCon.

Definition AllUserWorkspaceConfigurations (cfg : Configuration)
  : list iUserWorkspaceConfiguration :=
  cfg_userWorkspaceConfigurations cfg.

Definition duplicate_guid_message : string :=
  "There is an error in your User Workspace Configurations ('databricks.userWorkspaceConfigurations'). Please make sure all 'workspaceGuid' are unique!".

(** [get CurrentUserWorkspaceConfiguration()] *)
Definition CurrentUserWorkspaceConfiguration (cfg : Configuration)
  : M World (option iUserWorkspaceConfiguration) :=
  let allUserWorkspaceConfigs := AllUserWorkspaceConfigurations cfg in
  guid <- gets (fun w => workspaceGuid (_workspaceConfig (this w))) ;;
  let currentUserWorkspaceConfig :=
    filter (fun x => opt_string_eqb (workspaceGuid (workspaceConfig x)) guid)
           allUserWorkspaceConfigs in
  if Nat.eqb (List.length currentUserWorkspaceConfig) 1 then
    ret (nth_error currentUserWorkspaceConfig 0)
  else if Nat.eqb (List.length currentUserWorkspaceConfig) 0 then
    ret None
  else
    throw (Error duplicate_guid_message).

Definition getConnectionsFromUserConfig (cfg : Configuration)
  : M World (list DatabricksConnection) :=
  currentUserWorkspaceConfig <- CurrentUserWorkspaceConfiguration cfg ;;
  match currentUserWorkspaceConfig with
  | Some c => ret (push_valid (connections c))
  | None => ret []
  end.

(** The object [{ workspaceConfig: this._workspaceConfig, connections:
    this.Connections }] of [get CurrentWorkspaceConfiguration()]. *)
Definition CurrentWorkspaceConfiguration : M World iUserWorkspaceConfiguration :=
  wc <- gets (fun w => _workspaceConfig (this w)) ;;
  cons <- Connections ;;
  ret {| workspaceConfig := wc; connections := cons |}.

Definition updateWorkspaceConfig : M World unit :=
  wc <- gets (fun w => _workspaceConfig (this w)) ;;
  emit (ConfigUpdate "databricks.workspaceConfiguration"
                     (VWorkspaceConfiguration wc) Workspace).

Definition cleanConnectionsFromConfig : M World unit :=
  emit (ConfigUpdate "databricks.connections" undefined Workspace).

Definition cleanDefaultConnectionFromConfig : M World unit :=
  emit (ConfigUpdate "databricks.connection.default.displayName" undefined Workspace) ;;
  emit (ConfigUpdate "databricks.connection.default.cloudProvider" undefined Workspace) ;;
  emit (ConfigUpdate "databricks.connection.default.apiRootUrl" undefined Workspace) ;;
  emit (ConfigUpdate "databricks.connection.default.personalAccessToken" undefined Workspace) ;;
  emit (ConfigUpdate "databricks.connection.default.localSyncFolder" undefined Workspace) ;;
  emit (ConfigUpdate "databricks.connection.default.databricksConnectJars" undefined Workspace) ;;
  emit (ConfigUpdate "databricks.connection.default.pythonInterpreter" undefined Workspace) ;;
  emit (ConfigUpdate "databricks.connection.default.port" undefined Workspace) ;;
  emit (ConfigUpdate "databricks.connection.default.organizationId" undefined Workspace) ;;
  emit (ConfigUpdate "databricks.connection.default.exportFormats" undefined Workspace) ;;
  emit (ConfigUpdate "databricks.connection.default.useCodeCells" undefined Workspace).

(** [updateUserWorkspaceConfig].  [currentUserWorkspaceConfig] is the
    object literal built by the getter above, so the test
    [!= undefined] holds and the [else] branch does not run.  The
    callback given to [update.then] runs after the call has returned and
    is not part of its trace. *)
Definition updateUserWorkspaceConfig (cfg : Configuration) : M World unit :=
  emit (Log "Updating user setting 'databricks.userWorkspaceConfigurations' ...") ;;
  let AllUserWorkspaceConfigurations_ := AllUserWorkspaceConfigurations cfg in
  _ <- CurrentWorkspaceConfiguration ;;
  guid <- gets (fun w => workspaceGuid (_workspaceConfig (this w))) ;;
  let updatedUserWorkspaceConfigs :=
    filter (fun x => negb (opt_string_eqb (workspaceGuid (workspaceConfig x)) guid))
           AllUserWorkspaceConfigurations_ in
  cur <- CurrentWorkspaceConfiguration ;;
  let updatedUserWorkspaceConfigs := updatedUserWorkspaceConfigs ++ [cur] in
  emit (ConfigUpdate "databricks.userWorkspaceConfigurations"
                     (VUserWorkspaceConfigurations updatedUserWorkspaceConfigs)
                     Global) ;;
  emit (Log "Removing workspace settings 'databricks.*' as they have been persisted in the user settings!") ;;
  cleanConnectionsFromConfig ;;
  cleanDefaultConnectionFromConfig.

Definition loadConnections (cfg : Configuration) : M World unit :=
  emit (Log "Getting current Workspace Configuration (databricks.workspaceConfiguration) ...") ;;
  set_workspaceConfig (cfg_workspaceConfiguration cfg) ;;
  guid <- gets (fun w => workspaceGuid (_workspaceConfig (this w))) ;;
  match guid with
  | None =>
      emit (Log "Creating Workspace Configuration ...") ;;
      set_workspaceGuid (Helper_newGuid cfg)
  | Some _ => ret tt
  end ;;
  emit (Log "Loading connections array from Workspace (databricks.connections)...") ;;
  set_connections (getConnectionsFromWorkspace cfg) ;;
  n <- gets (fun w => List.length (_connections (this w))) ;;
  emit (Log (nat_toString n ++ " connection(s) loaded from Workspace!")) ;;
  emit (Log "Loading default connection from Workspace/UserSettings (databricks.connection.default.*) ...") ;;
  let defaultConnectionFromWorkspace := getDefaultConnectionFromWorkspace cfg in
  match defaultConnectionFromWorkspace with
  | Some _ => emit (Log "Default connection loaded from Workspace/UserSettings!")
  | None => emit (Log "No Default connection found in Workspace/UserSettings!")
  end ;;
  emit (Log "Loading connections array from UserSetting (databricks.userWorkspaceConfigurations)...") ;;
  connectionsFromUserConfig <- getConnectionsFromUserConfig cfg ;;
  emit (Log (nat_toString (List.length connectionsFromUserConfig)
             ++ " connection(s) loaded from UserSetting!")) ;;
  cons <- gets (fun w => _connections (this w)) ;;
  match defaultConnectionFromWorkspace with
  | Some d =>
      if negb (includes (map displayName cons) (displayName d))
      then set_connections (cons ++ [d])
      else ret tt
  | None => ret tt
  end ;;
  cons <- gets (fun w => _connections (this w)) ;;
  let newConnectionsFromWorkspace :=
    filter (fun x => negb (includes (map displayName cons) (displayName x)))
           connectionsFromUserConfig in
  set_connections (cons ++ newConnectionsFromWorkspace) ;;
  set_initialized true ;;
  updateUserWorkspaceConfig cfg.

Definition codeRegularExpression : string :=
  "^(# COMMAND ----------|#\s*%%|#\s*\<codecell\>|#\s*In\[\d*?\]|#\s*In\[ \])".

Definition not_found_message (displayName : string) : string :=
  "Connection with name  '" ++ displayName ++ "' could not be found!".

(** [this._activeConnection = filteredConnections[0]] is the option
    [nth_error _ 0]; reading [useCodeCells] of [undefined] is a
    [TypeError]. *)
Definition activateConnection (displayName_ : string)
  : M World (option DatabricksConnection) :=
  cons <- Connections ;;
  let filteredConnections :=
    filter (fun x => String.eqb (displayName x) displayName_) cons in
  if Nat.eqb (List.length filteredConnections) 1 then
    set_activeConnection (nth_error filteredConnections 0) ;;
    set_lastActiveConnection displayName_ ;;
    active <- ActiveConnection ;;
    emit (ApiInitialize active) ;;
    updateWorkspaceConfig ;;
    active <- ActiveConnection ;;
    match active with
    | None => throw (TypeError "Cannot read properties of undefined (reading 'useCodeCells')")
    | Some a =>
        if useCodeCells a then
          emit (ConfigUpdate "python.dataScience.codeRegularExpression"
                             (VString codeRegularExpression) Workspace)
        else
          emit (ConfigUpdate "python.dataScience.codeRegularExpression"
                             undefined Workspace)
    end ;;
    gets (fun w => _activeConnection (this w))
  else
    let msg := not_found_message displayName_ in
    emit (Log msg) ;;
    throw (Error msg).

(** What string concatenation makes of a value that may be [undefined]. *)
Definition opt_toString (o : option string) : string :=
  match o with
  | Some s => s
  | None => "undefined"
  end.

(** [cons[0].displayName] *)
Definition first_displayName (cons : list DatabricksConnection) : M World string :=
  match nth_error cons 0 with
  | Some c => ret (displayName c)
  | None => throw (TypeError "Cannot read properties of undefined (reading 'displayName')")
  end.

Definition no_connections_message : string :=
  "No connections have been configured yet! Please add a connection via the VSCode Settings -> Databricks before proceeding!".

Definition constructor (cfg : Configuration) : M World unit :=
  set_initialized false ;;
  loadConnections cfg ;;
  cons <- Connections ;;
  if Nat.eqb (List.length cons) 0 then
    let msg := no_connections_message in
    emit (Log msg) ;;
    emit (ShowErrorMessage msg)
  else
    last <- gets (fun w => lastActiveConnection (_workspaceConfig (this w))) ;;
    match last with
    | None =>
        cons <- gets (fun w => _connections (this w)) ;;
        n <- first_displayName cons ;;
        set_lastActiveConnection n
    | Some _ => ret tt
    end ;;
    (* [lastActiveConnection] is set from here on *)
    try_catch
      (last <- gets (fun w => lastActiveConnection (_workspaceConfig (this w))) ;;
       activateConnection (opt_toString last) ;;
       ret tt)
      (fun error =>
         last <- gets (fun w => lastActiveConnection (_workspaceConfig (this w))) ;;
         emit (Log ("Could not activate Connection '" ++ opt_toString last ++ "' ...")) ;;
         emit (Log "Activating first available connection instead ...") ;;
         cons <- Connections ;;
         n <- first_displayName cons ;;
         activateConnection n ;;
         ret tt).

(** The object before its constructor has run: no field is set. *)
Definition fresh_object : World :=
  {| this := {| _workspaceConfig := {| workspaceGuid := None;
                                       lastActiveConnection := None |};
                _connections := [];
                _activeConnection := None;
                _initialized := false |};
     trace := [] |}.

(** [new DatabricksConnectionManager()] *)
Definition new_DatabricksConnectionManager (cfg : Configuration)
  : Outcome unit * World :=
  constructor cfg fresh_object.

(** [get ActiveConnectionName()]: reads [displayName] of the active
    connection, a [TypeError] when there is none. *)
Definition ActiveConnectionName : M World string :=
  active <- ActiveConnection ;;
  match active with
  | Some a => ret (displayName a)
  | None => throw (TypeError "Cannot read properties of undefined (reading 'displayName')")
  end.

(** *** Reading a configuration and a trace

    The names below are used to state what [loadConnections] and
    [activateConnection] do. *)

(** The guid of the current workspace: the one of the workspace
    configuration, or the new one when it has none. *)
Definition current_guid (cfg : Configuration) : string :=
  match workspaceGuid (cfg_workspaceConfiguration cfg) with
  | Some g => g
  | None => Helper_newGuid cfg
  end.

Definition loaded_workspaceConfig (cfg : Configuration) : iWorkspaceConfiguration :=
  {| workspaceGuid := Some (current_guid cfg);
     lastActiveConnection := lastActiveConnection (cfg_workspaceConfiguration cfg) |}.

Definition has_guid (g : string) (x : iUserWorkspaceConfiguration) : bool :=
  opt_string_eqb (workspaceGuid (workspaceConfig x)) (Some g).

(** The entries of the global list that carry the guid of the current
    workspace. *)
Definition entries_of_workspace (cfg : Configuration)
  : list iUserWorkspaceConfiguration :=
  filter (has_guid (current_guid cfg)) (cfg_userWorkspaceConfigurations cfg).

(** The three sources, each reduced to its valid connections. *)
Definition explicit_list (cfg : Configuration) : list DatabricksConnection :=
  filter validate (cfg_connections cfg).

Definition default_connection (cfg : Configuration) : list DatabricksConnection :=
  match getDefaultConnectionFromWorkspace cfg with
  | Some d => [d]
  | None => []
  end.

Definition persisted (cfg : Configuration) : list DatabricksConnection :=
  match entries_of_workspace cfg with
  | [c] => filter validate (connections c)
  | _ => []
  end.

Definition names (l : list DatabricksConnection) : list string :=
  map displayName l.

(** Append the connections of [later] whose name is not among those of
    [earlier]; [earlier] is not extended while [later] is scanned. *)
Definition append_new (earlier later : list DatabricksConnection)
  : list DatabricksConnection :=
  earlier ++ filter (fun x => negb (includes (names earlier) (displayName x))) later.

(** The merge in precedence order, each source checked against the
    connections of the sources before it. *)
Definition merged_by_precedence (cfg : Configuration) : list DatabricksConnection :=
  append_new (append_new (explicit_list cfg) (default_connection cfg))
             (persisted cfg).

(** The merge as the specification words it: every connection of [later]
    is checked against what has been accumulated when its turn comes. *)
Definition append_unseen (earlier later : list DatabricksConnection)
  : list DatabricksConnection :=
  fold_left
    (fun acc x =>
       if includes (names acc) (displayName x) then acc else acc ++ [x])
    later earlier.

Definition merged_accumulating (cfg : Configuration) : list DatabricksConnection :=
  append_unseen (append_unseen (explicit_list cfg) (default_connection cfg))
                (persisted cfg).

(** The values written to one configuration key, with their targets, in
    the order of the calls. *)
Fixpoint config_writes (key : string) (tr : list Effect)
  : list (ConfigValue * ConfigurationTarget) :=
  match tr with
  | [] => []
  | ConfigUpdate k v t :: rest =>
      if String.eqb k key then (v, t) :: config_writes key rest
      else config_writes key rest
  | _ :: rest => config_writes key rest
  end.

(** All the configuration keys written, in the order of the calls. *)
Fixpoint written_keys (tr : list Effect) : list string :=
  match tr with
  | [] => []
  | ConfigUpdate k _ _ :: rest => k :: written_keys rest
  | _ :: rest => written_keys rest
  end.

(** The connections the API client was initialised with. *)
Fixpoint api_initializations (tr : list Effect)
  : list (option DatabricksConnection) :=
  match tr with
  | [] => []
  | ApiInitialize c :: rest => c :: api_initializations rest
  | _ :: rest => api_initializations rest
  end.

(** The connections of a list that carry a name: the
    [filteredConnections] of [activateConnection]. *)
Definition named (X : string) (l : list DatabricksConnection)
  : list DatabricksConnection :=
  filter (fun x => String.eqb (displayName x) X) l.

(** The keys and values written at one target, in the order of the
    calls. *)
Fixpoint writes_at (target : ConfigurationTarget) (tr : list Effect)
  : list (string * ConfigValue) :=
  match tr with
  | [] => []
  | ConfigUpdate k v t :: rest =>
      match target, t with
      | Global, Global | Workspace, Workspace
      | WorkspaceFolder, WorkspaceFolder => (k, v) :: writes_at target rest
      | _, _ => writes_at target rest
      end
  | _ :: rest => writes_at target rest
  end.

(** The manager that has loaded [cfg] and activated the connection [c]. *)
Definition activated (cfg : Configuration) (c : DatabricksConnection)
  : DatabricksConnectionManager :=
  {| _workspaceConfig := {| workspaceGuid := Some (current_guid cfg);
                            lastActiveConnection := Some (displayName c) |};
     _connections := merged_by_precedence cfg;
     _activeConnection := Some c;
     _initialized := true |}.

(** The messages shown to the user as errors. *)
Fixpoint error_messages (tr : list Effect) : list string :=
  match tr with
  | [] => []
  | ShowErrorMessage msg :: rest => msg :: error_messages rest
  | _ :: rest => error_messages rest
  end.

End Manager.

Arguments displayName {ExportFormatsConfiguration}.
Arguments cloudProvider {ExportFormatsConfiguration}.
Arguments apiRootUrl {ExportFormatsConfiguration}.
Arguments personalAccessToken {ExportFormatsConfiguration}.
Arguments localSyncFolder {ExportFormatsConfiguration}.
Arguments exportFormats {ExportFormatsConfiguration}.
Arguments useCodeCells {ExportFormatsConfiguration}.
Arguments Build_iDatabricksConnection {ExportFormatsConfiguration}.
Arguments new_DatabricksConnection {ExportFormatsConfiguration}.
Arguments workspaceConfig {ExportFormatsConfiguration}.
Arguments connections {ExportFormatsConfiguration}.
Arguments Build_iUserWorkspaceConfiguration {ExportFormatsConfiguration}.
Arguments cfg_workspaceConfiguration {ExportFormatsConfiguration}.
Arguments cfg_connections {ExportFormatsConfiguration}.
Arguments cfg_connection_default {ExportFormatsConfiguration}.
Arguments cfg_userWorkspaceConfigurations {ExportFormatsConfiguration}.
Arguments Helper_newGuid {ExportFormatsConfiguration}.
Arguments Build_Configuration {ExportFormatsConfiguration}.
Arguments undefined {ExportFormatsConfiguration}.
Arguments VString {ExportFormatsConfiguration}.
Arguments VWorkspaceConfiguration {ExportFormatsConfiguration}.
Arguments VUserWorkspaceConfigurations {ExportFormatsConfiguration}.
Arguments Log {ExportFormatsConfiguration}.
Arguments ShowErrorMessage {ExportFormatsConfiguration}.
Arguments ConfigUpdate {ExportFormatsConfiguration}.
Arguments ApiInitialize {ExportFormatsConfiguration}.
Arguments _workspaceConfig {ExportFormatsConfiguration}.
Arguments _connections {ExportFormatsConfiguration}.
Arguments _activeConnection {ExportFormatsConfiguration}.
Arguments _initialized {ExportFormatsConfiguration}.
Arguments Build_DatabricksConnectionManager {ExportFormatsConfiguration}.
Arguments this {ExportFormatsConfiguration}.
Arguments trace {ExportFormatsConfiguration}.
Arguments Build_World {ExportFormatsConfiguration}.
Arguments emit {ExportFormatsConfiguration}.
Arguments update_this {ExportFormatsConfiguration}.
Arguments set_workspaceConfig {ExportFormatsConfiguration}.
Arguments set_connections {ExportFormatsConfiguration}.
Arguments set_activeConnection {ExportFormatsConfiguration}.
Arguments set_initialized {ExportFormatsConfiguration}.
Arguments set_workspaceGuid {ExportFormatsConfiguration}.
Arguments set_lastActiveConnection {ExportFormatsConfiguration}.
Arguments Connections {ExportFormatsConfiguration}.
Arguments ActiveConnection {ExportFormatsConfiguration}.
Arguments push_valid {ExportFormatsConfiguration}.
Arguments getConnectionsFromWorkspace {ExportFormatsConfiguration}.
Arguments getDefaultConnectionFromWorkspace {ExportFormatsConfiguration}.
Arguments AllUserWorkspaceConfigurations {ExportFormatsConfiguration}.
Arguments CurrentUserWorkspaceConfiguration {ExportFormatsConfiguration}.
Arguments getConnectionsFromUserConfig {ExportFormatsConfiguration}.
Arguments CurrentWorkspaceConfiguration {ExportFormatsConfiguration}.
Arguments updateWorkspaceConfig {ExportFormatsConfiguration}.
Arguments cleanConnectionsFromConfig {ExportFormatsConfiguration}.
Arguments cleanDefaultConnectionFromConfig {ExportFormatsConfiguration}.
Arguments updateUserWorkspaceConfig {ExportFormatsConfiguration}.
Arguments loadConnections {ExportFormatsConfiguration}.
Arguments activateConnection {ExportFormatsConfiguration}.
Arguments first_displayName {ExportFormatsConfiguration}.
Arguments constructor {ExportFormatsConfiguration}.
Arguments fresh_object {ExportFormatsConfiguration}.
Arguments new_DatabricksConnectionManager {ExportFormatsConfiguration}.
Arguments current_guid {ExportFormatsConfiguration}.
Arguments loaded_workspaceConfig {ExportFormatsConfiguration}.
Arguments has_guid {ExportFormatsConfiguration}.
Arguments entries_of_workspace {ExportFormatsConfiguration}.
Arguments explicit_list {ExportFormatsConfiguration}.
Arguments default_connection {ExportFormatsConfiguration}.
Arguments persisted {ExportFormatsConfiguration}.
Arguments names {ExportFormatsConfiguration}.
Arguments append_new {ExportFormatsConfiguration}.
Arguments merged_by_precedence {ExportFormatsConfiguration}.
Arguments append_unseen {ExportFormatsConfiguration}.
Arguments merged_accumulating {ExportFormatsConfiguration}.
Arguments config_writes {ExportFormatsConfiguration}.
Arguments written_keys {ExportFormatsConfiguration}.
Arguments api_initializations {ExportFormatsConfiguration}.
Arguments ActiveConnectionName {ExportFormatsConfiguration}.
Arguments named {ExportFormatsConfiguration}.
Arguments writes_at {ExportFormatsConfiguration}.
Arguments error_messages {ExportFormatsConfiguration}.
Arguments activated {ExportFormatsConfiguration}.

(** *** Sample configurations *)

Module Samples.

Definition connection (name url : string) (cells : bool)
  : iDatabricksConnection unit :=
  {| displayName := name;
     cloudProvider := "Azure";
     apiRootUrl := url;
     personalAccessToken := "dapi0123";
     localSyncFolder := "c:\sync";
     exportFormats := tt;
     useCodeCells := cells |}.

(** A validator: a connection needs an API root URL. *)
Definition has_url (c : DatabricksConnection unit) : bool :=
  negb (String.eqb (apiRootUrl c) "").

Definition no_default : iDatabricksConnection unit := connection "" "" false.

(** A workspace opened for the first time: nothing is configured. *)
Definition first_start : Configuration unit :=
  {| cfg_workspaceConfiguration :=
       {| workspaceGuid := None; lastActiveConnection := None |};
     cfg_connections := [];
     cfg_connection_default := no_default;
     cfg_userWorkspaceConfigurations := [];
     Helper_newGuid := "guid-new" |}.

Definition other_workspace : iUserWorkspaceConfiguration unit :=
  {| workspaceConfig :=
       {| workspaceGuid := Some "guid-other"; lastActiveConnection := Some "Z" |};
     connections := [connection "Z" "https://z" false] |}.

(** The example of the specification: [A] in the explicit list, [A] and
    [B] persisted. *)
Definition overlapping : Configuration unit :=
  {| cfg_workspaceConfiguration :=
       {| workspaceGuid := Some "guid-1"; lastActiveConnection := Some "A" |};
     cfg_connections := [connection "A" "https://explicit" true];
     cfg_connection_default := no_default;
     cfg_userWorkspaceConfigurations :=
       [other_workspace;
        {| workspaceConfig :=
             {| workspaceGuid := Some "guid-1"; lastActiveConnection := Some "A" |};
           connections := [connection "A" "https://persisted" false;
                           connection "B" "https://b" false] |}];
     Helper_newGuid := "guid-new" |}.

(** Two persisted connections of the same name. *)
Definition persisted_twice : Configuration unit :=
  {| cfg_workspaceConfiguration :=
       {| workspaceGuid := Some "guid-1"; lastActiveConnection := None |};
     cfg_connections := [];
     cfg_connection_default := no_default;
     cfg_userWorkspaceConfigurations :=
       [{| workspaceConfig :=
             {| workspaceGuid := Some "guid-1"; lastActiveConnection := None |};
           connections := [connection "A" "https://first" false;
                           connection "A" "https://second" false] |}];
     Helper_newGuid := "guid-new" |}.

(** Two entries of the global list for this workspace. *)
Definition duplicated_guid : Configuration unit :=
  {| cfg_workspaceConfiguration :=
       {| workspaceGuid := Some "guid-1"; lastActiveConnection := None |};
     cfg_connections := [connection "A" "https://a" false];
     cfg_connection_default := no_default;
     cfg_userWorkspaceConfigurations :=
       [{| workspaceConfig :=
             {| workspaceGuid := Some "guid-1"; lastActiveConnection := None |};
           connections := [] |};
        other_workspace;
        {| workspaceConfig :=
             {| workspaceGuid := Some "guid-1"; lastActiveConnection := Some "B" |};
           connections := [connection "B" "https://b" false] |}];
     Helper_newGuid := "guid-new" |}.

(** What the configuration holds once the writes of a load of
    [overlapping] have been applied: the workspace keys are cleared and the
    global list has the merged entry of the workspace. *)
Definition overlapping_persisted : Configuration unit :=
  {| cfg_workspaceConfiguration :=
       {| workspaceGuid := Some "guid-1"; lastActiveConnection := Some "A" |};
     cfg_connections := [];
     cfg_connection_default := no_default;
     cfg_userWorkspaceConfigurations :=
       [other_workspace;
        {| workspaceConfig :=
             {| workspaceGuid := Some "guid-1"; lastActiveConnection := Some "A" |};
           connections := [connection "A" "https://explicit" true;
                           connection "B" "https://b" false] |}];
     Helper_newGuid := "guid-new" |}.

(** The remembered connection is not configured any more. *)
Definition stale_last_active : Configuration unit :=
  {| cfg_workspaceConfiguration :=
       {| workspaceGuid := Some "guid-1"; lastActiveConnection := Some "Gone" |};
     cfg_connections := [connection "A" "https://a" false;
                         connection "B" "https://b" true];
     cfg_connection_default := no_default;
     cfg_userWorkspaceConfigurations := [other_workspace];
     Helper_newGuid := "guid-new" |}.

(** Connections, but no remembered one and no guid yet. *)
Definition nothing_remembered : Configuration unit :=
  {| cfg_workspaceConfiguration :=
       {| workspaceGuid := None; lastActiveConnection := None |};
     cfg_connections := [connection "A" "https://a" false;
                         connection "" "" false;
                         connection "B" "https://b" true];
     cfg_connection_default := connection "D" "https://d" false;
     cfg_userWorkspaceConfigurations := [other_workspace];
     Helper_newGuid := "guid-new" |}.

(** A manager that has loaded [overlapping]. *)
Definition loaded : World unit :=
  snd (loadConnections has_url overlapping fresh_object).

End Samples.

End ConnectionManager.

(** ** The job-run tree item *)

(** The interfaces of [./_types] that the tree item reads. *)
Module Types.

(** A payload of a run as [JSON.parse] gives it: a key the jobs API may
    leave out is an [option]. *)
Module NotebookTask.
Record t : Type := {
  notebook_path : string;
  revision_timestamp : option Z;
  (* an object with string values, in insertion order *)
  base_parameters : option (list (string * string))
}.
End NotebookTask.

Module SparkJarTask.
Record t : Type := {
  jar_uri : option string;
  main_class_name : string;
  parameters : option (list string)
}.
End SparkJarTask.

Module SparkPythonTask.
Record t : Type := {
  python_file : string;
  parameters : option (list string)
}.
End SparkPythonTask.

Module SparkSubmitTask.
Record t : Type := {
  parameters : option (list string)
}.
End SparkSubmitTask.

Record iTask : Type := {
  notebook_task : option NotebookTask.t;
  spark_jar_task : option SparkJarTask.t;
  spark_python_task : option SparkPythonTask.t;
  spark_submit_task : option SparkSubmitTask.t
}.

Record iRunState : Type := {
  life_cycle_state : string;
  result_state : option string
}.

(** The numbers of a run are the integer literals of the jobs API
    (identifiers, and times in milliseconds); the number that JavaScript
    computes with is the double nearest to the literal,
    [JsNumber.of_Z]. *)
Record iDatabricksJobRun : Type := {
  job_id : Z;
  run_id : Z;
  run_name : string;
  run_type : string;
  run_page_url : string;
  start_time : Z;
  setup_duration : Z;
  execution_duration : Z;
  cleanup_duration : Z;
  state : iRunState;
  task : iTask
}.

End Types.

Module DatabricksJobRun.

Import Types.
Import NotebookTask SparkJarTask SparkPythonTask SparkSubmitTask.

Local Open Scope string_scope.
Local Open Scope Z_scope.

Definition LF : string := String "010"%char "".

(** *** Dates *)

(** [new Date(value)] for a number: the time value, a whole number of
    milliseconds, or [None] for an invalid date (a value that is not
    finite or lies outside of plus or minus 8.64e15 ms). *)
Definition Date : Type := option Z.

Definition new_Date (value : JsNumber.number) : Date :=
  match value with
  | JsNumber.Finite units =>
      if Z.abs units <=? 8640000000000000 * JsNumber.one
      then Some (Z.quot units JsNumber.one)
      else None
  | _ => None
  end.

(** [getTime()] of a valid date of time value [t]. *)
Definition getTime (t : Z) : JsNumber.number := JsNumber.Finite (t * JsNumber.one).

Definition digit (d : Z) : string :=
  String (ascii_of_nat (48 + Z.to_nat d)%nat) "".

Definition two_digits (n : Z) : string := digit (n / 10) ++ digit (n mod 10).

Definition three_digits (n : Z) : string :=
  digit (n / 100) ++ two_digits (n mod 100).

(** [d.toISOString().split('T')[1]] for a valid date [d] of time value
    [t]: the date part of the ISO string has no letter, so this is its
    time part, [HH:mm:ss.sssZ]. *)
Definition toISOString_time (t : Z) : string :=
  let ms := t mod 86400000 in
  two_digits (ms / 3600000) ++ ":" ++
  two_digits ((ms / 60000) mod 60) ++ ":" ++
  two_digits ((ms / 1000) mod 60) ++ "." ++
  three_digits (ms mod 1000) ++ "Z".

(** [toISOString] throws on an invalid date. *)
Definition invalid_time_value : JsError := RangeError "Invalid time value".

(** [undefined.join(...)]: reading a property of [undefined] throws a
    [TypeError]; the message is the one of the engine of the editor. *)
Definition join_of_undefined : JsError :=
  TypeError "Cannot read properties of undefined (reading 'join')".

(** A value in a template literal or a string concatenation. *)
Definition opt_toString (o : option string) : string :=
  match o with
  | Some s => s
  | None => "undefined"
  end.

(** [parameters.join(sep)] for an array that may be missing. *)
Definition join_parameters (sep : string) (parameters : option (list string))
  : Outcome string :=
  match parameters with
  | Some l => Returned (join sep l)
  | None => Threw join_of_undefined
  end.

Section TreeItem.

(** [JSON.stringify] on the notebook parameters and [Helper.trimChar]. *)
Variable JSON_stringify : list (string * string) -> string.
Variable trimChar : string -> string -> string.

(** The fields the constructor sets: [super("JOB_RUN", definition.run_id,
    definition.run_name, definition, None)] and the label. *)
Record DatabricksJobRun : Type := {
  type : string;
  name : string;
  label : string;
  definition : iDatabricksJobRun
}.

Definition fromInterface (item : iDatabricksJobRun) : DatabricksJobRun :=
  {| type := "JOB_RUN";
     name := run_name item;
     label := "Run " ++ run_name item;
     definition := item |}.

Definition job_id (this : DatabricksJobRun) : Z := Types.job_id (definition this).

Definition job_run_id (this : DatabricksJobRun) : Z := Types.run_id (definition this).

Definition start_time (this : DatabricksJobRun) : Z :=
  Types.start_time (definition this).

Definition link (this : DatabricksJobRun) : string :=
  Types.run_page_url (definition this).

(** [x == "S"] for a field that is a string or [undefined]. *)
Definition equals (x : option string) (s : string) : bool :=
  match x with
  | Some v => String.eqb v s
  | None => false
  end.

Definition state (this : DatabricksJobRun) : string :=
  let result_state := Types.result_state (Types.state (definition this)) in
  if equals result_state "SUCCESS" then "succeeded"
  else if equals result_state "FAILED"
          || equals result_state "CANCELED"
          || equals result_state "TIMEDOUT" then "failed"
  else "running".

(** A getter that falls off its end returns [undefined]: [None]. *)
Definition task_type (this : DatabricksJobRun) : option string :=
  let task := Types.task (definition this) in
  match notebook_task task with
  | Some _ => Some "Notebook"
  | None =>
  match spark_jar_task task with
  | Some _ => Some "JAR"
  | None =>
  match spark_python_task task with
  | Some _ => Some "Python"
  | None =>
  match spark_submit_task task with
  | Some _ => Some "Submit"
  | None => None
  end end end end.

(** [task_description] and [task_details] call [join] on the parameters
    of the payload, which throws when the payload has none. *)
Definition task_description (this : DatabricksJobRun) : Outcome (option string) :=
  let task := Types.task (definition this) in
  match notebook_task task with
  | Some n => Returned (Some ("Notebook: " ++ notebook_path n))
  | None =>
  match spark_jar_task task with
  | Some j =>
      Returned (Some ("JAR: " ++ opt_toString (jar_uri j) ++ " - "
                      ++ main_class_name j))
  | None =>
  match spark_python_task task with
  | Some p => Returned (Some ("Python: " ++ python_file p))
  | None =>
  match spark_submit_task task with
  | Some s =>
      match join_parameters " " (SparkSubmitTask.parameters s) with
      | Returned joined => Returned (Some ("Spark-Submit: " ++ joined))
      | Threw e => Threw e
      | Hangs => Hangs
      end
  | None => Returned None
  end end end end.

Definition task_details (this : DatabricksJobRun) : Outcome (option string) :=
  let task := Types.task (definition this) in
  match notebook_task task with
  | Some n =>
      Returned
        (Some ("Notebook: " ++ notebook_path n ++ LF
               ++ "Revision Timestamp: "
               ++ opt_toString (option_map Number_toString (revision_timestamp n))
               ++ LF
               ++ "Parameters: "
               ++ opt_toString (option_map JSON_stringify (base_parameters n))))
  | None =>
  match spark_jar_task task with
  | Some j =>
      match join_parameters " " (SparkJarTask.parameters j) with
      | Returned joined =>
          Returned (Some ("JAR: " ++ opt_toString (jar_uri j) ++ LF
                          ++ "Main Class: " ++ main_class_name j ++ LF
                          ++ "Parameters: " ++ joined))
      | Threw e => Threw e
      | Hangs => Hangs
      end
  | None =>
  match spark_python_task task with
  | Some p =>
      match join_parameters " " (SparkPythonTask.parameters p) with
      | Returned joined =>
          Returned (Some ("Python: " ++ python_file p ++ LF
                          ++ "Parameters: " ++ joined))
      | Threw e => Threw e
      | Hangs => Hangs
      end
  | None =>
  match spark_submit_task task with
  | Some s =>
      match join_parameters " " (SparkSubmitTask.parameters s) with
      | Returned joined => Returned (Some ("Spark-Submit: " ++ joined))
      | Threw e => Threw e
      | Hangs => Hangs
      end
  | None => Returned None
  end end end end.

(** The end date of the [succeeded] branch of [tooltip]: the four
    numbers are added from left to right, each sum rounded to a double. *)
Definition endDate (this : DatabricksJobRun) : Date :=
  let d := definition this in
  new_Date
    (JsNumber.add
       (JsNumber.add
          (JsNumber.add (JsNumber.of_Z (Types.start_time d))
                        (JsNumber.of_Z (setup_duration d)))
          (JsNumber.of_Z (execution_duration d)))
       (JsNumber.of_Z (cleanup_duration d))).

(** [(later - earlier) / 1000] *)
Definition elapsed_seconds (later earlier : JsNumber.number) : JsNumber.number :=
  JsNumber.div (JsNumber.sub later earlier) (JsNumber.of_Z 1000).

(** [get tooltip()], with [now] the value of [Date.now()].  The task
    details are read first.  Each date is printed with [toISOString]
    before its [getTime()] is read, so an invalid date ends the getter
    with a [RangeError]. *)
Definition tooltip (now : Z) (this : DatabricksJobRun) : Outcome string :=
  match task_details this with
  | Threw e => Threw e
  | Hangs => Hangs
  | Returned details =>
  let tooltip := opt_toString details in
  match new_Date (JsNumber.of_Z (Types.start_time (definition this))) with
  | None => Threw invalid_time_value
  | Some startDate =>
      let tooltip :=
        tooltip ++ "Started: " ++ trimChar (toISOString_time startDate) "T"
                ++ " UTC" ++ LF in
      if String.eqb (state this) "succeeded" then
        match endDate this with
        | None => Threw invalid_time_value
        | Some endDate =>
            let tooltip :=
              tooltip ++ "Finished: " ++ trimChar (toISOString_time endDate) "T"
                      ++ " UTC" ++ LF in
            Returned (tooltip ++ "Duration: "
                      ++ JsNumber.toString
                           (elapsed_seconds (getTime endDate) (getTime startDate))
                      ++ " seconds" ++ LF)
        end
      else
        Returned (tooltip ++ "Duration: "
                  ++ JsNumber.toString
                       (elapsed_seconds (JsNumber.of_Z now) (getTime startDate))
                  ++ " seconds (running)" ++ LF)
  end
  end.

(** [a || b] on strings: [a] unless it is [undefined] or empty. *)
Definition or_else (a : option string) (b : string) : string :=
  match a with
  | Some s => if String.eqb s "" then b else s
  | None => b
  end.

Definition description (this : DatabricksJobRun) : Outcome string :=
  let state := Types.state (definition this) in
  match task_description this with
  | Returned task_description =>
      Returned ("(" ++ or_else (result_state state) (life_cycle_state state)
                ++ ") " ++ run_type (definition this) ++ " - "
                ++ opt_toString task_description)
  | Threw e => Threw e
  | Hangs => Hangs
  end.

Definition contextValue (this : DatabricksJobRun) : string :=
  if String.eqb (state this) "running" then "RUNNING_JOB" else type this.

(** *** [stop]

    [stop] runs on two strands.  The method itself calls the API
    client, registers the two callbacks on the promise it got, starts
    the timer of [Helper.wait(10000)], and after it asks for the
    refresh.  The callback strand shows one notice when the promise
    settles, which is while the method waits, after it has finished, or
    never.  [DatabricksApiService.cancelJunJob] hands back a promise and
    [Helper.wait] resolves after the delay it is given. *)
Inductive UiEffect : Type :=
| CancelRunJob (run_id : Z)               (* DatabricksApiService.cancelJunJob *)
| ShowInformationMessage (msg : string)
| ShowErrorMessage (msg : string)
| Wait (ms : Z)                           (* await Helper.wait *)
| ExecuteCommand (command : string) (arg : bool).

Inductive Settlement : Type :=
| Fulfilled
| Rejected (error : string).

Inductive Moment : Type := DuringTheWait | AfterTheRefresh.

(** How the promise of the API client ends: [None] when it never
    settles. *)
Definition CancelResponse : Type := option (Settlement * Moment).

Definition on_settled (this : DatabricksJobRun) (s : Settlement) : UiEffect :=
  match s with
  | Fulfilled =>
  ShowInformationMessage
    ("Stopping job run " ++ label this ++ " ("
     ++ Number_toString (job_run_id this) ++ ") ...")
  | Rejected error => ShowErrorMessage ("ERROR: " ++ error)
  end.

Definition callbacks_at (this : DatabricksJobRun) (response : CancelResponse)
       (m : Moment) : list UiEffect :=
  match response, m with
  | Some (s, DuringTheWait), DuringTheWait => [on_settled this s]
  | Some (s, AfterTheRefresh), AfterTheRefresh => [on_settled this s]
  | _, _ => []
  end.

Definition stop (this : DatabricksJobRun) (response : CancelResponse)
  : list UiEffect :=
  [CancelRunJob (job_run_id this)]
  ++ [Wait 10000]
  ++ callbacks_at this response DuringTheWait
  ++ [ExecuteCommand "databricksJobs.refresh" false]
  ++ callbacks_at this response AfterTheRefresh.

(** The requests for a refresh of the job list in a trace. *)
Definition is_refresh (e : UiEffect) : bool :=
  match e with
  | ExecuteCommand command _ => String.eqb command "databricksJobs.refresh"
  | _ => false
  end.

Definition is_wait (e : UiEffect) : bool :=
  match e with
  | Wait _ => true
  | _ => false
  end.

End TreeItem.

(** *** Sample job runs *)

Module Samples.

Definition no_task : iTask :=
  {| notebook_task := None;
     spark_jar_task := None;
     spark_python_task := None;
     spark_submit_task := None |}.

Definition python_task : iTask :=
  {| notebook_task := None;
     spark_jar_task := None;
     spark_python_task :=
       Some {| python_file := "dbfs:/jobs/etl.py";
               SparkPythonTask.parameters := Some ["--day"; "1"] |};
     spark_submit_task := None |}.

(** A record with two payloads: a notebook and a Python file. *)
Definition notebook_and_python_task : iTask :=
  {| notebook_task :=
       Some {| notebook_path := "/Shared/etl";
               revision_timestamp := Some 1600000000000;
               base_parameters := Some [("day", "1")] |};
     spark_jar_task := None;
     spark_python_task := spark_python_task python_task;
     spark_submit_task := None |}.

(** A JAR payload that names its main class and nothing else. *)
Definition jar_without_parameters : iTask :=
  {| notebook_task := None;
     spark_jar_task :=
       Some {| jar_uri := None;
               main_class_name := "com.example.Main";
               SparkJarTask.parameters := None |};
     spark_python_task := None;
     spark_submit_task := None |}.

Definition run (result : option string) (start setup execution cleanup : Z)
           (t : iTask) : DatabricksJobRun :=
  fromInterface
    {| Types.job_id := 11;
       run_id := 42;
       run_name := "nightly";
       run_type := "JOB_RUN";
       run_page_url := "https://host/#job/11/run/42";
       Types.start_time := start;
       setup_duration := setup;
       execution_duration := execution;
       cleanup_duration := cleanup;
       Types.state := {| life_cycle_state := "TERMINATED"; result_state := result |};
       task := t |}.

(** The run of the specification: start 0, durations 1000, 2000 and 500. *)
Definition succeeded_run : DatabricksJobRun :=
  run (Some "SUCCESS") 0 1000 2000 500 python_task.

(** A run that starts at the last valid time value and lasts 1 ms. *)
Definition late_run : DatabricksJobRun :=
  run (Some "SUCCESS") 8640000000000000 0 1 0 python_task.


(** Stand-ins for [JSON.stringify] and [Helper.trimChar]. *)
Definition braces (o : list (string * string)) : string :=
  "{" ++ join "," (map (fun kv => fst kv ++ ":" ++ snd kv) o) ++ "}".

Definition keep (s c : string) : string := s.

End Samples.

End DatabricksJobRun.

(** * Properties of the connection manager *)

Module ConnectionManagerFacts.

Import ConnectionManager.

Local Open Scope string_scope.
Local Open Scope list_scope.

Section Facts.

Context {EF : Type}.
Variable validate : DatabricksConnection EF -> bool.

(** Unfolds the monad and the field updates of a method body. *)
Ltac run :=
  cbv beta iota zeta delta
    [bind ret throw hang try_catch gets modify emit update_this
     set_workspaceConfig set_connections set_activeConnection set_initialized
     set_workspaceGuid set_lastActiveConnection Connections ActiveConnection
     CurrentWorkspaceConfiguration updateWorkspaceConfig
     cleanConnectionsFromConfig cleanDefaultConnectionFromConfig];
  cbn [this trace _workspaceConfig _connections _activeConnection _initialized
       workspaceGuid lastActiveConnection].

(** The loop that builds, validates and pushes keeps the valid
    connections, in order. *)
Lemma push_valid_from (l acc : list (DatabricksConnection EF)) :
  fold_left
    (fun ret con =>
       let dbCon := new_DatabricksConnection con in
       if validate dbCon then ret ++ [dbCon] else ret) l acc
  = acc ++ filter validate l.
Proof.
  revert acc. induction l as [|c l IH]; intros acc; simpl.
  - now rewrite app_nil_r.
  - rewrite IH. unfold new_DatabricksConnection.
    destruct (validate c); simpl; [now rewrite <- app_assoc | reflexivity].
Qed.

Lemma push_valid_filter (l : list (DatabricksConnection EF)) :
  push_valid validate l = filter validate l.
Proof. unfold push_valid. now rewrite push_valid_from. Qed.

(** The calls of the persistence step of [loadConnections]: the keys it
    writes, in order. *)
Lemma loadConnections_returns (cfg : Configuration EF) (w : World EF) :
  List.length (entries_of_workspace cfg) <= 1 ->
  exists new : list (Effect EF),
    loadConnections validate cfg w
    = (Returned tt,
       {| this := {| _workspaceConfig := loaded_workspaceConfig cfg;
                     _connections := merged_by_precedence validate cfg;
                     _activeConnection := _activeConnection (this w);
                     _initialized := true |};
          trace := trace w ++ new |})
    /\ written_keys new
       = ["databricks.userWorkspaceConfigurations";
          "databricks.connections";
          "databricks.connection.default.displayName";
          "databricks.connection.default.cloudProvider";
          "databricks.connection.default.apiRootUrl";
          "databricks.connection.default.personalAccessToken";
          "databricks.connection.default.localSyncFolder";
          "databricks.connection.default.databricksConnectJars";
          "databricks.connection.default.pythonInterpreter";
          "databricks.connection.default.port";
          "databricks.connection.default.organizationId";
          "databricks.connection.default.exportFormats";
          "databricks.connection.default.useCodeCells"]
    /\ config_writes "databricks.userWorkspaceConfigurations" new
       = [(VUserWorkspaceConfigurations
             (filter (fun x => negb (has_guid (current_guid cfg) x))
                     (cfg_userWorkspaceConfigurations cfg)
              ++ [{| workspaceConfig := loaded_workspaceConfig cfg;
                     connections := merged_by_precedence validate cfg |}]),
           Global)]
    /\ api_initializations new = [].
Proof.
  intros H.
  unfold loadConnections, updateUserWorkspaceConfig, getConnectionsFromUserConfig,
    CurrentUserWorkspaceConfiguration, AllUserWorkspaceConfigurations,
    getConnectionsFromWorkspace.
  unfold merged_by_precedence, persisted, default_connection, explicit_list,
    loaded_workspaceConfig.
  unfold entries_of_workspace, has_guid, current_guid in *.
  destruct cfg as [[[g|] la] cons dflt all newGuid]; cbn [cfg_workspaceConfiguration
    cfg_connections cfg_userWorkspaceConfigurations Helper_newGuid workspaceGuid
    lastActiveConnection] in *; run.
  all: match goal with
       | |- context [getDefaultConnectionFromWorkspace ?v ?c] =>
           generalize (getDefaultConnectionFromWorkspace v c); intros [d|]
       end; run.
  all: destruct (filter _ all) as [|a [|b l]]; cbn [List.length] in H; try lia;
       cbn [List.length Nat.eqb nth_error]; run; rewrite ?push_valid_filter.
  all: unfold append_new, names; cbn [filter].
  all: try (destruct (includes _ (displayName d)); cbn [negb]; run).
  all: rewrite ?app_nil_r; repeat rewrite <- (app_assoc (trace w)); cbn [app].
  all: eexists; split; [reflexivity|].
  all: cbn; auto.
Qed.

Lemma loadConnections_throws (cfg : Configuration EF) (w : World EF) :
  1 < List.length (entries_of_workspace cfg) ->
  exists new : list (Effect EF),
    loadConnections validate cfg w
    = (Threw (Error duplicate_guid_message),
       {| this := {| _workspaceConfig := loaded_workspaceConfig cfg;
                     _connections := explicit_list validate cfg;
                     _activeConnection := _activeConnection (this w);
                     _initialized := _initialized (this w) |};
          trace := trace w ++ new |})
    /\ written_keys new = []
    /\ api_initializations new = [].
Proof.
  intros H.
  unfold loadConnections, updateUserWorkspaceConfig, getConnectionsFromUserConfig,
    CurrentUserWorkspaceConfiguration, AllUserWorkspaceConfigurations,
    getConnectionsFromWorkspace.
  unfold explicit_list, loaded_workspaceConfig.
  unfold entries_of_workspace, has_guid, current_guid in *.
  destruct cfg as [[[g|] la] cons dflt all newGuid]; cbn [cfg_workspaceConfiguration
    cfg_connections cfg_userWorkspaceConfigurations Helper_newGuid workspaceGuid
    lastActiveConnection] in *; run.
  all: match goal with
       | |- context [getDefaultConnectionFromWorkspace ?v ?c] =>
           generalize (getDefaultConnectionFromWorkspace v c); intros [d|]
       end; run.
  all: destruct (filter _ all) as [|a [|b l]]; cbn [List.length] in H; try lia;
       cbn [List.length Nat.eqb nth_error]; run; rewrite ?push_valid_filter.
  all: repeat rewrite <- (app_assoc (trace w)); cbn [app].
  all: eexists; split; [reflexivity|].
  all: cbn; auto.
Qed.

Lemma written_keys_app (t1 t2 : list (Effect EF)) :
  written_keys (t1 ++ t2) = written_keys t1 ++ written_keys t2.
Proof.
  induction t1 as [|e t1 IH]; [reflexivity|].
  destruct e; cbn; now rewrite ?IH.
Qed.

Lemma config_writes_app (key : string) (t1 t2 : list (Effect EF)) :
  config_writes key (t1 ++ t2) = config_writes key t1 ++ config_writes key t2.
Proof.
  induction t1 as [|e t1 IH]; [reflexivity|].
  destruct e; cbn; rewrite ?IH; try reflexivity.
  now destruct (String.eqb key0 key).
Qed.

Lemma error_messages_app (t1 t2 : list (Effect EF)) :
  error_messages (t1 ++ t2) = error_messages t1 ++ error_messages t2.
Proof.
  induction t1 as [|e t1 IH]; [reflexivity|].
  destruct e; cbn; now rewrite ?IH.
Qed.

Lemma api_initializations_app (t1 t2 : list (Effect EF)) :
  api_initializations (t1 ++ t2) = api_initializations t1 ++ api_initializations t2.
Proof.
  induction t1 as [|e t1 IH]; [reflexivity|].
  destruct e; cbn; now rewrite ?IH.
Qed.

(** A key that is not among the written keys has no write. *)
Lemma config_writes_absent (key : string) (t : list (Effect EF)) :
  ~ In key (written_keys t) -> config_writes key t = [].
Proof.
  induction t as [|e t IH]; [reflexivity|].
  destruct e; cbn; auto.
  intros H. destruct (String.eqb_spec key0 key) as [->|_]; [|tauto].
  exfalso. apply H. now left.
Qed.

Lemma filter_twice {A : Type} (f : A -> bool) (l : list A) :
  filter f (filter f l) = filter f l.
Proof.
  induction l as [|x l IH]; [reflexivity|].
  cbn [filter]. destruct (f x) eqn:Ex; cbn [filter]; rewrite ?Ex; now rewrite IH.
Qed.

Lemma filter_of_complement {A : Type} (f : A -> bool) (l : list A) :
  filter f (filter (fun x => negb (f x)) l) = [].
Proof.
  induction l as [|x l IH]; [reflexivity|].
  cbn [filter]. destruct (f x) eqn:Ex; cbn [negb filter]; rewrite ?Ex; exact IH.
Qed.

Lemma opt_string_eqb_eq (a b : option string) :
  opt_string_eqb a b = true <-> a = b.
Proof.
  destruct a as [x|], b as [y|]; cbn; split; try congruence.
  - intros H. apply String.eqb_eq in H. now subst.
  - intros [= ->]. apply String.eqb_refl.
Qed.

Lemma includes_In (l : list string) (n : string) :
  includes l n = true <-> In n l.
Proof.
  unfold includes. rewrite existsb_exists. split.
  - intros [x [Hx E]]. apply String.eqb_eq in E. now subst.
  - intros H. exists n. split; [assumption | apply String.eqb_refl].
Qed.

Lemma In_append_new (earlier later : list (DatabricksConnection EF))
      (c : DatabricksConnection EF) :
  In c (append_new earlier later)
  <-> In c earlier \/ (In c later /\ ~ In (displayName c) (names earlier)).
Proof.
  unfold append_new. rewrite in_app_iff, filter_In, negb_true_iff.
  rewrite <- not_true_iff_false, includes_In. tauto.
Qed.

(** [activateConnection] on a name carried by exactly one connection. *)
Lemma activateConnection_found (w : World EF) (X : string)
      (c : DatabricksConnection EF) :
  _initialized (this w) = true ->
  filter (fun x => String.eqb (displayName x) X) (_connections (this w)) = [c] ->
  activateConnection X w
  = (Returned (Some c),
     {| this := {| _workspaceConfig :=
                     {| workspaceGuid := workspaceGuid (_workspaceConfig (this w));
                        lastActiveConnection := Some X |};
                   _connections := _connections (this w);
                   _activeConnection := Some c;
                   _initialized := true |};
        trace := trace w
                 ++ [ApiInitialize (Some c);
                     ConfigUpdate "databricks.workspaceConfiguration"
                       (VWorkspaceConfiguration
                          {| workspaceGuid := workspaceGuid (_workspaceConfig (this w));
                             lastActiveConnection := Some X |})
                       Workspace;
                     ConfigUpdate "python.dataScience.codeRegularExpression"
                       (if useCodeCells c then VString codeRegularExpression
                        else undefined)
                       Workspace] |}).
Proof.
  intros Hi Hf. unfold activateConnection. run.
  rewrite Hi. run. rewrite Hf. cbn [List.length Nat.eqb nth_error]. run.
  rewrite Hi.
  destruct (useCodeCells c); run; repeat rewrite <- (app_assoc (trace w));
    reflexivity.
Qed.

(** [activateConnection] on any other name. *)
Lemma activateConnection_not_found (w : World EF) (X : string) :
  _initialized (this w) = true ->
  List.length (filter (fun x => String.eqb (displayName x) X)
                      (_connections (this w))) <> 1 ->
  activateConnection X w
  = (Threw (Error (not_found_message X)),
     {| this := this w; trace := trace w ++ [Log (not_found_message X)] |}).
Proof.
  intros Hi Hf. unfold activateConnection. run. rewrite Hi. run.
  apply Nat.eqb_neq in Hf. rewrite Hf. run. reflexivity.
Qed.

Lemma In_names_append_new (earlier later : list (DatabricksConnection EF))
      (n : string) :
  In n (names (append_new earlier later))
  <-> In n (names earlier) \/ In n (names later).
Proof.
  unfold names at 1. rewrite in_map_iff. split.
  - intros [c [<- Hc]]. apply In_append_new in Hc.
    destruct Hc as [Hc | [Hc _]]; [left | right]; now apply in_map.
  - intros [H | H].
    + apply in_map_iff in H. destruct H as [c [<- Hc]].
      exists c. split; [reflexivity | apply In_append_new; now left].
    + destruct (includes (names earlier) n) eqn:Hn.
      * apply includes_In, in_map_iff in Hn. destruct Hn as [c [<- Hc]].
        exists c. split; [reflexivity | apply In_append_new; now left].
      * apply in_map_iff in H. destruct H as [c [<- Hc]].
        exists c. split; [reflexivity|]. apply In_append_new. right.
        split; [assumption|]. rewrite <- includes_In. congruence.
Qed.

(** The accumulating merge of the specification and the merge of the code
    differ only when [later] repeats a name. *)
Lemma append_unseen_without_repeats (earlier later : list (DatabricksConnection EF)) :
  NoDup (names later) ->
  append_unseen earlier later = append_new earlier later.
Proof.
  revert earlier. induction later as [|x later IH]; intros earlier Hnd.
  - unfold append_new. cbn. now rewrite app_nil_r.
  - inversion Hnd as [|n ns Hx Hnd']; subst.
    change (append_unseen earlier (x :: later))
      with (append_unseen
              (if includes (names earlier) (displayName x)
               then earlier else earlier ++ [x]) later).
    destruct (includes (names earlier) (displayName x)) eqn:Hin.
    + rewrite (IH earlier Hnd'). unfold append_new. cbn [filter].
      now rewrite Hin.
    + rewrite (IH (earlier ++ [x]) Hnd'). unfold append_new. cbn [filter].
      rewrite Hin. cbn [negb]. rewrite <- app_assoc. cbn [app].
      do 2 f_equal. apply filter_ext_in. intros y Hy.
      unfold names, includes. rewrite map_app, existsb_app. cbn.
      destruct (String.eqb_spec (displayName y) (displayName x)) as [E|_].
      * exfalso. apply Hx. rewrite <- E. now apply in_map.
      * now rewrite !orb_false_r.
Qed.

Lemma merged_accumulating_without_repeats (cfg : Configuration EF) :
  NoDup (names (persisted validate cfg)) ->
  merged_accumulating validate cfg = merged_by_precedence validate cfg.
Proof.
  intros H. unfold merged_accumulating, merged_by_precedence.
  rewrite (append_unseen_without_repeats (explicit_list validate cfg)).
  - now apply append_unseen_without_repeats.
  - unfold default_connection.
    destruct (getDefaultConnectionFromWorkspace validate cfg); cbn;
      repeat constructor; intros [].
Qed.

(** Before [loadConnections] has run the getter [Connections] never
    returns, and neither does [activateConnection]. *)
Lemma activateConnection_before_load (w : World EF) (X : string) :
  _initialized (this w) = false -> activateConnection X w = (Hangs, w).
Proof. intros Hi. unfold activateConnection. run. now rewrite Hi. Qed.

(** C1, as amended.  When the global list holds at most one entry for the
    workspace, [loadConnections] returns with the connections merged in the
    precedence order explicit list, default, persisted: the valid
    connections of the explicit list, then the default connection if its
    name is not among them, then the persisted connections whose name is
    not among the connections gathered from the explicit list and the
    default.  The persisted connections are checked against that fixed list,
    not against each other.  A connection is in the result exactly when it
    comes from a source and no source of higher precedence has its name. *)
Theorem load_merges_by_precedence (cfg : Configuration EF) (w : World EF) :
  List.length (entries_of_workspace cfg) <= 1 ->
  let E := explicit_list validate cfg in
  let D := default_connection validate cfg in
  let P := persisted validate cfg in
  let merged := _connections (this (snd (loadConnections validate cfg w))) in
  fst (loadConnections validate cfg w) = Returned tt
  /\ merged = append_new (append_new E D) P
  /\ forall c : DatabricksConnection EF,
       In c merged <->
       In c E
       \/ (In c D /\ ~ In (displayName c) (names E))
       \/ (In c P /\ ~ In (displayName c) (names E)
                  /\ ~ In (displayName c) (names D)).
Proof.
  intros H E D P merged.
  destruct (loadConnections_returns cfg w H) as [new [Hrun _]].
  subst merged. rewrite Hrun. cbn [fst snd this _connections].
  split; [reflexivity|]. split; [reflexivity|].
  intros c. unfold merged_by_precedence. fold E D P.
  rewrite In_append_new, In_append_new, In_names_append_new. tauto.
Qed.

(** C3.  On an initialised manager, [activateConnection] with a name that
    is not the name of exactly one connection throws the error that names
    it, and leaves every field of the manager as it was, the active
    connection among them; the only call it makes is the log line. *)
Theorem activate_unknown_name_fails (w : World EF) (X : string) :
  _initialized (this w) = true ->
  List.length (filter (fun x => String.eqb (displayName x) X)
                      (_connections (this w))) <> 1 ->
  activateConnection X w
  = (Threw (Error ("Connection with name  '" ++ X ++ "' could not be found!")),
     {| this := this w;
        trace := trace w
                 ++ [Log ("Connection with name  '" ++ X
                          ++ "' could not be found!")] |})
  /\ _activeConnection (this (snd (activateConnection X w)))
     = _activeConnection (this w).
Proof.
  intros Hi Hf. rewrite (activateConnection_not_found w X Hi Hf).
  split; reflexivity.
Qed.

(** C4.  On an initialised manager that has exactly one connection of name
    [X], [activateConnection X] returns that connection, makes it the
    active one, records [X] as [lastActiveConnection], and initialises
    the API client exactly once, with that connection. *)
Theorem activate_known_name_succeeds (w : World EF) (X : string) :
  _initialized (this w) = true ->
  List.length (filter (fun x => String.eqb (displayName x) X)
                      (_connections (this w))) = 1 ->
  exists (c : DatabricksConnection EF) (w' : World EF) (new : list (Effect EF)),
    In c (_connections (this w))
    /\ displayName c = X
    /\ activateConnection X w = (Returned (Some c), w')
    /\ _activeConnection (this w') = Some c
    /\ lastActiveConnection (_workspaceConfig (this w')) = Some X
    /\ _connections (this w') = _connections (this w)
    /\ trace w' = trace w ++ new
    /\ api_initializations new = [Some c]
    /\ config_writes "databricks.workspaceConfiguration" new
       = [(VWorkspaceConfiguration (_workspaceConfig (this w')), Workspace)].
Proof.
  intros Hi Hf.
  destruct (filter (fun x => String.eqb (displayName x) X) (_connections (this w)))
    as [|c [|c' l]] eqn:E; try discriminate Hf.
  assert (Hc : In c (filter (fun x => String.eqb (displayName x) X)
                            (_connections (this w)))) by (rewrite E; now left).
  apply filter_In in Hc. destruct Hc as [Hin Hname].
  apply String.eqb_eq in Hname.
  exists c. eexists. eexists.
  rewrite (activateConnection_found w X c Hi E).
  cbn [this trace _activeConnection _workspaceConfig _connections
       lastActiveConnection].
  repeat split; try assumption; reflexivity.
Qed.

(** C5.  When the global list holds more than one entry with the guid of
    the current workspace, [loadConnections] throws the error about the
    guids, and so does the constructor.  No entry is picked: the manager
    holds the connections of the explicit list only, is not marked as
    initialised by the call, and nothing is written to the configuration. *)
Theorem load_fails_on_duplicate_guid (cfg : Configuration EF) (w : World EF) :
  1 < List.length (entries_of_workspace cfg) ->
  exists (w' : World EF) (new : list (Effect EF)),
    loadConnections validate cfg w
    = (Threw (Error "There is an error in your User Workspace Configurations ('databricks.userWorkspaceConfigurations'). Please make sure all 'workspaceGuid' are unique!"),
       w')
    /\ _connections (this w') = explicit_list validate cfg
    /\ _initialized (this w') = _initialized (this w)
    /\ trace w' = trace w ++ new
    /\ written_keys new = []
    /\ fst (new_DatabricksConnectionManager validate cfg)
       = Threw (Error duplicate_guid_message).
Proof.
  intros H.
  destruct (loadConnections_throws cfg w H) as [new [Hrun [Hkeys _]]].
  eexists. exists new. split; [exact Hrun|].
  cbn [this trace _connections _initialized].
  repeat split; try assumption.
  unfold new_DatabricksConnectionManager, constructor.
  cbv beta iota delta [bind set_initialized update_this modify].
  match goal with
  | |- context [loadConnections validate cfg ?w0] =>
      destruct (loadConnections_throws cfg w0 H) as [new' [Hrun' _]]
  end.
  rewrite Hrun'. reflexivity.
Qed.

(** C6.  The list that a successful [loadConnections] writes to the global
    scope is the list it read, without the entry of the current workspace,
    followed by the new entry of the current workspace: every entry of
    another workspace is in it, unchanged and in the same order, and the
    current workspace has exactly the new entry. *)
Theorem load_keeps_other_workspaces (cfg : Configuration EF) (w : World EF) :
  List.length (entries_of_workspace cfg) <= 1 ->
  exists (new : list (Effect EF))
         (written : list (iUserWorkspaceConfiguration EF)),
    fst (loadConnections validate cfg w) = Returned tt
    /\ trace (snd (loadConnections validate cfg w)) = trace w ++ new
    /\ config_writes "databricks.userWorkspaceConfigurations" new
       = [(VUserWorkspaceConfigurations written, Global)]
    /\ (forall x : iUserWorkspaceConfiguration EF,
          In x (cfg_userWorkspaceConfigurations cfg) ->
          workspaceGuid (workspaceConfig x) <> Some (current_guid cfg) ->
          In x written)
    /\ filter (fun x => negb (has_guid (current_guid cfg) x)) written
       = filter (fun x => negb (has_guid (current_guid cfg) x))
                (cfg_userWorkspaceConfigurations cfg)
    /\ filter (has_guid (current_guid cfg)) written
       = [{| workspaceConfig := loaded_workspaceConfig cfg;
             connections := merged_by_precedence validate cfg |}].
Proof.
  intros H.
  destruct (loadConnections_returns cfg w H) as [new [Hrun [_ [Hglobal _]]]].
  exists new. eexists. rewrite Hrun. cbn [fst snd trace].
  split; [reflexivity|]. split; [reflexivity|]. split; [exact Hglobal|].
  assert (Hcur : has_guid (current_guid cfg)
                   {| workspaceConfig := loaded_workspaceConfig cfg;
                      connections := merged_by_precedence validate cfg |} = true).
  { unfold has_guid. cbn. apply String.eqb_refl. }
  split; [|split].
  - intros x Hx Hg. apply in_or_app. left. apply filter_In. split; [exact Hx|].
    unfold has_guid. apply negb_true_iff, not_true_iff_false.
    now rewrite opt_string_eqb_eq.
  - rewrite filter_app. cbn [filter]. rewrite Hcur. cbn [negb].
    rewrite app_nil_r. apply filter_twice.
  - rewrite filter_app. cbn [filter]. rewrite Hcur.
    now rewrite filter_of_complement.
Qed.

(** ** Further properties of loading *)

Lemma filter_valid_all (l : list (DatabricksConnection EF)) :
  (forall c, In c l -> validate c = true) -> filter validate l = l.
Proof.
  intros H. apply forallb_filter_id. apply forallb_forall. exact H.
Qed.

Lemma default_connection_valid (cfg : Configuration EF) (d : DatabricksConnection EF) :
  In d (default_connection validate cfg) ->
  validate d = true /\ displayName d <> "".
Proof.
  unfold default_connection, getDefaultConnectionFromWorkspace,
    new_DatabricksConnection.
  destruct (String.eqb_spec (displayName (cfg_connection_default cfg)) "")
    as [E|E]; cbn [orb]; [intros []|].
  destruct (validate (cfg_connection_default cfg)) eqn:V; cbn [negb];
    [|intros []].
  intros [<-|[]]. now split.
Qed.

Lemma persisted_valid (cfg : Configuration EF) (c : DatabricksConnection EF) :
  In c (persisted validate cfg) -> validate c = true.
Proof.
  unfold persisted. destruct (entries_of_workspace cfg) as [|e [|e' l]];
    try (intros []).
  intros H. now apply filter_In in H.
Qed.

Lemma merged_valid (cfg : Configuration EF) (c : DatabricksConnection EF) :
  In c (merged_by_precedence validate cfg) -> validate c = true.
Proof.
  unfold merged_by_precedence. rewrite !In_append_new.
  intros [[H | [H _]] | [H _]].
  - unfold explicit_list in H. now apply filter_In in H.
  - now apply default_connection_valid in H.
  - now apply persisted_valid in H.
Qed.

(** X1.  The loop of [getConnectionsFromWorkspace] returns the entries of
    the explicit list that pass [validate], in their order: an invalid
    entry is dropped without an error and without a trace. *)
Theorem explicit_list_drops_invalid (cfg : Configuration EF) :
  getConnectionsFromWorkspace validate cfg = filter validate (cfg_connections cfg)
  /\ forall c : DatabricksConnection EF,
       In c (getConnectionsFromWorkspace validate cfg)
       <-> In c (cfg_connections cfg) /\ validate c = true.
Proof.
  unfold getConnectionsFromWorkspace. rewrite push_valid_filter.
  split; [reflexivity|]. intros c. apply filter_In.
Qed.

(** X2.  After a successful [loadConnections] every connection of the
    manager passes [validate], whatever source it comes from, and a
    connection taken from the default keys has a name that is not empty. *)
Theorem loaded_connections_are_valid (cfg : Configuration EF) (w : World EF) :
  List.length (entries_of_workspace cfg) <= 1 ->
  (forall c : DatabricksConnection EF,
     In c (_connections (this (snd (loadConnections validate cfg w)))) ->
     validate c = true)
  /\ (forall d : DatabricksConnection EF,
        getDefaultConnectionFromWorkspace validate cfg = Some d ->
        displayName d <> "").
Proof.
  intros H. destruct (loadConnections_returns cfg w H) as [new [Hrun _]].
  rewrite Hrun. cbn [snd this _connections]. split.
  - apply merged_valid.
  - intros d Hd. apply (default_connection_valid cfg d).
    unfold default_connection. rewrite Hd. now left.
Qed.

Lemma NoDup_names_filter (f : DatabricksConnection EF -> bool)
      (l : list (DatabricksConnection EF)) :
  NoDup (names l) -> NoDup (names (filter f l)).
Proof.
  unfold names. induction l as [|x l IH]; cbn; [constructor|].
  intros H. inversion H as [|n ns Hx Hl]; subst.
  destruct (f x); [|now apply IH].
  cbn. constructor; [|now apply IH].
  intros Hin. apply Hx. apply in_map_iff in Hin.
  destruct Hin as [y [E Hy]]. apply filter_In in Hy.
  rewrite <- E. apply in_map. tauto.
Qed.

Lemma NoDup_names_append_new (earlier later : list (DatabricksConnection EF)) :
  NoDup (names earlier) -> NoDup (names later) ->
  NoDup (names (append_new earlier later)).
Proof.
  intros He Hl. unfold append_new, names. rewrite map_app.
  apply NoDup_app; [exact He | now apply NoDup_names_filter|].
  intros n Hn Hn'. apply in_map_iff in Hn'.
  destruct Hn' as [y [E Hy]]. apply filter_In in Hy.
  destruct Hy as [_ Hy]. apply negb_true_iff in Hy.
  rewrite <- not_true_iff_false, includes_In in Hy.
  apply Hy. now rewrite E.
Qed.

Lemma NoDup_names_default (cfg : Configuration EF) :
  NoDup (names (default_connection validate cfg)).
Proof.
  unfold default_connection.
  destruct (getDefaultConnectionFromWorkspace validate cfg); cbn;
    repeat constructor; intros [].
Qed.

Lemma filter_none {A : Type} (f : A -> bool) (l : list A) :
  (forall y, In y l -> f y = false) -> filter f l = [].
Proof.
  induction l as [|x l IH]; [reflexivity|]. intros H. cbn.
  rewrite (H x (or_introl eq_refl)). apply IH. intros y Hy. apply H. now right.
Qed.

Lemma merged_names_unique (cfg : Configuration EF) :
  NoDup (names (explicit_list validate cfg)) ->
  NoDup (names (persisted validate cfg)) ->
  NoDup (names (merged_by_precedence validate cfg)).
Proof.
  intros HE HP. unfold merged_by_precedence.
  apply NoDup_names_append_new; [|exact HP].
  apply NoDup_names_append_new; [exact HE | apply NoDup_names_default].
Qed.

(** A name that is unique in a list selects its connection. *)
Lemma named_unique (l : list (DatabricksConnection EF))
      (c : DatabricksConnection EF) :
  NoDup (names l) -> In c l -> named (displayName c) l = [c].
Proof.
  unfold named, names. induction l as [|x l IH]; [intros _ []|].
  cbn. intros H Hin. inversion H as [|n ns Hx Hl]; subst.
  destruct Hin as [->|Hin].
  - rewrite String.eqb_refl. f_equal.
    apply filter_none. intros y Hy.
    apply String.eqb_neq. intros E. apply Hx. rewrite <- E. now apply in_map.
  - destruct (String.eqb_spec (displayName x) (displayName c)) as [E|_].
    + exfalso. apply Hx. rewrite E. now apply in_map.
    + now apply IH.
Qed.

(** X3.  When neither the explicit list nor the persisted list repeats a
    name among its valid connections, no two connections of the loaded
    manager have the same name. *)
Theorem load_keeps_names_unique (cfg : Configuration EF) (w : World EF) :
  List.length (entries_of_workspace cfg) <= 1 ->
  NoDup (names (explicit_list validate cfg)) ->
  NoDup (names (persisted validate cfg)) ->
  NoDup (names (_connections (this (snd (loadConnections validate cfg w))))).
Proof.
  intros H HE HP. destruct (loadConnections_returns cfg w H) as [new [Hrun _]].
  rewrite Hrun. cbn [snd this _connections]. now apply merged_names_unique.
Qed.

(** X4.  Under the same condition every connection that
    [loadConnections] has loaded can be activated by its name:
    [activateConnection] returns it and makes it the active one. *)
Theorem loaded_connection_can_be_activated (cfg : Configuration EF) (w : World EF)
        (c : DatabricksConnection EF) :
  List.length (entries_of_workspace cfg) <= 1 ->
  NoDup (names (explicit_list validate cfg)) ->
  NoDup (names (persisted validate cfg)) ->
  In c (_connections (this (snd (loadConnections validate cfg w)))) ->
  fst (activateConnection (displayName c) (snd (loadConnections validate cfg w)))
  = Returned (Some c)
  /\ _activeConnection
       (this (snd (activateConnection (displayName c)
                     (snd (loadConnections validate cfg w)))))
     = Some c.
Proof.
  intros H HE HP Hin.
  assert (Hnd := merged_names_unique cfg HE HP).
  destruct (loadConnections_returns cfg w H) as [new [Hrun _]].
  rewrite Hrun in *. cbn [snd this _connections] in *.
  rewrite activateConnection_found with (c := c);
    [split; reflexivity | reflexivity |].
  cbn [this _connections]. now apply named_unique.
Qed.

Lemma append_new_disjoint (earlier later : list (DatabricksConnection EF)) :
  (forall c d, In c earlier -> In d later -> displayName c <> displayName d) ->
  append_new earlier later = earlier ++ later.
Proof.
  intros H. unfold append_new. f_equal. apply forallb_filter_id.
  apply forallb_forall. intros d Hd. apply negb_true_iff.
  rewrite <- not_true_iff_false, includes_In. unfold names.
  rewrite in_map_iff. intros [c [E Hc]]. exact (H c d Hc Hd E).
Qed.

(** X5.  When no name of one source occurs in a source of higher
    precedence, the loaded connections are the valid connections of the
    explicit list, then the default connection, then the persisted
    connections, and their number is the sum of the three. *)
Theorem load_of_disjoint_sources (cfg : Configuration EF) (w : World EF) :
  List.length (entries_of_workspace cfg) <= 1 ->
  let E := explicit_list validate cfg in
  let D := default_connection validate cfg in
  let P := persisted validate cfg in
  (forall c d, In c E -> In d D -> displayName c <> displayName d) ->
  (forall c p, In c (E ++ D) -> In p P -> displayName c <> displayName p) ->
  _connections (this (snd (loadConnections validate cfg w))) = E ++ D ++ P
  /\ List.length (_connections (this (snd (loadConnections validate cfg w))))
     = List.length E + List.length D + List.length P.
Proof.
  intros H E D P HD HP.
  destruct (loadConnections_returns cfg w H) as [new [Hrun _]].
  rewrite Hrun. cbn [snd this _connections]. unfold merged_by_precedence.
  fold E D P. rewrite (append_new_disjoint E D HD).
  rewrite (append_new_disjoint (E ++ D) P HP).
  rewrite <- app_assoc. split; [reflexivity|].
  rewrite !length_app. lia.
Qed.

(** X6.  Loading reads back what loading has persisted.  Take a
    configuration whose global list is the list that a load of [cfg] wrote,
    whose workspace configuration has the guid of that load, and whose
    explicit list and default connection are cleared: a load of it succeeds
    and yields the same connections, in the same order. *)
Theorem reload_reads_back (cfg cfg' : Configuration EF) (w w' : World EF) :
  List.length (entries_of_workspace cfg) <= 1 ->
  config_writes "databricks.userWorkspaceConfigurations"
                (trace (snd (loadConnections validate cfg w)))
  = config_writes "databricks.userWorkspaceConfigurations" (trace w)
    ++ [(VUserWorkspaceConfigurations (cfg_userWorkspaceConfigurations cfg'),
         Global)] ->
  workspaceGuid (cfg_workspaceConfiguration cfg') = Some (current_guid cfg) ->
  cfg_connections cfg' = [] ->
  displayName (cfg_connection_default cfg') = "" ->
  fst (loadConnections validate cfg' w') = Returned tt
  /\ _connections (this (snd (loadConnections validate cfg' w')))
     = _connections (this (snd (loadConnections validate cfg w))).
Proof.
  intros H Hw Hg Hc Hd.
  destruct (loadConnections_returns cfg w H) as [new [Hrun [_ [Hglobal _]]]].
  rewrite Hrun in *. cbn [snd trace this _connections] in *.
  rewrite config_writes_app, Hglobal in Hw.
  apply app_inv_head in Hw. injection Hw as Hall.
  assert (Hguid : current_guid cfg' = current_guid cfg)
    by (unfold current_guid at 1; now rewrite Hg).
  assert (Hentries : entries_of_workspace cfg'
                     = [{| workspaceConfig := loaded_workspaceConfig cfg;
                           connections := merged_by_precedence validate cfg |}]).
  { unfold entries_of_workspace. rewrite Hguid, <- Hall, filter_app.
    rewrite filter_of_complement. cbn [filter app]. unfold has_guid at 1.
    cbn. now rewrite String.eqb_refl. }
  assert (H' : List.length (entries_of_workspace cfg') <= 1)
    by (rewrite Hentries; cbn; lia).
  destruct (loadConnections_returns cfg' w' H') as [new' [Hrun' _]].
  rewrite Hrun'. cbn [fst snd this _connections]. split; [reflexivity|].
  unfold merged_by_precedence at 1.
  assert (HE : explicit_list validate cfg' = [])
    by (unfold explicit_list; now rewrite Hc).
  assert (HD : default_connection validate cfg' = []).
  { unfold default_connection, getDefaultConnectionFromWorkspace,
      new_DatabricksConnection. now rewrite Hd. }
  assert (HP : persisted validate cfg' = merged_by_precedence validate cfg).
  { unfold persisted. rewrite Hentries. cbn [connections].
    apply filter_valid_all. apply merged_valid. }
  rewrite HE, HD, HP. unfold append_new. cbn [app filter names map includes existsb].
  cbn [negb]. apply filter_true.
Qed.

(** X7.  The list written to the global scope ends with the entry of the
    current workspace.  When the list read has no entry for the workspace
    the new entry is appended to it; when it has one, that entry is removed
    from its place and the list keeps its length. *)
Theorem global_list_replace_or_insert (cfg : Configuration EF) (w : World EF) :
  List.length (entries_of_workspace cfg) <= 1 ->
  exists others : list (iUserWorkspaceConfiguration EF),
    config_writes "databricks.userWorkspaceConfigurations"
                  (trace (snd (loadConnections validate cfg w)))
    = config_writes "databricks.userWorkspaceConfigurations" (trace w)
      ++ [(VUserWorkspaceConfigurations
             (others ++ [{| workspaceConfig := loaded_workspaceConfig cfg;
                            connections := merged_by_precedence validate cfg |}]),
           Global)]
    /\ List.length others + List.length (entries_of_workspace cfg)
       = List.length (cfg_userWorkspaceConfigurations cfg)
    /\ (entries_of_workspace cfg = [] ->
        others = cfg_userWorkspaceConfigurations cfg).
Proof.
  intros H.
  destruct (loadConnections_returns cfg w H) as [new [Hrun [_ [Hglobal _]]]].
  rewrite Hrun. cbn [snd trace]. rewrite config_writes_app, Hglobal.
  eexists. split; [reflexivity|]. split.
  - unfold entries_of_workspace.
    rewrite Nat.add_comm. apply filter_length.
  - unfold entries_of_workspace. intros Hnone.
    apply forallb_filter_id. apply forallb_forall. intros x Hx.
    apply negb_true_iff. destruct (has_guid (current_guid cfg) x) eqn:Ex;
      [|reflexivity].
    assert (Hi : In x (filter (has_guid (current_guid cfg))
                              (cfg_userWorkspaceConfigurations cfg)))
      by (apply filter_In; now split).
    rewrite Hnone in Hi. destruct Hi.
Qed.

(** The writes of [loadConnections], target by target. *)
Lemma loadConnections_writes (cfg : Configuration EF) (w : World EF) :
  List.length (entries_of_workspace cfg) <= 1 ->
  exists new : list (Effect EF),
    trace (snd (loadConnections validate cfg w)) = trace w ++ new
    /\ writes_at Workspace new
       = map (fun k => (k, undefined))
           ["databricks.connections";
            "databricks.connection.default.displayName";
            "databricks.connection.default.cloudProvider";
            "databricks.connection.default.apiRootUrl";
            "databricks.connection.default.personalAccessToken";
            "databricks.connection.default.localSyncFolder";
            "databricks.connection.default.databricksConnectJars";
            "databricks.connection.default.pythonInterpreter";
            "databricks.connection.default.port";
            "databricks.connection.default.organizationId";
            "databricks.connection.default.exportFormats";
            "databricks.connection.default.useCodeCells"]
    /\ map fst (writes_at Global new) = ["databricks.userWorkspaceConfigurations"]
    /\ writes_at WorkspaceFolder new = []
    /\ error_messages new = [].
Proof.
  intros H.
  unfold loadConnections, updateUserWorkspaceConfig, getConnectionsFromUserConfig,
    CurrentUserWorkspaceConfiguration, AllUserWorkspaceConfigurations,
    getConnectionsFromWorkspace.
  unfold entries_of_workspace, has_guid, current_guid in *.
  destruct cfg as [[[g|] la] cons dflt all newGuid]; cbn [cfg_workspaceConfiguration
    cfg_connections cfg_userWorkspaceConfigurations Helper_newGuid workspaceGuid
    lastActiveConnection] in *; run.
  all: match goal with
       | |- context [getDefaultConnectionFromWorkspace ?v ?c] =>
           generalize (getDefaultConnectionFromWorkspace v c); intros [d|]
       end; run.
  all: destruct (filter _ all) as [|a [|b l]]; cbn [List.length] in H; try lia;
       cbn [List.length Nat.eqb nth_error]; run.
  all: try (destruct (includes _ (displayName d)); cbn [negb]; run).
  all: cbn [snd trace]; repeat rewrite <- (app_assoc (trace w)); cbn [app].
  all: eexists; split; [reflexivity|].
  all: cbn; auto.
Qed.

(** X8.  At the workspace scope a successful [loadConnections] only
    clears: it writes [undefined] to the key of the explicit list and to the
    eleven keys of the default connection, and nothing else; its one other
    write goes to the global scope. *)
Theorem load_clears_workspace_keys (cfg : Configuration EF) (w : World EF) :
  List.length (entries_of_workspace cfg) <= 1 ->
  exists new : list (Effect EF),
    trace (snd (loadConnections validate cfg w)) = trace w ++ new
    /\ (forall k v, In (k, v) (writes_at Workspace new) -> v = undefined)
    /\ map fst (writes_at Workspace new)
       = ["databricks.connections";
          "databricks.connection.default.displayName";
          "databricks.connection.default.cloudProvider";
          "databricks.connection.default.apiRootUrl";
          "databricks.connection.default.personalAccessToken";
          "databricks.connection.default.localSyncFolder";
          "databricks.connection.default.databricksConnectJars";
          "databricks.connection.default.pythonInterpreter";
          "databricks.connection.default.port";
          "databricks.connection.default.organizationId";
          "databricks.connection.default.exportFormats";
          "databricks.connection.default.useCodeCells"]
    /\ map fst (writes_at Global new) = ["databricks.userWorkspaceConfigurations"]
    /\ writes_at WorkspaceFolder new = [].
Proof.
  intros H.
  destruct (loadConnections_writes cfg w H) as [new [Ht [Hw [Hg [Hf _]]]]].
  exists new. split; [exact Ht|].
  rewrite Hw. split; [|split; [reflexivity|split; [exact Hg|exact Hf]]].
  intros k v Hin. apply in_map_iff in Hin. destruct Hin as [k' [E _]].
  now injection E as _ <-.
Qed.

(** X9.  A successful [loadConnections] rebuilds the manager from the
    configuration alone: whatever the manager held before, it then holds
    the workspace configuration read (with the guid of the load), the
    merged connections, and the initialised flag, and it keeps the active
    connection it had.  So loading the same configuration a second time
    leaves the manager as the first load left it. *)
Theorem reload_same_configuration (cfg : Configuration EF) (w : World EF) :
  List.length (entries_of_workspace cfg) <= 1 ->
  this (snd (loadConnections validate cfg w))
  = {| _workspaceConfig :=
         {| workspaceGuid := Some (current_guid cfg);
            lastActiveConnection :=
              lastActiveConnection (cfg_workspaceConfiguration cfg) |};
       _connections :=
         append_new (append_new (explicit_list validate cfg)
                                (default_connection validate cfg))
                    (persisted validate cfg);
       _activeConnection := _activeConnection (this w);
       _initialized := true |}
  /\ (forall w' : World EF,
        _activeConnection (this w') = _activeConnection (this w) ->
        this (snd (loadConnections validate cfg w'))
        = this (snd (loadConnections validate cfg w)))
  /\ this (snd (loadConnections validate cfg (snd (loadConnections validate cfg w))))
     = this (snd (loadConnections validate cfg w))
  /\ _activeConnection (this (snd (loadConnections validate cfg w)))
     = _activeConnection (this w).
Proof.
  intros H.
  destruct (loadConnections_returns cfg w H) as [new [Hrun _]].
  rewrite Hrun. cbn [snd].
  split; [reflexivity|]. split; [|split; [|reflexivity]].
  - intros w' Ha.
    destruct (loadConnections_returns cfg w' H) as [new' [Hrun' _]].
    rewrite Hrun'. cbn [snd this]. now rewrite Ha.
  - match goal with
    | |- context [loadConnections validate cfg ?w0] =>
        destruct (loadConnections_returns cfg w0 H) as [new' [Hrun' _]]
    end.
    rewrite Hrun'. reflexivity.
Qed.

(** X10.  Whether it returns or throws, [loadConnections] leaves the
    manager with the workspace configuration it read: a guid that is set is
    kept, a guid is generated exactly when none is set, and the remembered
    connection is the one of the configuration. *)
Theorem load_keeps_existing_guid (cfg : Configuration EF) (w : World EF) :
  let after := _workspaceConfig (this (snd (loadConnections validate cfg w))) in
  (forall g, workspaceGuid (cfg_workspaceConfiguration cfg) = Some g ->
             workspaceGuid after = Some g)
  /\ (workspaceGuid (cfg_workspaceConfiguration cfg) = None ->
      workspaceGuid after = Some (Helper_newGuid cfg))
  /\ lastActiveConnection after
     = lastActiveConnection (cfg_workspaceConfiguration cfg).
Proof.
  intros after.
  assert (Ha : after = loaded_workspaceConfig cfg).
  { subst after.
    destruct (Nat.le_gt_cases (List.length (entries_of_workspace cfg)) 1) as [H|H].
    - destruct (loadConnections_returns cfg w H) as [new [Hrun _]].
      now rewrite Hrun.
    - destruct (loadConnections_throws cfg w H) as [new [Hrun _]].
      now rewrite Hrun. }
  rewrite Ha. unfold loaded_workspaceConfig, current_guid.
  cbn [workspaceGuid lastActiveConnection].
  repeat split.
  - now intros g ->.
  - now intros ->.
Qed.

(** X11.  A workspace whose configuration has no guid yet, with a new guid
    that no entry of the global list carries, reads no persisted
    connection: [loadConnections] returns with the explicit list and the
    default connection only, and appends its entry to the global list. *)
Theorem load_with_fresh_guid (cfg : Configuration EF) (w : World EF) :
  workspaceGuid (cfg_workspaceConfiguration cfg) = None ->
  (forall x, In x (cfg_userWorkspaceConfigurations cfg) ->
             workspaceGuid (workspaceConfig x) <> Some (Helper_newGuid cfg)) ->
  fst (loadConnections validate cfg w) = Returned tt
  /\ _connections (this (snd (loadConnections validate cfg w)))
     = append_new (explicit_list validate cfg) (default_connection validate cfg)
  /\ config_writes "databricks.userWorkspaceConfigurations"
                   (trace (snd (loadConnections validate cfg w)))
     = config_writes "databricks.userWorkspaceConfigurations" (trace w)
       ++ [(VUserWorkspaceConfigurations
              (cfg_userWorkspaceConfigurations cfg
               ++ [{| workspaceConfig :=
                        {| workspaceGuid := Some (Helper_newGuid cfg);
                           lastActiveConnection :=
                             lastActiveConnection (cfg_workspaceConfiguration cfg) |};
                      connections :=
                        append_new (explicit_list validate cfg)
                                   (default_connection validate cfg) |}]),
            Global)].
Proof.
  intros Hg Hfresh.
  assert (Hcur : current_guid cfg = Helper_newGuid cfg)
    by (unfold current_guid; now rewrite Hg).
  assert (Hnone : forall x, In x (cfg_userWorkspaceConfigurations cfg) ->
                            has_guid (current_guid cfg) x = false).
  { intros x Hx. unfold has_guid. apply not_true_iff_false.
    rewrite opt_string_eqb_eq, Hcur. now apply Hfresh. }
  assert (Hentries : entries_of_workspace cfg = [])
    by (unfold entries_of_workspace; now apply filter_none).
  assert (H : List.length (entries_of_workspace cfg) <= 1)
    by (rewrite Hentries; cbn; lia).
  assert (Hm : merged_by_precedence validate cfg
               = append_new (explicit_list validate cfg)
                            (default_connection validate cfg)).
  { unfold merged_by_precedence, persisted. rewrite Hentries.
    unfold append_new at 1. cbn [filter]. apply app_nil_r. }
  destruct (loadConnections_returns cfg w H) as [new [Hrun [_ [Hglobal _]]]].
  rewrite Hrun. cbn [fst snd this trace _connections].
  split; [reflexivity|]. split; [exact Hm|].
  assert (Hall : filter (fun x => negb (has_guid (current_guid cfg) x))
                        (cfg_userWorkspaceConfigurations cfg)
                 = cfg_userWorkspaceConfigurations cfg).
  { apply forallb_filter_id. apply forallb_forall. intros x Hx.
    apply negb_true_iff. now apply Hnone. }
  rewrite config_writes_app, Hglobal, Hall, Hm. unfold loaded_workspaceConfig.
  now rewrite Hcur.
Qed.

(** ** The constructor *)

(** What [loadConnections] leaves out: no API client is initialised, no
    error is shown and the workspace configuration is not written. *)
Lemma loadConnections_quiet (cfg : Configuration EF) (w : World EF) :
  List.length (entries_of_workspace cfg) <= 1 ->
  exists new : list (Effect EF),
    loadConnections validate cfg w
    = (Returned tt,
       {| this := {| _workspaceConfig := loaded_workspaceConfig cfg;
                     _connections := merged_by_precedence validate cfg;
                     _activeConnection := _activeConnection (this w);
                     _initialized := true |};
          trace := trace w ++ new |})
    /\ api_initializations new = []
    /\ error_messages new = []
    /\ config_writes "databricks.workspaceConfiguration" new = [].
Proof.
  intros H.
  destruct (loadConnections_returns cfg w H) as [new [Hrun [Hkeys [_ Hapi]]]].
  destruct (loadConnections_writes cfg w H) as [new' [Ht [_ [_ [_ Herr]]]]].
  rewrite Hrun in Ht. cbn [snd trace] in Ht. apply app_inv_head in Ht.
  subst new'. exists new. repeat split; try assumption.
  apply config_writes_absent. rewrite Hkeys. cbn.
  intros K. repeat (destruct K as [K|K]; [discriminate K|]). exact K.
Qed.

(** The first of the connections that carry the name of the first
    connection is the first connection. *)
Lemma named_head (l : list (DatabricksConnection EF))
      (c : DatabricksConnection EF) :
  hd_error l = Some c ->
  List.length (named (displayName c) l) = 1 ->
  named (displayName c) l = [c].
Proof.
  destruct l as [|x l]; [discriminate|]. intros [= ->]. unfold named.
  cbn [filter]. rewrite String.eqb_refl. cbn [List.length].
  destruct (filter (fun x => String.eqb (displayName x) (displayName c)) l);
    [reflexivity | discriminate].
Qed.

Ltac start_constructor H :=
  unfold constructor; run;
  match goal with
  | |- context [loadConnections validate ?cfg ?w0] =>
      let new := fresh "new" in
      let Hrun := fresh "Hrun" in
      let Hapi := fresh "Hapi" in
      let Herr := fresh "Herr" in
      let Hws := fresh "Hws" in
      destruct (loadConnections_quiet cfg w0 H) as [new [Hrun [Hapi [Herr Hws]]]];
      cbn [this trace _activeConnection] in Hrun; rewrite Hrun; run
  end.

Ltac activate_found c Hc :=
  match goal with
  | |- context [activateConnection ?X ?W] =>
      rewrite (activateConnection_found W X c); [| reflexivity | exact Hc]
  end; run.

Ltac activate_not_found Hf :=
  match goal with
  | |- context [activateConnection ?X ?W] =>
      rewrite (activateConnection_not_found W X); [| reflexivity | exact Hf]
  end; run.

Lemma named_In (X : string) (l : list (DatabricksConnection EF))
      (c : DatabricksConnection EF) :
  In c (named X l) <-> In c l /\ displayName c = X.
Proof. unfold named. now rewrite filter_In, String.eqb_eq. Qed.

Lemma named_singleton (X : string) (l : list (DatabricksConnection EF))
      (c : DatabricksConnection EF) :
  named X l = [c] -> In c l /\ displayName c = X /\ (List.length l =? 0)%nat = false.
Proof.
  intros Hc. assert (Hin : In c (named X l)) by (rewrite Hc; now left).
  apply named_In in Hin. destruct Hin as [Hin Hn]. repeat split; try assumption.
  destruct l; [destruct Hin | reflexivity].
Qed.

(** The constructor when the remembered name selects one connection. *)
Lemma constructor_remembered_run (cfg : Configuration EF) (w : World EF)
      (n : string) (c : DatabricksConnection EF) :
  List.length (entries_of_workspace cfg) <= 1 ->
  lastActiveConnection (cfg_workspaceConfiguration cfg) = Some n ->
  named n (merged_by_precedence validate cfg) = [c] ->
  exists new : list (Effect EF),
    constructor validate cfg w
    = (Returned tt, {| this := activated validate cfg c; trace := trace w ++ new |})
    /\ api_initializations new = [Some c]
    /\ error_messages new = [].
Proof.
  intros H Hl Hc. destruct (named_singleton _ _ _ Hc) as [Hin [Hn Hlen]].
  start_constructor H. rewrite Hlen.
  unfold loaded_workspaceConfig. cbn [this _workspaceConfig lastActiveConnection].
  rewrite Hl. run. cbn [opt_toString]. activate_found c Hc.
  rewrite <- (app_assoc (trace w)). eexists. split.
  - unfold activated. rewrite Hn. reflexivity.
  - rewrite api_initializations_app, error_messages_app, Hapi, Herr.
    split; reflexivity.
Qed.

(** The constructor when no remembered name selects one connection and
    the first connection is the only one of its name. *)
Lemma constructor_first_run (cfg : Configuration EF) (w : World EF)
      (c : DatabricksConnection EF) :
  List.length (entries_of_workspace cfg) <= 1 ->
  (forall n, lastActiveConnection (cfg_workspaceConfiguration cfg) = Some n ->
             List.length (named n (merged_by_precedence validate cfg)) <> 1) ->
  hd_error (merged_by_precedence validate cfg) = Some c ->
  List.length (named (displayName c) (merged_by_precedence validate cfg)) = 1 ->
  exists new : list (Effect EF),
    constructor validate cfg w
    = (Returned tt, {| this := activated validate cfg c; trace := trace w ++ new |})
    /\ api_initializations new = [Some c]
    /\ error_messages new = [].
Proof.
  intros H Hl Hhd Hone. assert (Hc := named_head _ _ Hhd Hone).
  unfold activated.
  destruct (merged_by_precedence validate cfg) as [|x rest] eqn:Em;
    [discriminate|]. injection Hhd as ->.
  start_constructor H. rewrite !Em. cbn [List.length Nat.eqb].
  unfold loaded_workspaceConfig. cbn [this _workspaceConfig lastActiveConnection].
  destruct (lastActiveConnection (cfg_workspaceConfiguration cfg)) as [n|] eqn:El.
  - run. cbn [opt_toString]. activate_not_found (Hl n eq_refl).
    unfold first_displayName. cbn [nth_error]. run.
    activate_found c Hc.
    repeat rewrite <- (app_assoc (trace w)). eexists. split; [reflexivity|].
    rewrite !api_initializations_app, !error_messages_app, Hapi, Herr.
    split; reflexivity.
  - unfold first_displayName. cbn [nth_error]. run. cbn [opt_toString].
    activate_found c Hc.
    repeat rewrite <- (app_assoc (trace w)). eexists. split; [reflexivity|].
    rewrite !api_initializations_app, !error_messages_app, Hapi, Herr.
    split; reflexivity.
Qed.

(** X12.  With no valid connection in any source the constructor returns:
    it shows the one error message that asks for a connection, activates
    nothing and initialises no API client. *)
Theorem constructor_without_connections (cfg : Configuration EF) (w : World EF) :
  List.length (entries_of_workspace cfg) <= 1 ->
  merged_by_precedence validate cfg = [] ->
  exists new : list (Effect EF),
    constructor validate cfg w
    = (Returned tt,
       {| this := {| _workspaceConfig := loaded_workspaceConfig cfg;
                     _connections := [];
                     _activeConnection := _activeConnection (this w);
                     _initialized := true |};
          trace := trace w ++ new |})
    /\ error_messages new
       = ["No connections have been configured yet! Please add a connection via the VSCode Settings -> Databricks before proceeding!"]
    /\ api_initializations new = []
    /\ config_writes "databricks.workspaceConfiguration" new = [].
Proof.
  intros H Hm. start_constructor H. rewrite !Hm. cbn [List.length Nat.eqb].
  cbn [this trace]. repeat rewrite <- (app_assoc (trace w)).
  eexists. split; [reflexivity|].
  rewrite !api_initializations_app, !error_messages_app, !config_writes_app,
    Hapi, Herr, Hws.
  repeat split.
Qed.

(** X13.  When the workspace configuration remembers a name that exactly
    one loaded connection carries, the constructor activates that
    connection: it is the active connection of the new manager, the
    remembered name stays, and the API client is initialised once, with
    it. *)
Theorem constructor_activates_remembered (cfg : Configuration EF) (w : World EF)
        (n : string) :
  List.length (entries_of_workspace cfg) <= 1 ->
  lastActiveConnection (cfg_workspaceConfiguration cfg) = Some n ->
  List.length (named n (merged_by_precedence validate cfg)) = 1 ->
  exists (c : DatabricksConnection EF) (new : list (Effect EF)),
    displayName c = n
    /\ In c (merged_by_precedence validate cfg)
    /\ fst (constructor validate cfg w) = Returned tt
    /\ _activeConnection (this (snd (constructor validate cfg w))) = Some c
    /\ lastActiveConnection
         (_workspaceConfig (this (snd (constructor validate cfg w)))) = Some n
    /\ trace (snd (constructor validate cfg w)) = trace w ++ new
    /\ api_initializations new = [Some c]
    /\ error_messages new = [].
Proof.
  intros H Hl Hone.
  destruct (named n (merged_by_precedence validate cfg)) as [|c [|c' l]] eqn:Hc;
    try discriminate Hone.
  destruct (named_singleton _ _ _ Hc) as [Hin [Hn _]].
  destruct (constructor_remembered_run cfg w n c H Hl Hc) as [new [Hrun [Ha He]]].
  exists c, new. rewrite Hrun. cbn. rewrite Hn. repeat split; assumption.
Qed.

(** X14.  When no name is remembered, or the remembered name is not the
    name of exactly one loaded connection, the constructor activates the
    first loaded connection, provided no other connection has its name; its
    name becomes the remembered one. *)
Theorem constructor_falls_back_to_first (cfg : Configuration EF) (w : World EF)
        (c : DatabricksConnection EF) :
  List.length (entries_of_workspace cfg) <= 1 ->
  (forall n, lastActiveConnection (cfg_workspaceConfiguration cfg) = Some n ->
             List.length (named n (merged_by_precedence validate cfg)) <> 1) ->
  hd_error (merged_by_precedence validate cfg) = Some c ->
  List.length (named (displayName c) (merged_by_precedence validate cfg)) = 1 ->
  exists new : list (Effect EF),
    fst (constructor validate cfg w) = Returned tt
    /\ _activeConnection (this (snd (constructor validate cfg w))) = Some c
    /\ lastActiveConnection
         (_workspaceConfig (this (snd (constructor validate cfg w))))
       = Some (displayName c)
    /\ trace (snd (constructor validate cfg w)) = trace w ++ new
    /\ api_initializations new = [Some c]
    /\ error_messages new = [].
Proof.
  intros H Hl Hhd Hone.
  destruct (constructor_first_run cfg w c H Hl Hhd Hone) as [new [Hrun [Ha He]]].
  exists new. rewrite Hrun. cbn. repeat split; assumption.
Qed.

(** X15.  When the first loaded connection shares its name with another
    one, and the remembered name does not select one connection either, the
    constructor throws the not-found error for the name of the first
    connection: no connection is active and no API client is initialised. *)
Theorem constructor_fails_on_repeated_first_name (cfg : Configuration EF)
        (w : World EF) (c : DatabricksConnection EF) :
  List.length (entries_of_workspace cfg) <= 1 ->
  (forall n, lastActiveConnection (cfg_workspaceConfiguration cfg) = Some n ->
             List.length (named n (merged_by_precedence validate cfg)) <> 1) ->
  hd_error (merged_by_precedence validate cfg) = Some c ->
  List.length (named (displayName c) (merged_by_precedence validate cfg)) <> 1 ->
  exists new : list (Effect EF),
    fst (constructor validate cfg w)
    = Threw (Error ("Connection with name  '" ++ displayName c
                    ++ "' could not be found!"))
    /\ _activeConnection (this (snd (constructor validate cfg w)))
       = _activeConnection (this w)
    /\ trace (snd (constructor validate cfg w)) = trace w ++ new
    /\ api_initializations new = [].
Proof.
  intros H Hl Hhd Hmany.
  destruct (merged_by_precedence validate cfg) as [|x rest] eqn:Em;
    [discriminate|]. injection Hhd as ->.
  start_constructor H. rewrite !Em. cbn [List.length Nat.eqb].
  unfold loaded_workspaceConfig. cbn [this _workspaceConfig lastActiveConnection].
  destruct (lastActiveConnection (cfg_workspaceConfiguration cfg)) as [n|] eqn:El.
  - run. cbn [opt_toString]. activate_not_found (Hl n eq_refl).
    unfold first_displayName. cbn [nth_error]. run.
    activate_not_found Hmany.
    repeat rewrite <- (app_assoc (trace w)). eexists.
    cbn [fst snd this trace _activeConnection].
    repeat split. rewrite !api_initializations_app, Hapi. reflexivity.
  - unfold first_displayName. cbn [nth_error]. run. cbn [opt_toString].
    activate_not_found Hmany.
    unfold first_displayName. cbn [nth_error]. run.
    activate_not_found Hmany.
    repeat rewrite <- (app_assoc (trace w)). eexists.
    cbn [fst snd this trace _activeConnection].
    repeat split. rewrite !api_initializations_app, Hapi. reflexivity.
Qed.

(** X16.  When neither the explicit list nor the persisted list repeats a
    name and some connection is loaded, the constructor always ends with
    an active connection: the remembered one if it is loaded, the first
    loaded one otherwise.  Its name is the remembered name from then on and
    the API client is initialised exactly once. *)
Theorem constructor_with_unique_names (cfg : Configuration EF) (w : World EF) :
  List.length (entries_of_workspace cfg) <= 1 ->
  NoDup (names (explicit_list validate cfg)) ->
  NoDup (names (persisted validate cfg)) ->
  merged_by_precedence validate cfg <> [] ->
  exists (c : DatabricksConnection EF) (new : list (Effect EF)),
    In c (merged_by_precedence validate cfg)
    /\ constructor validate cfg w
       = (Returned tt,
          {| this := activated validate cfg c; trace := trace w ++ new |})
    /\ api_initializations new = [Some c]
    /\ (forall n, lastActiveConnection (cfg_workspaceConfiguration cfg) = Some n ->
                  In n (names (merged_by_precedence validate cfg)) ->
                  displayName c = n)
    /\ (forall n, lastActiveConnection (cfg_workspaceConfiguration cfg) = Some n ->
                  ~ In n (names (merged_by_precedence validate cfg)) ->
                  hd_error (merged_by_precedence validate cfg) = Some c)
    /\ (lastActiveConnection (cfg_workspaceConfiguration cfg) = None ->
        hd_error (merged_by_precedence validate cfg) = Some c).
Proof.
  intros H HE HP Hne.
  assert (Hnd := merged_names_unique cfg HE HP).
  destruct (merged_by_precedence validate cfg) as [|x rest] eqn:Em;
    [now destruct Hne|].
  assert (Hx : named (displayName x) (x :: rest) = [x])
    by (apply named_unique; [exact Hnd | now left]).
  assert (Hfirst : forall n,
             ~ In n (names (x :: rest)) ->
             List.length (named n (x :: rest)) <> 1).
  { intros n Hn Hlen.
    destruct (named n (x :: rest)) as [|y [|y' l]] eqn:Ey; try discriminate Hlen.
    apply named_singleton in Ey. destruct Ey as [Hy [Hyn _]].
    apply Hn. rewrite <- Hyn. now apply in_map. }
  destruct (lastActiveConnection (cfg_workspaceConfiguration cfg)) as [n|] eqn:El.
  - destruct (in_dec String.string_dec n (names (x :: rest))) as [Hn|Hn].
    + apply in_map_iff in Hn. destruct Hn as [c [Hcn Hc]].
      assert (Hnamed : named n (x :: rest) = [c])
        by (rewrite <- Hcn; now apply named_unique).
      rewrite <- Em in Hnamed.
      destruct (constructor_remembered_run cfg w n c H El Hnamed)
        as [new [Hrun [Ha _]]].
      exists c, new.
      split; [exact Hc|]. split; [exact Hrun|]. split; [exact Ha|].
      split; [|split; [|discriminate]].
      * intros n' E _. injection E as E. now subst.
      * intros n' E Hnot. injection E as E. subst n'. exfalso. apply Hnot.
        rewrite <- Hcn. now apply in_map.
    + destruct (constructor_first_run cfg w x H) as [new [Hrun [Ha _]]].
      * rewrite Em. intros n' E. rewrite El in E. injection E as E. subst n'.
        now apply Hfirst.
      * now rewrite Em.
      * rewrite Em, Hx. reflexivity.
      * exists x, new.
        split; [now left|]. split; [exact Hrun|]. split; [exact Ha|].
        split; [|split; [reflexivity|discriminate]].
        intros n' E Hin. injection E as E. subst n'. now destruct Hn.
  - destruct (constructor_first_run cfg w x H) as [new [Hrun [Ha _]]].
    + rewrite El. discriminate.
    + now rewrite Em.
    + rewrite Em, Hx. reflexivity.
    + exists x, new.
      split; [now left|]. split; [exact Hrun|]. split; [exact Ha|].
      split; [discriminate|]. split; [discriminate|reflexivity].
Qed.

(** Every case of the constructor: it writes the workspace configuration
    once for each API client it initialises, with the guid of the load and
    the name of the connection. *)
Lemma constructor_workspace_writes (cfg : Configuration EF) (w : World EF) :
  exists new : list (Effect EF),
    trace (snd (constructor validate cfg w)) = trace w ++ new
    /\ config_writes "databricks.workspaceConfiguration" new
       = map (fun active =>
                (VWorkspaceConfiguration
                   {| workspaceGuid := Some (current_guid cfg);
                      lastActiveConnection := option_map displayName active |},
                 Workspace))
             (api_initializations new)
    /\ (merged_by_precedence validate cfg = [] -> api_initializations new = []).
Proof.
  destruct (Nat.le_gt_cases (List.length (entries_of_workspace cfg)) 1) as [H|H].
  2:{ unfold constructor. run.
      match goal with
      | |- context [loadConnections validate cfg ?w0] =>
          destruct (loadConnections_throws cfg w0 H) as [new [Hrun [Hkeys Hapi]]]
      end.
      rewrite Hrun. cbn [snd trace]. exists new. split; [reflexivity|].
      rewrite Hapi. split; [|reflexivity].
      apply config_writes_absent. rewrite Hkeys. intros []. }
  destruct (merged_by_precedence validate cfg) as [|x rest] eqn:Em.
  - start_constructor H. rewrite !Em. cbn [List.length Nat.eqb].
    cbn [snd this trace]. repeat rewrite <- (app_assoc (trace w)).
    eexists. split; [reflexivity|].
    rewrite !api_initializations_app, !config_writes_app, Hapi, Hws.
    split; reflexivity.
  - assert (Hfound : forall X c (w0 : World EF),
               named X (x :: rest) = [c] ->
               _initialized (this w0) = true ->
               _connections (this w0) = x :: rest ->
               activateConnection X w0
               = (Returned (Some c),
                  {| this := {| _workspaceConfig :=
                                  {| workspaceGuid :=
                                       workspaceGuid (_workspaceConfig (this w0));
                                     lastActiveConnection := Some (displayName c) |};
                                _connections := x :: rest;
                                _activeConnection := Some c;
                                _initialized := true |};
                     trace := trace w0
                              ++ [ApiInitialize (Some c);
                                  ConfigUpdate "databricks.workspaceConfiguration"
                                    (VWorkspaceConfiguration
                                       {| workspaceGuid :=
                                            workspaceGuid (_workspaceConfig (this w0));
                                          lastActiveConnection :=
                                            Some (displayName c) |})
                                    Workspace;
                                  ConfigUpdate "python.dataScience.codeRegularExpression"
                                    (if useCodeCells c
                                     then VString codeRegularExpression
                                     else undefined)
                                    Workspace] |})).
    { intros X c w0 Hc Hi Hcons.
      destruct (named_singleton _ _ _ Hc) as [_ [Hn _]].
      rewrite (activateConnection_found w0 X c Hi); [|now rewrite Hcons].
      now rewrite Hcons, Hn. }
    assert (Hnot : forall X (w0 : World EF),
               List.length (named X (x :: rest)) <> 1 ->
               _initialized (this w0) = true ->
               _connections (this w0) = x :: rest ->
               activateConnection X w0
               = (Threw (Error (not_found_message X)),
                  {| this := this w0;
                     trace := trace w0 ++ [Log (not_found_message X)] |})).
    { intros X w0 Hlen Hi Hcons.
      apply (activateConnection_not_found w0 X Hi). now rewrite Hcons. }
    start_constructor H. rewrite !Em. cbn [List.length Nat.eqb].
    unfold loaded_workspaceConfig.
    cbn [this _workspaceConfig lastActiveConnection].
    assert (Hone : forall X,
               (exists c, named X (x :: rest) = [c])
               \/ List.length (named X (x :: rest)) <> 1).
    { intros X. destruct (named X (x :: rest)) as [|c [|c' l]];
        [right; discriminate | left; now exists c | right; discriminate]. }
    destruct (lastActiveConnection (cfg_workspaceConfiguration cfg)) as [n|] eqn:El.
    + run. cbn [opt_toString]. destruct (Hone n) as [[c Hc]|Hn].
      * match goal with
        | |- context [activateConnection ?X ?W] =>
            rewrite (Hfound X c W Hc eq_refl eq_refl)
        end. run.
        cbn [snd this trace _workspaceConfig workspaceGuid].
        repeat rewrite <- (app_assoc (trace w)).
        eexists. split; [reflexivity|].
        rewrite !api_initializations_app, !config_writes_app, Hapi, Hws.
        split; [reflexivity | discriminate].
      * match goal with
        | |- context [activateConnection ?X ?W] =>
            rewrite (Hnot X W Hn eq_refl eq_refl)
        end. run.
        unfold first_displayName. cbn [nth_error]. run.
        destruct (Hone (displayName x)) as [[c Hc]|Hx].
        -- match goal with
        | |- context [activateConnection ?X ?W] =>
            rewrite (Hfound X c W Hc eq_refl eq_refl)
        end. run.
           cbn [snd this trace _workspaceConfig workspaceGuid].
           repeat rewrite <- (app_assoc (trace w)).
           eexists. split; [reflexivity|].
           rewrite !api_initializations_app, !config_writes_app, Hapi, Hws.
           split; [reflexivity | discriminate].
        -- match goal with
        | |- context [activateConnection ?X ?W] =>
            rewrite (Hnot X W Hx eq_refl eq_refl)
        end. run.
           cbn [snd this trace]. repeat rewrite <- (app_assoc (trace w)).
           eexists. split; [reflexivity|].
           rewrite !api_initializations_app, !config_writes_app, Hapi, Hws.
           split; [reflexivity | discriminate].
    + unfold first_displayName. cbn [nth_error]. run. cbn [opt_toString].
      destruct (Hone (displayName x)) as [[c Hc]|Hx].
      * match goal with
        | |- context [activateConnection ?X ?W] =>
            rewrite (Hfound X c W Hc eq_refl eq_refl)
        end. run.
        cbn [snd this trace _workspaceConfig workspaceGuid].
        repeat rewrite <- (app_assoc (trace w)).
        eexists. split; [reflexivity|].
        rewrite !api_initializations_app, !config_writes_app, Hapi, Hws.
        split; [reflexivity | discriminate].
      * match goal with
        | |- context [activateConnection ?X ?W] =>
            rewrite (Hnot X W Hx eq_refl eq_refl)
        end. run.
        unfold first_displayName. cbn [nth_error]. run.
        match goal with
        | |- context [activateConnection ?X ?W] =>
            rewrite (Hnot X W Hx eq_refl eq_refl)
        end. run.
        cbn [snd this trace]. repeat rewrite <- (app_assoc (trace w)).
        eexists. split; [reflexivity|].
        rewrite !api_initializations_app, !config_writes_app, Hapi, Hws.
        split; [reflexivity | discriminate].
Qed.

(** C2, as amended.  [loadConnections] never writes the key
    [databricks.workspaceConfiguration], whether it returns or throws: what
    it persists of the workspace configuration, new guid included, is the
    entry it writes to the global list.  The key is written at the
    workspace scope by every successful [activateConnection], with the guid
    the manager holds.  In the constructor that is once for each API client
    it initialises after the load, with the guid of the load, and not at
    all when no connection is loaded. *)
Theorem load_persists_guid_in_global_entry (cfg : Configuration EF) (w : World EF) :
  (exists new : list (Effect EF),
     trace (snd (loadConnections validate cfg w)) = trace w ++ new
     /\ config_writes "databricks.workspaceConfiguration" new = [])
  /\ (List.length (entries_of_workspace cfg) <= 1 ->
      exists (new : list (Effect EF))
             (others : list (iUserWorkspaceConfiguration EF)),
        fst (loadConnections validate cfg w) = Returned tt
        /\ workspaceGuid
             (_workspaceConfig (this (snd (loadConnections validate cfg w))))
           = Some (current_guid cfg)
        /\ trace (snd (loadConnections validate cfg w)) = trace w ++ new
        /\ config_writes "databricks.userWorkspaceConfigurations" new
           = [(VUserWorkspaceConfigurations
                 (others
                  ++ [{| workspaceConfig :=
                           _workspaceConfig
                             (this (snd (loadConnections validate cfg w)));
                         connections :=
                           _connections
                             (this (snd (loadConnections validate cfg w))) |}]),
               Global)])
  /\ (forall (w0 : World EF) (X : string),
        _initialized (this w0) = true ->
        List.length (named X (_connections (this w0))) = 1 ->
        config_writes "databricks.workspaceConfiguration"
                      (trace (snd (activateConnection X w0)))
        = config_writes "databricks.workspaceConfiguration" (trace w0)
          ++ [(VWorkspaceConfiguration
                 {| workspaceGuid := workspaceGuid (_workspaceConfig (this w0));
                    lastActiveConnection := Some X |},
               Workspace)])
  /\ (exists new : list (Effect EF),
        trace (snd (constructor validate cfg w)) = trace w ++ new
        /\ config_writes "databricks.workspaceConfiguration" new
           = map (fun active =>
                    (VWorkspaceConfiguration
                       {| workspaceGuid := Some (current_guid cfg);
                          lastActiveConnection := option_map displayName active |},
                     Workspace))
                 (api_initializations new)
        /\ (merged_by_precedence validate cfg = [] ->
            config_writes "databricks.workspaceConfiguration" new = [])).
Proof.
  split; [|split; [|split]].
  - destruct (Nat.le_gt_cases (List.length (entries_of_workspace cfg)) 1) as [H|H].
    + destruct (loadConnections_quiet cfg w H) as [new [Hrun [_ [_ Hws]]]].
      exists new. rewrite Hrun. split; [reflexivity | exact Hws].
    + destruct (loadConnections_throws cfg w H) as [new [Hrun [Hkeys _]]].
      exists new. rewrite Hrun. split; [reflexivity|].
      apply config_writes_absent. rewrite Hkeys. intros [].
  - intros H.
    destruct (loadConnections_returns cfg w H) as [new [Hrun [_ [Hglobal _]]]].
    exists new. eexists. rewrite Hrun.
    cbn [fst snd this trace _workspaceConfig _connections].
    repeat split. exact Hglobal.
  - intros w0 X Hi Hone.
    destruct (named X (_connections (this w0))) as [|c [|c' l]] eqn:Hc;
      try discriminate Hone.
    rewrite (activateConnection_found w0 X c Hi Hc). cbn [snd trace].
    rewrite config_writes_app. f_equal.
  - destruct (constructor_workspace_writes cfg w) as [new [Ht [Hws Hempty]]].
    exists new. split; [exact Ht|]. split; [exact Hws|].
    intros Hm. rewrite Hws, (Hempty Hm). reflexivity.
Qed.

(** ** Activation *)

(** X17.  A successful [activateConnection] sets the editor key
    [python.dataScience.codeRegularExpression] at the workspace scope
    according to the connection it activates: to the cell pattern when the
    connection uses code cells, to [undefined] when it does not. *)
Theorem activate_sets_cell_pattern (w : World EF) (X : string)
        (c : DatabricksConnection EF) :
  _initialized (this w) = true ->
  named X (_connections (this w)) = [c] ->
  config_writes "python.dataScience.codeRegularExpression"
                (trace (snd (activateConnection X w)))
  = config_writes "python.dataScience.codeRegularExpression" (trace w)
    ++ [(if useCodeCells c
         then VString "^(# COMMAND ----------|#\s*%%|#\s*\<codecell\>|#\s*In\[\d*?\]|#\s*In\[ \])"
         else undefined,
         Workspace)].
Proof.
  intros Hi Hc. rewrite (activateConnection_found w X c Hi Hc).
  cbn [snd trace]. now rewrite config_writes_app.
Qed.

(** X18.  After a successful [activateConnection X] the getter
    [ActiveConnectionName] returns [X] and changes nothing; on a manager
    without an active connection it throws a [TypeError]. *)
Theorem active_connection_name_after_activation (w : World EF) (X : string) :
  (_initialized (this w) = true ->
   List.length (named X (_connections (this w))) = 1 ->
   ActiveConnectionName (snd (activateConnection X w))
   = (Returned X, snd (activateConnection X w)))
  /\ (_activeConnection (this w) = None ->
      exists msg, ActiveConnectionName w = (Threw (TypeError msg), w)).
Proof.
  split.
  - intros Hi Hone.
    destruct (named X (_connections (this w))) as [|c [|c' l]] eqn:Hc;
      try discriminate Hone.
    destruct (named_singleton _ _ _ Hc) as [_ [Hn _]].
    rewrite (activateConnection_found w X c Hi Hc). cbn [snd].
    unfold ActiveConnectionName. run. now rewrite Hn.
  - intros Hnone. unfold ActiveConnectionName. run. rewrite Hnone. run.
    eexists. reflexivity.
Qed.

End Facts.

Import Samples.

(** *** The theorems on the sample configurations *)

(** The example of the specification: [A] comes from the explicit list,
    [B] from the persisted connections. *)
Lemma load_merges_by_precedence_witness :
  List.length (entries_of_workspace overlapping) <= 1
  /\ _connections (this (snd (loadConnections has_url overlapping fresh_object)))
     = [connection "A" "https://explicit" true; connection "B" "https://b" false].
Proof.
  assert (H : List.length (entries_of_workspace overlapping) <= 1)
    by (vm_compute; lia).
  split; [exact H|].
  destruct (load_merges_by_precedence has_url overlapping fresh_object H)
    as [_ [Hm _]].
  rewrite Hm. reflexivity.
Defined.

(** Two persisted connections of one name are both loaded, where the
    accumulating merge keeps the first only: C1 as it is worded fails. *)
Lemma load_keeps_persisted_duplicates :
  _connections (this (snd (loadConnections has_url persisted_twice fresh_object)))
  = [connection "A" "https://first" false; connection "A" "https://second" false]
  /\ merged_accumulating has_url persisted_twice
     = [connection "A" "https://first" false]
  /\ _connections (this (snd (loadConnections has_url persisted_twice fresh_object)))
     <> merged_accumulating has_url persisted_twice.
Proof.
  split; [reflexivity|]. split; [reflexivity|].
  vm_compute. discriminate.
Qed.

(** On a first start the guid is new, [loadConnections] returns, and no
    call has written [databricks.workspaceConfiguration]: C2 as it is
    worded fails.  With no connection to activate, the constructor does not
    write it either. *)
Lemma load_does_not_write_workspace_configuration :
  fst (loadConnections has_url first_start fresh_object) = Returned tt
  /\ workspaceGuid
       (_workspaceConfig (this (snd (loadConnections has_url first_start fresh_object))))
     = Some "guid-new"
  /\ ~ (exists v target,
          In (ConfigUpdate "databricks.workspaceConfiguration" v target)
             (trace (snd (loadConnections has_url first_start fresh_object))))
  /\ fst (new_DatabricksConnectionManager has_url first_start) = Returned tt
  /\ ~ (exists v target,
          In (ConfigUpdate "databricks.workspaceConfiguration" v target)
             (trace (snd (new_DatabricksConnectionManager has_url first_start)))).
Proof.
  split; [reflexivity|]. split; [reflexivity|].
  split; [|split; [reflexivity|]].
  all: intros [v [target H]]; vm_compute in H;
    repeat (destruct H as [H|H]; [discriminate H|]); exact H.
Qed.

Lemma load_persists_guid_in_global_entry_witness :
  List.length (entries_of_workspace first_start) <= 1
  /\ merged_by_precedence has_url first_start = []
  /\ fst (loadConnections has_url first_start fresh_object) = Returned tt
  /\ workspaceGuid
       (_workspaceConfig (this (snd (loadConnections has_url first_start
                                                     fresh_object))))
     = Some "guid-new"
  /\ exists new : list (Effect unit),
       trace (snd (constructor has_url first_start fresh_object)) = new
       /\ config_writes "databricks.workspaceConfiguration" new = [].
Proof.
  assert (H : List.length (entries_of_workspace first_start) <= 1)
    by (vm_compute; lia).
  assert (Hm : merged_by_precedence has_url first_start = []) by reflexivity.
  split; [exact H|]. split; [exact Hm|].
  destruct (load_persists_guid_in_global_entry has_url first_start fresh_object)
    as [_ [Hload [_ [new [Ht [_ Hnone]]]]]].
  destruct (Hload H) as [new' [others [Hret [Hguid _]]]].
  split; [exact Hret|]. split; [exact Hguid|].
  exists new. split; [exact Ht | exact (Hnone Hm)].
Defined.

Lemma activate_unknown_name_fails_witness :
  _initialized (this loaded) = true
  /\ List.length (filter (fun x => String.eqb (displayName x) "C")
                         (_connections (this loaded))) <> 1
  /\ fst (activateConnection "C" loaded)
     = Threw (Error "Connection with name  'C' could not be found!")
  /\ this (snd (activateConnection "C" loaded)) = this loaded.
Proof.
  assert (Hi : _initialized (this loaded) = true) by reflexivity.
  assert (Hf : List.length (filter (fun x => String.eqb (displayName x) "C")
                                   (_connections (this loaded))) <> 1)
    by (vm_compute; lia).
  split; [exact Hi|]. split; [exact Hf|].
  destruct (activate_unknown_name_fails loaded "C" Hi Hf) as [Hrun _].
  rewrite Hrun. split; reflexivity.
Defined.

(** A name carried by two connections is not found either. *)
Example activate_ambiguous_name_fails :
  fst (activateConnection "A"
         (snd (loadConnections has_url persisted_twice fresh_object)))
  = Threw (Error "Connection with name  'A' could not be found!").
Proof. reflexivity. Qed.

Lemma activate_known_name_succeeds_witness :
  _initialized (this loaded) = true
  /\ List.length (filter (fun x => String.eqb (displayName x) "B")
                         (_connections (this loaded))) = 1
  /\ exists (c : DatabricksConnection unit) (w' : World unit),
       activateConnection "B" loaded = (Returned (Some c), w')
       /\ displayName c = "B"
       /\ _activeConnection (this w') = Some c
       /\ lastActiveConnection (_workspaceConfig (this w')) = Some "B".
Proof.
  assert (Hi : _initialized (this loaded) = true) by reflexivity.
  assert (Hf : List.length (filter (fun x => String.eqb (displayName x) "B")
                                   (_connections (this loaded))) = 1)
    by reflexivity.
  split; [exact Hi|]. split; [exact Hf|].
  destruct (activate_known_name_succeeds loaded "B" Hi Hf)
    as [c [w' [new [_ [Hn [Hrun [Ha [Hl _]]]]]]]].
  exists c, w'. repeat split; assumption.
Defined.

Lemma load_fails_on_duplicate_guid_witness :
  1 < List.length (entries_of_workspace duplicated_guid)
  /\ fst (loadConnections has_url duplicated_guid fresh_object)
     = Threw (Error duplicate_guid_message)
  /\ written_keys (trace (snd (loadConnections has_url duplicated_guid fresh_object)))
     = [].
Proof.
  assert (H : 1 < List.length (entries_of_workspace duplicated_guid))
    by (vm_compute; lia).
  split; [exact H|].
  destruct (load_fails_on_duplicate_guid has_url duplicated_guid fresh_object H)
    as [w' [new [Hrun [_ [_ [Htrace [Hkeys _]]]]]]].
  rewrite Hrun. split; [reflexivity|].
  cbn [snd]. rewrite Htrace. exact Hkeys.
Defined.

Lemma load_keeps_other_workspaces_witness :
  List.length (entries_of_workspace overlapping) <= 1
  /\ exists written : list (iUserWorkspaceConfiguration unit),
       config_writes "databricks.userWorkspaceConfigurations"
                     (trace (snd (loadConnections has_url overlapping fresh_object)))
       = [(VUserWorkspaceConfigurations written, Global)]
       /\ In other_workspace written.
Proof.
  assert (H : List.length (entries_of_workspace overlapping) <= 1)
    by (vm_compute; lia).
  split; [exact H|].
  destruct (load_keeps_other_workspaces has_url overlapping fresh_object H)
    as [new [written [_ [Htrace [Hglobal [Hin _]]]]]].
  exists written. split.
  - rewrite Htrace. exact Hglobal.
  - apply Hin; [left; reflexivity | discriminate].
Defined.

(** *** The further properties on the sample configurations *)

Ltac distinct_names :=
  repeat (constructor; [cbn; intuition discriminate|]); constructor.

Lemma loaded_connections_are_valid_witness :
  List.length (entries_of_workspace nothing_remembered) <= 1
  /\ forallb has_url
       (_connections (this (snd (loadConnections has_url nothing_remembered
                                                 fresh_object))))
     = true.
Proof.
  assert (H : List.length (entries_of_workspace nothing_remembered) <= 1)
    by (vm_compute; lia).
  split; [exact H|]. apply forallb_forall.
  exact (proj1 (loaded_connections_are_valid has_url nothing_remembered
                  fresh_object H)).
Defined.

Lemma load_keeps_names_unique_witness :
  List.length (entries_of_workspace overlapping) <= 1
  /\ NoDup (names (explicit_list has_url overlapping))
  /\ NoDup (names (persisted has_url overlapping))
  /\ NoDup (names (_connections
                     (this (snd (loadConnections has_url overlapping fresh_object))))).
Proof.
  assert (H : List.length (entries_of_workspace overlapping) <= 1)
    by (vm_compute; lia).
  assert (HE : NoDup (names (explicit_list has_url overlapping)))
    by (vm_compute; distinct_names).
  assert (HP : NoDup (names (persisted has_url overlapping)))
    by (vm_compute; distinct_names).
  split; [exact H|]. split; [exact HE|]. split; [exact HP|].
  exact (load_keeps_names_unique has_url overlapping fresh_object H HE HP).
Defined.

Lemma loaded_connection_can_be_activated_witness :
  List.length (entries_of_workspace overlapping) <= 1
  /\ NoDup (names (explicit_list has_url overlapping))
  /\ NoDup (names (persisted has_url overlapping))
  /\ In (connection "B" "https://b" false)
        (_connections (this (snd (loadConnections has_url overlapping fresh_object))))
  /\ fst (activateConnection (displayName (connection "B" "https://b" false))
            (snd (loadConnections has_url overlapping fresh_object)))
     = Returned (Some (connection "B" "https://b" false)).
Proof.
  assert (H : List.length (entries_of_workspace overlapping) <= 1)
    by (vm_compute; lia).
  assert (HE : NoDup (names (explicit_list has_url overlapping)))
    by (vm_compute; distinct_names).
  assert (HP : NoDup (names (persisted has_url overlapping)))
    by (vm_compute; distinct_names).
  assert (Hin : In (connection "B" "https://b" false)
                   (_connections
                      (this (snd (loadConnections has_url overlapping fresh_object)))))
    by (vm_compute; right; left; reflexivity).
  split; [exact H|]. split; [exact HE|]. split; [exact HP|]. split; [exact Hin|].
  exact (proj1 (loaded_connection_can_be_activated has_url overlapping fresh_object
                  (connection "B" "https://b" false) H HE HP Hin)).
Defined.

Lemma load_of_disjoint_sources_witness :
  List.length (entries_of_workspace nothing_remembered) <= 1
  /\ _connections (this (snd (loadConnections has_url nothing_remembered
                                              fresh_object)))
     = [connection "A" "https://a" false; connection "B" "https://b" true;
        connection "D" "https://d" false].
Proof.
  assert (H : List.length (entries_of_workspace nothing_remembered) <= 1)
    by (vm_compute; lia).
  split; [exact H|].
  refine (eq_trans
            (proj1 (load_of_disjoint_sources has_url nothing_remembered
                      fresh_object H _ _)) eq_refl).
  - intros c d Hc Hd. cbn in Hc, Hd.
    destruct Hc as [<-|[<-|[]]]; destruct Hd as [<-|[]]; discriminate.
  - intros c p _ [].
Defined.

Lemma reload_reads_back_witness :
  List.length (entries_of_workspace overlapping) <= 1
  /\ _connections (this (snd (loadConnections has_url overlapping_persisted
                                              fresh_object)))
     = _connections (this (snd (loadConnections has_url overlapping fresh_object))).
Proof.
  assert (H : List.length (entries_of_workspace overlapping) <= 1)
    by (vm_compute; lia).
  split; [exact H|].
  exact (proj2 (reload_reads_back has_url overlapping overlapping_persisted
                  fresh_object fresh_object H eq_refl eq_refl eq_refl eq_refl)).
Defined.

(** On [overlapping] the entry of the workspace is replaced and the entry of
    the other workspace is kept before it. *)
Lemma global_list_replace_or_insert_witness :
  List.length (entries_of_workspace overlapping) <= 1
  /\ List.length (entries_of_workspace overlapping) = 1
  /\ List.length (cfg_userWorkspaceConfigurations overlapping) = 2
  /\ exists others : list (iUserWorkspaceConfiguration unit),
       others = [other_workspace]
       /\ config_writes "databricks.userWorkspaceConfigurations"
                        (trace (snd (loadConnections has_url overlapping
                                                     fresh_object)))
          = [(VUserWorkspaceConfigurations
                (others
                 ++ [{| workspaceConfig :=
                          {| workspaceGuid := Some "guid-1";
                             lastActiveConnection := Some "A" |};
                        connections :=
                          [connection "A" "https://explicit" true;
                           connection "B" "https://b" false] |}]),
              Global)].
Proof.
  assert (H : List.length (entries_of_workspace overlapping) <= 1)
    by (vm_compute; lia).
  split; [exact H|]. split; [reflexivity|]. split; [reflexivity|].
  destruct (global_list_replace_or_insert has_url overlapping fresh_object H)
    as [others [Hw [Hlen _]]].
  exists others.
  assert (Ho : others = [other_workspace]).
  { assert (Hc : config_writes "databricks.userWorkspaceConfigurations"
                   (trace (snd (loadConnections has_url overlapping fresh_object)))
                 = [(VUserWorkspaceConfigurations
                       ([other_workspace]
                        ++ [{| workspaceConfig := loaded_workspaceConfig overlapping;
                               connections :=
                                 merged_by_precedence has_url overlapping |}]),
                     Global)]) by reflexivity.
    rewrite Hc in Hw. cbn [config_writes trace fresh_object app] in Hw.
    injection Hw as Hw. symmetry in Hw.
    change ([other_workspace;
             {| workspaceConfig := loaded_workspaceConfig overlapping;
                connections := merged_by_precedence has_url overlapping |}])
      with ([other_workspace]
            ++ [{| workspaceConfig := loaded_workspaceConfig overlapping;
                   connections := merged_by_precedence has_url overlapping |}])
      in Hw.
    now apply app_inj_tail in Hw. }
  split; [exact Ho|]. rewrite Hw, Ho. reflexivity.
Defined.

Lemma load_clears_workspace_keys_witness :
  List.length (entries_of_workspace first_start) <= 1
  /\ exists new : list (Effect unit),
       trace (snd (loadConnections has_url first_start fresh_object))
       = trace fresh_object ++ new
       /\ writes_at WorkspaceFolder new = [].
Proof.
  assert (H : List.length (entries_of_workspace first_start) <= 1)
    by (vm_compute; lia).
  split; [exact H|].
  destruct (load_clears_workspace_keys has_url first_start fresh_object H)
    as [new [Ht [_ [_ [_ Hf]]]]].
  exists new. split; assumption.
Defined.

Lemma reload_same_configuration_witness :
  List.length (entries_of_workspace overlapping) <= 1
  /\ _connections (this (snd (loadConnections has_url overlapping fresh_object)))
     = [connection "A" "https://explicit" true; connection "B" "https://b" false]
  /\ this (snd (loadConnections has_url overlapping
                  (snd (loadConnections has_url overlapping fresh_object))))
     = this (snd (loadConnections has_url overlapping fresh_object)).
Proof.
  assert (H : List.length (entries_of_workspace overlapping) <= 1)
    by (vm_compute; lia).
  split; [exact H|].
  destruct (reload_same_configuration has_url overlapping fresh_object H)
    as [Hthis [_ [Hagain _]]].
  split; [rewrite Hthis; reflexivity | exact Hagain].
Defined.

Lemma load_keeps_existing_guid_witness :
  workspaceGuid (cfg_workspaceConfiguration overlapping) = Some "guid-1"
  /\ workspaceGuid (_workspaceConfig (this loaded)) = Some "guid-1".
Proof.
  split; [reflexivity|].
  exact (proj1 (load_keeps_existing_guid has_url overlapping fresh_object)
               "guid-1" eq_refl).
Defined.

Lemma load_with_fresh_guid_witness :
  workspaceGuid (cfg_workspaceConfiguration nothing_remembered) = None
  /\ (forall x, In x (cfg_userWorkspaceConfigurations nothing_remembered) ->
                workspaceGuid (workspaceConfig x)
                <> Some (Helper_newGuid nothing_remembered))
  /\ fst (loadConnections has_url nothing_remembered fresh_object) = Returned tt.
Proof.
  assert (Hfresh : forall x,
             In x (cfg_userWorkspaceConfigurations nothing_remembered) ->
             workspaceGuid (workspaceConfig x)
             <> Some (Helper_newGuid nothing_remembered)).
  { intros x Hx. cbn in Hx. destruct Hx as [<-|[]]. discriminate. }
  split; [reflexivity|]. split; [exact Hfresh|].
  exact (proj1 (load_with_fresh_guid has_url nothing_remembered fresh_object
                  eq_refl Hfresh)).
Defined.

Lemma constructor_without_connections_witness :
  List.length (entries_of_workspace first_start) <= 1
  /\ merged_by_precedence has_url first_start = []
  /\ fst (new_DatabricksConnectionManager has_url first_start) = Returned tt.
Proof.
  assert (H : List.length (entries_of_workspace first_start) <= 1)
    by (vm_compute; lia).
  split; [exact H|]. split; [reflexivity|].
  destruct (constructor_without_connections has_url first_start fresh_object
              H eq_refl) as [new [Hrun _]].
  unfold new_DatabricksConnectionManager. rewrite Hrun. reflexivity.
Defined.

Lemma constructor_activates_remembered_witness :
  List.length (entries_of_workspace overlapping) <= 1
  /\ lastActiveConnection (cfg_workspaceConfiguration overlapping) = Some "A"
  /\ List.length (named "A" (merged_by_precedence has_url overlapping)) = 1
  /\ exists c : DatabricksConnection unit,
       displayName c = "A"
       /\ _activeConnection
            (this (snd (new_DatabricksConnectionManager has_url overlapping)))
          = Some c.
Proof.
  assert (H : List.length (entries_of_workspace overlapping) <= 1)
    by (vm_compute; lia).
  split; [exact H|]. split; [reflexivity|]. split; [reflexivity|].
  destruct (constructor_activates_remembered has_url overlapping fresh_object "A"
              H eq_refl eq_refl) as [c [new [Hn [_ [_ [Ha _]]]]]].
  exists c. split; assumption.
Defined.

Lemma constructor_falls_back_to_first_witness :
  List.length (entries_of_workspace stale_last_active) <= 1
  /\ List.length (named "Gone" (merged_by_precedence has_url stale_last_active)) <> 1
  /\ hd_error (merged_by_precedence has_url stale_last_active)
     = Some (connection "A" "https://a" false)
  /\ _activeConnection
       (this (snd (new_DatabricksConnectionManager has_url stale_last_active)))
     = Some (connection "A" "https://a" false).
Proof.
  assert (H : List.length (entries_of_workspace stale_last_active) <= 1)
    by (vm_compute; lia).
  assert (Hgone : List.length (named "Gone"
                                 (merged_by_precedence has_url stale_last_active))
                  <> 1) by (vm_compute; lia).
  split; [exact H|]. split; [exact Hgone|]. split; [reflexivity|].
  destruct (constructor_falls_back_to_first has_url stale_last_active fresh_object
              (connection "A" "https://a" false) H)
    as [new [_ [Ha _]]].
  - intros n E. injection E as <-. exact Hgone.
  - reflexivity.
  - reflexivity.
  - exact Ha.
Defined.

Lemma constructor_fails_on_repeated_first_name_witness :
  List.length (entries_of_workspace persisted_twice) <= 1
  /\ hd_error (merged_by_precedence has_url persisted_twice)
     = Some (connection "A" "https://first" false)
  /\ List.length (named "A" (merged_by_precedence has_url persisted_twice)) <> 1
  /\ fst (new_DatabricksConnectionManager has_url persisted_twice)
     = Threw (Error "Connection with name  'A' could not be found!").
Proof.
  assert (H : List.length (entries_of_workspace persisted_twice) <= 1)
    by (vm_compute; lia).
  assert (Hmany : List.length (named "A"
                                 (merged_by_precedence has_url persisted_twice))
                  <> 1) by (vm_compute; lia).
  split; [exact H|]. split; [reflexivity|]. split; [exact Hmany|].
  destruct (constructor_fails_on_repeated_first_name has_url persisted_twice
              fresh_object (connection "A" "https://first" false) H)
    as [new [Hf _]].
  - intros n E. discriminate E.
  - reflexivity.
  - exact Hmany.
  - exact Hf.
Defined.

Lemma constructor_with_unique_names_witness :
  List.length (entries_of_workspace nothing_remembered) <= 1
  /\ NoDup (names (explicit_list has_url nothing_remembered))
  /\ NoDup (names (persisted has_url nothing_remembered))
  /\ merged_by_precedence has_url nothing_remembered <> []
  /\ exists c : DatabricksConnection unit,
       hd_error (merged_by_precedence has_url nothing_remembered) = Some c
       /\ this (snd (new_DatabricksConnectionManager has_url nothing_remembered))
          = activated has_url nothing_remembered c.
Proof.
  assert (H : List.length (entries_of_workspace nothing_remembered) <= 1)
    by (vm_compute; lia).
  assert (HE : NoDup (names (explicit_list has_url nothing_remembered)))
    by (vm_compute; distinct_names).
  assert (HP : NoDup (names (persisted has_url nothing_remembered)))
    by (vm_compute; distinct_names).
  assert (Hne : merged_by_precedence has_url nothing_remembered <> [])
    by (vm_compute; discriminate).
  split; [exact H|]. split; [exact HE|]. split; [exact HP|]. split; [exact Hne|].
  destruct (constructor_with_unique_names has_url nothing_remembered fresh_object
              H HE HP Hne) as [c [new [_ [Hrun [_ [_ [_ Hhd]]]]]]].
  exists c. split; [exact (Hhd eq_refl)|].
  unfold new_DatabricksConnectionManager. rewrite Hrun. reflexivity.
Defined.

Lemma activate_sets_cell_pattern_witness :
  _initialized (this loaded) = true
  /\ named "A" (_connections (this loaded))
     = [connection "A" "https://explicit" true]
  /\ config_writes "python.dataScience.codeRegularExpression"
                   (trace (snd (activateConnection "A" loaded)))
     = [(VString codeRegularExpression, Workspace)].
Proof.
  split; [reflexivity|]. split; [reflexivity|].
  exact (activate_sets_cell_pattern loaded "A"
           (connection "A" "https://explicit" true) eq_refl eq_refl).
Defined.

Lemma active_connection_name_after_activation_witness :
  _initialized (this loaded) = true
  /\ List.length (named "B" (_connections (this loaded))) = 1
  /\ fst (ActiveConnectionName (snd (activateConnection "B" loaded))) = Returned "B".
Proof.
  split; [reflexivity|]. split; [reflexivity|].
  rewrite (proj1 (active_connection_name_after_activation loaded "B")
             eq_refl eq_refl).
  reflexivity.
Defined.

End ConnectionManagerFacts.

(** * Properties of JavaScript numbers *)

Module JsNumberFacts.

Import JsNumber.
Local Open Scope Z_scope.

Lemma one_eq : one = 2 ^ 1074.
Proof. vm_compute. reflexivity. Qed.

Lemma overflow_eq : overflow = 2 ^ 2098.
Proof. vm_compute. reflexivity. Qed.

Lemma one_pos : 0 < one.
Proof. rewrite one_eq. now apply Z.pow_pos_nonneg. Qed.

Lemma pow2_pos (n : Z) : 0 <= n -> 0 < 2 ^ n.
Proof. intros H. now apply Z.pow_pos_nonneg. Qed.

(** *** Rounding *)

Lemma half_even_bounds (p q : Z) :
  p / q <= half_even p q <= p / q + 1.
Proof.
  unfold half_even.
  destruct (2 * (p mod q) ?= q); [destruct (Z.even (p / q))| |]; lia.
Qed.

Lemma half_even_scale (p q c : Z) :
  0 < q -> 0 < c -> half_even (p * c) (q * c) = half_even p q.
Proof.
  intros Hq Hc. unfold half_even.
  rewrite Z.div_mul_cancel_r by lia.
  rewrite Z.mul_mod_distr_r by lia.
  rewrite Z.mul_assoc, <- Zmult_compare_compat_r by lia.
  reflexivity.
Qed.

Lemma half_even_exact (m q : Z) : 0 < q -> half_even (m * q) q = m.
Proof.
  intros Hq. unfold half_even.
  rewrite Z.mod_mul by lia. rewrite Z.div_mul by lia.
  destruct (Z.compare_spec (2 * 0) q); [lia | reflexivity | lia].
Qed.

(** What [half_even] returns is at most half a [q] off. *)
Lemma half_even_error (p q : Z) :
  0 < q -> 2 * Z.abs (half_even p q * q - p) <= q.
Proof.
  intros Hq. unfold half_even.
  pose proof (Z.div_mod p q ltac:(lia)) as E.
  pose proof (Z.mod_pos_bound p q Hq) as B.
  destruct (Z.compare_spec (2 * (p mod q)) q) as [C|C|C];
    [destruct (Z.even (p / q))| |]; nia.
Qed.

Lemma round_magnitude_scale (p q c : Z) :
  0 < q -> 0 < c -> round_magnitude (p * c) (q * c) = round_magnitude p q.
Proof.
  intros Hq Hc. unfold round_magnitude.
  rewrite Z.div_mul_cancel_r by lia.
  destruct (Z.leb_spec (Z.log2 (p / q)) 52) as [Hb|Hb].
  - now apply half_even_scale.
  - rewrite !(Z.shiftl_mul_pow2 _ (Z.log2 (p / q) - 52)) by lia.
    replace (q * c * 2 ^ (Z.log2 (p / q) - 52))
      with (q * 2 ^ (Z.log2 (p / q) - 52) * c) by ring.
    rewrite half_even_scale; [reflexivity | | lia].
    apply Z.mul_pos_pos; [lia | apply pow2_pos; lia].
Qed.

Lemma nearest_scale (p q c : Z) :
  0 < q -> 0 < c -> nearest (p * c) (q * c) = nearest p q.
Proof.
  intros Hq Hc. unfold nearest.
  rewrite Z.abs_mul, (Z.abs_eq c), round_magnitude_scale by lia.
  replace (p * c <? 0) with (p <? 0); [reflexivity|].
  destruct (Z.ltb_spec p 0), (Z.ltb_spec (p * c) 0); try reflexivity; nia.
Qed.

Lemma on_grid_small (m : Z) : m < 2 ^ 53 -> on_grid m.
Proof.
  intros H. unfold on_grid.
  assert (L : Z.log2 m <= 52).
  { destruct (Z.le_gt_cases m 0) as [N|P].
    - rewrite Z.log2_nonpos by lia. lia.
    - apply Z.log2_lt_pow2 in H; lia. }
  rewrite Z.max_l by lia. apply Z.mod_1_r.
Qed.

(** A number of at most 53 bits, moved up by any number of bits. *)
Lemma on_grid_shifted (a n : Z) :
  0 <= a <= 2 ^ 53 -> 0 <= n -> on_grid (a * 2 ^ n).
Proof.
  intros Ha Hn. unfold on_grid.
  destruct (Z.eq_dec a 0) as [->|Hz]; [now rewrite Z.mul_0_l, Zmod_0_l|].
  rewrite Z.log2_mul_pow2 by lia.
  destruct (Z.eq_dec a (2 ^ 53)) as [->|Hm].
  - rewrite Z.log2_pow2 by lia.
    rewrite Z.max_r by lia.
    replace (2 ^ 53 * 2 ^ n) with (2 ^ 52 * 2 ^ (n + 53 - 52)).
    + apply Z.mod_mul. pose proof (pow2_pos (n + 53 - 52)). lia.
    + rewrite <- !Z.pow_add_r by lia. f_equal. lia.
  - assert (L : Z.log2 a <= 52).
    { assert (a < 2 ^ 53) as K by lia. apply Z.log2_lt_pow2 in K; lia. }
    pose proof (Z.log2_nonneg a).
    destruct (Z.max_spec 0 (n + Z.log2 a - 52)) as [[M ->]|[M ->]].
    + replace (2 ^ n)
        with (2 ^ (n - (n + Z.log2 a - 52)) * 2 ^ (n + Z.log2 a - 52))
        by (rewrite <- Z.pow_add_r by lia; f_equal; lia).
      rewrite Z.mul_assoc. apply Z.mod_mul.
      pose proof (pow2_pos (n + Z.log2 a - 52)). lia.
    + apply Z.mod_1_r.
Qed.

(** Rounding leaves a double as it is. *)
Lemma round_magnitude_on_grid (m : Z) :
  0 <= m -> on_grid m -> round_magnitude m 1 = m.
Proof.
  intros Hm G. unfold round_magnitude. rewrite Z.div_1_r.
  destruct (Z.leb_spec (Z.log2 m) 52) as [Hb|Hb].
  - replace m with (m * 1) at 1 by lia. now apply half_even_exact.
  - unfold on_grid in G. rewrite Z.max_r in G by lia.
    rewrite Z.shiftl_1_l.
    assert (P : 0 < 2 ^ (Z.log2 m - 52)) by (apply pow2_pos; lia).
    apply Z.div_exact in G; [|lia].
    rewrite Z.shiftl_mul_pow2 by lia.
    rewrite G at 1. rewrite (Z.mul_comm (2 ^ _)), half_even_exact by lia.
    lia.
Qed.

(** What rounding returns is a double. *)
Lemma round_magnitude_grid (p q : Z) :
  0 <= p -> 0 < q ->
  0 <= round_magnitude p q /\ on_grid (round_magnitude p q).
Proof.
  intros Hp Hq. unfold round_magnitude.
  assert (F : 0 <= p / q) by (apply Z.div_pos; lia).
  destruct (Z.leb_spec (Z.log2 (p / q)) 52) as [Hb|Hb].
  - pose proof (half_even_bounds p q) as B.
    assert (U : p / q < 2 ^ 53).
    { destruct (Z.eq_dec (p / q) 0) as [->|N]; [reflexivity|].
      apply Z.log2_lt_pow2; lia. }
    split; [lia|].
    destruct (Z.eq_dec (half_even p q) (2 ^ 53)) as [->|N].
    + apply (on_grid_shifted (2 ^ 53) 0); lia.
    + apply on_grid_small. lia.
  - set (e := Z.log2 (p / q) - 52).
    assert (He : 0 < e) by (unfold e; lia).
    assert (P : 0 < 2 ^ e) by (apply pow2_pos; lia).
    assert (Pq : 0 < p / q).
    { destruct (Z.eq_dec (p / q) 0) as [Z0|N]; [|lia].
      rewrite Z0 in Hb. cbn in Hb. lia. }
    pose proof (Z.log2_spec (p / q) Pq) as [Lo Hi].
    replace (Z.log2 (p / q)) with (52 + e) in Lo, Hi by (unfold e; lia).
    unfold Z.succ in Hi.
    replace (52 + e + 1) with (53 + e) in Hi by lia.
    rewrite Z.pow_add_r in Lo, Hi by lia.
    rewrite !Z.shiftl_mul_pow2 by lia.
    pose proof (half_even_bounds p (q * 2 ^ e)) as B.
    rewrite <- Z.div_div in B by lia.
    assert (Fl : 2 ^ 52 <= p / q / 2 ^ e)
      by (apply Z.div_le_lower_bound; lia).
    assert (Fu : p / q / 2 ^ e < 2 ^ 53)
      by (apply Z.div_lt_upper_bound; lia).
    split; [apply Z.mul_nonneg_nonneg; lia|].
    apply on_grid_shifted; lia.
Qed.

Lemma nearest_double (p q : Z) : 0 < q -> double (nearest p q).
Proof.
  intros Hq. unfold nearest.
  destruct (round_magnitude_grid (Z.abs p) q (Z.abs_nonneg p) Hq) as [N G].
  destruct (Z.leb_spec overflow (round_magnitude (Z.abs p) q)) as [O|O];
    [exact I|].
  cbn [double].
  destruct (p <? 0); [rewrite Z.abs_opp|]; rewrite Z.abs_eq by lia; now split.
Qed.

Lemma nearest_of_double (units : Z) :
  double (Finite units) -> nearest units 1 = Finite units.
Proof.
  intros [G O]. unfold nearest.
  rewrite round_magnitude_on_grid by (try apply Z.abs_nonneg; exact G).
  destruct (Z.leb_spec overflow (Z.abs units)); [lia|].
  f_equal. destruct (Z.ltb_spec units 0); lia.
Qed.

Lemma nearest_zero (q : Z) : 0 < q -> nearest 0 q = Finite 0.
Proof.
  intros Hq. replace 0 with (0 * q) at 1 by lia.
  replace q with (1 * q) at 2 by lia.
  rewrite nearest_scale by lia. reflexivity.
Qed.

Lemma round_magnitude_error (a q : Z) :
  0 < q -> 2 ^ 52 * q <= a ->
  2 ^ 53 * Z.abs (round_magnitude a q * q - a) <= a.
Proof.
  intros Hq Hn. unfold round_magnitude.
  assert (F : 2 ^ 52 <= a / q) by (apply Z.div_le_lower_bound; lia).
  assert (L : 52 <= Z.log2 (a / q)) by (apply Z.log2_le_pow2; lia).
  set (e := Z.log2 (a / q) - 52).
  assert (He : 0 <= e) by (unfold e; lia).
  assert (P : 0 < 2 ^ e) by (apply pow2_pos; lia).
  assert (R : 2 ^ 53 * Z.abs (half_even a (q * 2 ^ e) * 2 ^ e * q - a) <= a).
  { pose proof (half_even_error a (q * 2 ^ e) ltac:(nia)) as E.
    assert (Lo : 2 ^ (52 + e) <= a / q).
    { unfold e. replace (52 + (Z.log2 (a / q) - 52)) with (Z.log2 (a / q)) by lia.
      apply Z.log2_spec. lia. }
    rewrite Z.pow_add_r in Lo by lia.
    assert (Q : q * (a / q) <= a) by (apply Z.mul_div_le; lia).
    replace (half_even a (q * 2 ^ e) * 2 ^ e * q)
      with (half_even a (q * 2 ^ e) * (q * 2 ^ e)) by ring.
    nia. }
  destruct (Z.leb_spec (Z.log2 (a / q)) 52) as [Hb|Hb].
  - assert (e = 0) as E0 by (unfold e; lia).
    rewrite E0, !Z.pow_0_r, !Z.mul_1_r in R. exact R.
  - rewrite !Z.shiftl_mul_pow2 by lia. exact R.
Qed.

(** The double nearest to [p / q] is within half a unit in the last
    place: its relative error is at most 2^-53. *)
Lemma nearest_error (p q m : Z) :
  0 < q -> 2 ^ 52 * q <= Z.abs p -> nearest p q = Finite m ->
  2 ^ 53 * Z.abs (m * q - p) <= Z.abs p.
Proof.
  intros Hq Hn. unfold nearest.
  pose proof (round_magnitude_error (Z.abs p) q Hq Hn) as R.
  destruct (Z.leb_spec overflow (round_magnitude (Z.abs p) q)); [discriminate|].
  intros [= <-].
  destruct (Z.ltb_spec p 0) as [N|N].
  2:{ rewrite (Z.abs_eq p) in R |- * by lia. exact R. }
  replace (- round_magnitude (Z.abs p) q * q - p)
    with (- (round_magnitude (Z.abs p) q * q - Z.abs p)) by lia.
  now rewrite Z.abs_opp.
Qed.

(** *** Integers and the operations on them *)

Lemma double_of_Z (z : Z) : Z.abs z <= 2 ^ 53 -> double (Finite (z * one)).
Proof.
  intros H. cbn [double].
  rewrite Z.abs_mul, (Z.abs_eq one) by (pose proof one_pos; lia).
  rewrite one_eq, overflow_eq. split.
  - apply on_grid_shifted; lia.
  - apply Z.le_lt_trans with (2 ^ 53 * 2 ^ 1074).
    + apply Z.mul_le_mono_nonneg_r; [apply Z.pow_nonneg|]; lia.
    + rewrite <- Z.pow_add_r by lia. apply Z.pow_lt_mono_r; lia.
Qed.

(** An integer of at most 53 bits is a double. *)
Lemma of_Z_exact (z : Z) : Z.abs z <= 2 ^ 53 -> of_Z z = Finite (z * one).
Proof. intros H. apply nearest_of_double. now apply double_of_Z. Qed.

Lemma add_integers (a b : Z) :
  add (Finite (a * one)) (Finite (b * one)) = of_Z (a + b).
Proof. unfold add, of_Z. f_equal. ring. Qed.

Lemma sub_integers (a b : Z) :
  sub (Finite (a * one)) (Finite (b * one)) = of_Z (a - b).
Proof. unfold sub, opp, add, of_Z. f_equal. ring. Qed.

(** The quotient of two integers is the double nearest to it. *)
Lemma div_integers (a b : Z) :
  0 < b -> div (Finite (a * one)) (Finite (b * one)) = nearest (a * one) b.
Proof.
  intros Hb. pose proof one_pos as P. unfold div.
  destruct (Z.eqb_spec (b * one) 0) as [E|_]; [nia|].
  destruct (Z.ltb_spec (b * one) 0) as [E|_]; [nia|].
  rewrite Z.abs_eq by nia. now apply nearest_scale.
Qed.

Lemma eqb_eq (a b : number) : eqb a b = true -> a = b.
Proof.
  destruct a as [|s|x], b as [|t|y]; cbn; try discriminate.
  - intros H. f_equal. now apply Bool.eqb_prop.
  - intros H. f_equal. now apply Z.eqb_eq.
Qed.

Lemma nearest_nonpos (p q m : Z) :
  p <= 0 -> 0 < q -> nearest p q = Finite m -> m <= 0.
Proof.
  intros Hp Hq.
  destruct (Z.eq_dec p 0) as [->|N].
  - rewrite nearest_zero by lia. intros [= <-]. lia.
  - unfold nearest.
    destruct (round_magnitude_grid (Z.abs p) q (Z.abs_nonneg p) Hq) as [R _].
    destruct (overflow <=? _); [discriminate|].
    destruct (Z.ltb_spec p 0); [|lia]. intros [= <-]. lia.
Qed.

Lemma round_magnitude_upper (a q : Z) :
  0 <= a -> 0 < q -> round_magnitude a q <= 2 * (a / q) + 1.
Proof.
  intros Ha Hq. unfold round_magnitude.
  assert (F : 0 <= a / q) by (apply Z.div_pos; lia).
  destruct (Z.leb_spec (Z.log2 (a / q)) 52) as [Hb|Hb].
  - pose proof (half_even_bounds a q). lia.
  - set (e := Z.log2 (a / q) - 52).
    assert (He : 0 < e) by (unfold e; lia).
    assert (P : 0 < 2 ^ e) by (apply pow2_pos; lia).
    assert (Pq : 0 < a / q).
    { destruct (Z.eq_dec (a / q) 0) as [Z0|N]; [|lia].
      rewrite Z0 in Hb. cbn in Hb. lia. }
    pose proof (Z.log2_spec (a / q) Pq) as [Lo _].
    replace (Z.log2 (a / q)) with (52 + e) in Lo by (unfold e; lia).
    rewrite Z.pow_add_r in Lo by lia.
    rewrite !Z.shiftl_mul_pow2 by lia.
    pose proof (half_even_bounds a (q * 2 ^ e)) as B.
    rewrite <- Z.div_div in B by lia.
    assert (Fl : 2 ^ 52 <= a / q / 2 ^ e)
      by (apply Z.div_le_lower_bound; lia).
    pose proof (Z.mul_div_le (a / q) (2 ^ e) P). nia.
Qed.

Lemma nearest_finite (p q : Z) :
  0 < q -> 2 * (Z.abs p / q) + 1 < overflow ->
  exists m, nearest p q = Finite m.
Proof.
  intros Hq B. unfold nearest.
  pose proof (round_magnitude_upper (Z.abs p) q (Z.abs_nonneg p) Hq).
  destruct (Z.leb_spec overflow (round_magnitude (Z.abs p) q)); [lia|].
  eexists. reflexivity.
Qed.

(** Past 2^53 the double of an integer is at least 2^53. *)
Lemma round_magnitude_large (a : Z) :
  2 ^ 53 * one <= a -> 2 ^ 53 * one <= round_magnitude a 1.
Proof.
  intros H. pose proof one_pos as O. unfold round_magnitude.
  rewrite Z.div_1_r.
  assert (A : 2 ^ 1127 <= a).
  { rewrite one_eq, <- Z.pow_add_r in H by lia. exact H. }
  assert (Pa : 0 < a) by (pose proof (pow2_pos 1127); lia).
  assert (L : 1127 <= Z.log2 a) by (apply Z.log2_le_pow2; lia).
  destruct (Z.leb_spec (Z.log2 a) 52) as [|_]; [lia|].
  set (e := Z.log2 a - 52).
  assert (P : 0 < 2 ^ e) by (apply pow2_pos; unfold e; lia).
  rewrite Z.shiftl_1_l, Z.shiftl_mul_pow2 by (unfold e; lia).
  pose proof (half_even_bounds a (2 ^ e)) as B.
  assert (F : 2 ^ 52 <= a / 2 ^ e).
  { apply Z.div_le_lower_bound; [exact P|].
    rewrite <- Z.pow_add_r by (unfold e; lia).
    replace (e + 52) with (Z.log2 a) by (unfold e; lia).
    apply Z.log2_spec. exact Pa. }
  apply Z.le_trans with (2 ^ 52 * 2 ^ e); [|nia].
  rewrite one_eq, <- !Z.pow_add_r by (unfold e; lia).
  apply Z.pow_le_mono_r; unfold e; lia.
Qed.

Lemma of_Z_large (z m : Z) :
  2 ^ 53 <= Z.abs z -> of_Z z = Finite m -> 2 ^ 53 * one <= Z.abs m.
Proof.
  intros H. pose proof one_pos as O. unfold of_Z, nearest.
  rewrite Z.abs_mul, (Z.abs_eq one) by lia.
  pose proof (round_magnitude_large (Z.abs z * one) ltac:(nia)) as R.
  destruct (overflow <=? _); [discriminate|].
  intros [= <-]. destruct (z * one <? 0); lia.
Qed.

Lemma div_double (a b : number) : double (div a b).
Proof.
  assert (Z0 : double (Finite 0)).
  { cbn [double]. change (Z.abs 0) with 0. split; [now apply on_grid_small|].
    rewrite overflow_eq. now apply pow2_pos. }
  destruct a as [|s|x], b as [|t|y]; cbn [div double]; try exact I;
    [exact Z0|].
  destruct (Z.eqb_spec y 0) as [E|N]; [now destruct (x =? 0)|].
  apply nearest_double. lia.
Qed.

(** The quotient of an integer of at most 53 bits by 1000 is a finite
    double, off the quotient by a relative error of at most 2^-53. *)
Lemma quotient_by_1000 (n : Z) :
  Z.abs n <= 2 ^ 53 ->
  exists units,
    nearest (n * one) 1000 = Finite units
    /\ 2 ^ 53 * Z.abs (units * 1000 - n * one) <= Z.abs n * one.
Proof.
  intros H. pose proof one_pos as O.
  destruct (Z.eq_dec n 0) as [->|N].
  - exists 0. rewrite Z.mul_0_l, nearest_zero by lia. split; [reflexivity|].
    cbn. lia.
  - destruct (nearest_finite (n * one) 1000 ltac:(lia)) as [m E].
    + rewrite Z.abs_mul, (Z.abs_eq one) by lia.
      assert (Z.abs n * one / 1000 <= 2 ^ 53 * one).
      { apply Z.div_le_upper_bound; [lia|]. nia. }
      assert (2 * (2 ^ 53 * one) + 1 < overflow); [|lia].
      rewrite one_eq, overflow_eq. lia.
    + exists m. split; [exact E|].
      rewrite <- (Z.abs_eq one) at 2 by lia. rewrite <- Z.abs_mul.
      apply nearest_error; [lia| |exact E].
      rewrite Z.abs_mul, (Z.abs_eq one) by lia.
      assert (2 ^ 52 * 1000 <= one) by (rewrite one_eq; lia). nia.
Qed.


(** *** The digits of a double *)

Lemma pow10_pos (n : Z) : 0 <= n -> 0 < 10 ^ n.
Proof. intros H. now apply Z.pow_pos_nonneg. Qed.

Lemma of_decimal_nonpos (s e m : Z) :
  s <= 0 -> of_decimal s e = Finite m -> m <= 0.
Proof.
  intros Hs. unfold of_decimal. pose proof one_pos as P.
  destruct (Z.leb_spec 0 e) as [He|He]; apply nearest_nonpos; try lia.
  all: try (apply pow10_pos; lia).
  all: try (pose proof (pow10_pos e); nia).
Qed.

Lemma candidate_sound (units n k : Z) (d : Z * Z) :
  candidate units n k = Some d -> reads_back units d = true.
Proof.
  unfold candidate.
  destruct (reads_back units (carried k (_, n - k))) eqn:B,
           (reads_back units (carried k (_ + 1, n - k))) eqn:A;
    try discriminate; intros [= <-]; try assumption.
  now destruct (match _ ?= _ with Eq => _ | Lt => _ | Gt => _ end).
Qed.

Lemma search_sound (fuel : nat) (units n k : Z) (d : Z * Z) :
  search fuel units n k = Some d -> reads_back units d = true.
Proof.
  revert k. induction fuel as [|fuel IH]; intros k; cbn [search];
    [discriminate|].
  destruct (candidate units n k) eqn:C.
  - intros [= <-]. now apply candidate_sound in C.
  - apply IH.
Qed.

Lemma exact_digits_sound (units : Z) :
  double (Finite units) ->
  of_decimal (fst (exact_digits units)) (snd (exact_digits units))
  = Finite units.
Proof.
  intros D. unfold exact_digits, of_decimal. cbn [fst snd].
  change (0 <=? -1074) with false. change (- -1074) with 1074. cbv iota.
  rewrite one_eq, <- Z.mul_assoc, <- Z.pow_mul_l.
  change (5 * 2) with 10.
  rewrite <- (Z.mul_1_l (10 ^ 1074)) at 2.
  rewrite nearest_scale; [|lia|apply pow10_pos; lia].
  now apply nearest_of_double.
Qed.

(** The digits of a double stand for a decimal that is rounded to it. *)
Lemma shortest_sound (units : Z) :
  0 < units -> double (Finite units) ->
  of_decimal (fst (shortest units)) (snd (shortest units)) = Finite units
  /\ 0 < fst (shortest units).
Proof.
  intros P D.
  assert (S : of_decimal (fst (shortest units)) (snd (shortest units))
              = Finite units).
  { unfold shortest.
    destruct (search 17 units (integer_digits units) 1) as [d|] eqn:E.
    - apply search_sound in E. now apply eqb_eq.
    - now apply exact_digits_sound. }
  split; [exact S|].
  destruct (Z.lt_ge_cases 0 (fst (shortest units))) as [K|K]; [exact K|].
  apply of_decimal_nonpos in S; lia.
Qed.

(** *** Printing and reading digits *)

Lemma spelled_app (a b : list Z) (acc : Z) :
  spelled (a ++ b) acc = spelled b (spelled a acc).
Proof. apply fold_left_app. Qed.

Lemma spelled_shift (ds : list Z) (acc : Z) :
  spelled ds acc = acc * 10 ^ Z.of_nat (List.length ds) + spelled ds 0.
Proof.
  revert acc. induction ds as [|d ds IH]; intros acc.
  - cbn. lia.
  - cbn [spelled fold_left List.length]. fold (spelled ds (acc * 10 + d)).
    fold (spelled ds (0 * 10 + d)).
    rewrite (IH (acc * 10 + d)), (IH (0 * 10 + d)).
    rewrite Nat2Z.inj_succ, Z.pow_succ_r by lia. ring.
Qed.

Lemma spelled_zeros (n : nat) (acc : Z) :
  spelled (repeat 0 n) acc = acc * 10 ^ Z.of_nat n.
Proof.
  revert acc. induction n as [|n IH]; intros acc.
  - cbn. lia.
  - cbn [repeat spelled fold_left]. fold (spelled (repeat 0 n) (acc * 10 + 0)).
    rewrite IH, Nat2Z.inj_succ, Z.pow_succ_r by lia. ring.
Qed.

Lemma digits_upto_spelled (fuel : nat) (z : Z) (acc : list Z) :
  0 <= z < 10 ^ Z.of_nat fuel ->
  spelled (digits_upto fuel z acc) 0
  = z * 10 ^ Z.of_nat (List.length acc) + spelled acc 0.
Proof.
  revert z acc. induction fuel as [|fuel IH]; intros z acc Hz.
  - cbn in Hz. cbn [digits_upto]. assert (z = 0) as -> by lia. lia.
  - cbn [digits_upto].
    destruct (Z.leb_spec z 0) as [N|N]; [assert (z = 0) as -> by lia; lia|].
    rewrite Nat2Z.inj_succ, Z.pow_succ_r in Hz by lia.
    rewrite IH by (split; [apply Z.div_pos; lia
                          | apply Z.div_lt_upper_bound; lia]).
    cbn [List.length spelled fold_left]. fold (spelled acc (0 * 10 + z mod 10)).
    rewrite (spelled_shift acc (0 * 10 + z mod 10)).
    rewrite Nat2Z.inj_succ, Z.pow_succ_r by lia.
    pose proof (Z.div_mod z 10 ltac:(lia)) as E.
    rewrite E at 3. ring.
Qed.

Lemma digits_spelled (z : Z) : 0 <= z -> spelled (digits z) 0 = z.
Proof.
  intros Hz. unfold digits.
  rewrite digits_upto_spelled; [cbn; lia|].
  split; [exact Hz|].
  rewrite Nat2Z.inj_succ, Z2Nat.id by apply Z.log2_nonneg.
  destruct (Z.eq_dec z 0) as [->|N]; [reflexivity|].
  apply Z.lt_le_trans with (2 ^ Z.succ (Z.log2 z)).
  - apply Z.log2_spec. lia.
  - apply Z.pow_le_mono_l. lia.
Qed.

Lemma digits_upto_valid (fuel : nat) (z : Z) (acc : list Z) :
  Forall valid acc -> Forall valid (digits_upto fuel z acc).
Proof.
  revert z acc. induction fuel as [|fuel IH]; intros z acc H; cbn [digits_upto];
    [exact H|].
  destruct (z <=? 0); [exact H|].
  apply IH. constructor; [|exact H].
  unfold valid. pose proof (Z.mod_pos_bound z 10). lia.
Qed.

Lemma digits_valid (z : Z) : Forall valid (digits z).
Proof. apply digits_upto_valid. constructor. Qed.

Lemma digit_char_spec (d : Z) :
  valid d ->
  char_digit (digit_char d) = Some d
  /\ Ascii.eqb (digit_char d) "." = false
  /\ Ascii.eqb (digit_char d) "e" = false.
Proof.
  intros H. unfold valid in H.
  assert (C : d = 0 \/ d = 1 \/ d = 2 \/ d = 3 \/ d = 4 \/ d = 5 \/ d = 6
              \/ d = 7 \/ d = 8 \/ d = 9) by lia.
  repeat (destruct C as [->|C]; [now repeat split|]).
  subst d. now repeat split.
Qed.

Lemma read_digits_chars (ds : list Z) (rest : list ascii) (acc : Z)
      (point : option Z) :
  Forall valid ds ->
  read_digits (chars ds ++ rest) acc point
  = read_digits rest (spelled ds acc)
      (option_map (Z.add (Z.of_nat (List.length ds))) point).
Proof.
  intros V. revert acc point.
  induction V as [|d ds Hd V IH]; intros acc point.
  - cbn. now destruct point.
  - destruct (digit_char_spec d Hd) as [C [P _]].
    cbn [chars map app read_digits]. rewrite P, C.
    fold (chars ds). rewrite IH. cbn [spelled fold_left List.length].
    f_equal. destruct point as [f|]; cbn [option_map]; [|reflexivity].
    f_equal. lia.
Qed.

Lemma read_whole (a : list Z) :
  Forall valid a -> read_digits (chars a) 0 None = Some (spelled a 0, 0).
Proof.
  intros V. rewrite <- (app_nil_r (chars a)), read_digits_chars by exact V.
  reflexivity.
Qed.

Lemma read_point (a b : list Z) :
  Forall valid a -> Forall valid b ->
  read_digits (chars a ++ "."%char :: chars b) 0 None
  = Some (spelled (a ++ b) 0, Z.of_nat (List.length b)).
Proof.
  intros Va Vb. rewrite read_digits_chars by exact Va.
  cbn [read_digits option_map]. change (Ascii.eqb "." ".") with true. cbv iota.
  rewrite <- (app_nil_r (chars b)), read_digits_chars by exact Vb.
  cbn [read_digits option_map]. rewrite spelled_app. f_equal. f_equal. lia.
Qed.

Lemma read_integer_chars (a : list Z) :
  Forall valid a -> read_integer (chars a) = Some (spelled a 0).
Proof.
  intros V. unfold read_integer.
  rewrite <- (app_nil_r (chars a)), read_digits_chars by exact V.
  reflexivity.
Qed.

Lemma plain_chars (ds : list Z) : Forall valid ds -> plain (chars ds).
Proof.
  intros V. induction V as [|d ds Hd V IH]; constructor; [|exact IH].
  apply (digit_char_spec d Hd).
Qed.

Lemma plain_point (a b : list Z) :
  Forall valid a -> Forall valid b -> plain (chars a ++ "."%char :: chars b).
Proof.
  intros Va Vb. apply Forall_app. split; [now apply plain_chars|].
  constructor; [reflexivity | now apply plain_chars].
Qed.

Lemma split_exponent_plain (l : list ascii) :
  plain l -> split_exponent l = (l, None).
Proof.
  intros P. induction P as [|c l Hc P IH]; cbn [split_exponent];
    [reflexivity|].
  now rewrite Hc, IH.
Qed.

Lemma split_exponent_at (l r : list ascii) :
  plain l -> split_exponent (l ++ "e"%char :: r) = (l, Some r).
Proof.
  intros P. induction P as [|c l Hc P IH]; cbn [split_exponent app];
    [reflexivity|].
  now rewrite Hc, IH.
Qed.

Lemma read_decimal_plain (l : list ascii) (m f : Z) :
  plain l -> read_digits l 0 None = Some (m, f) ->
  read_decimal l = Some (m, - f).
Proof.
  intros P R. unfold read_decimal. now rewrite split_exponent_plain, R.
Qed.

Lemma read_decimal_exponent (l : list ascii) (m f x : Z) :
  plain l -> read_digits l 0 None = Some (m, f) ->
  read_decimal
    (l ++ "e"%char :: (if x <? 0 then "-"%char else "+"%char)
       :: chars (digits (Z.abs x)))
  = Some (m, x - f).
Proof.
  intros P R. unfold read_decimal. rewrite split_exponent_at, R by exact P.
  unfold read_exponent.
  destruct (Z.ltb_spec x 0) as [N|N].
  - change (Ascii.eqb "-" "+") with false. change (Ascii.eqb "-" "-") with true.
    cbv iota. rewrite read_integer_chars by apply digits_valid.
    rewrite digits_spelled by lia. cbn [option_map]. do 2 f_equal. lia.
  - change (Ascii.eqb "+" "+") with true. cbv iota.
    rewrite read_integer_chars by apply digits_valid.
    rewrite digits_spelled by lia. do 2 f_equal. lia.
Qed.

Lemma chars_zeros (n : nat) : repeat "0"%char n = chars (repeat 0 n).
Proof. unfold chars. now rewrite map_repeat. Qed.

Lemma valid_zeros (n : nat) : Forall valid (repeat 0 n).
Proof.
  apply Forall_forall. intros d H. apply repeat_spec in H. subst d.
  unfold valid. lia.
Qed.

Lemma of_decimal_shift (s e : Z) :
  0 <= e -> of_decimal (s * 10 ^ e) 0 = of_decimal s e.
Proof.
  intros He. unfold of_decimal. apply Z.leb_le in He. rewrite He.
  change (0 <=? 0) with true. cbv iota. now rewrite Z.pow_0_r, Z.mul_1_r.
Qed.

Lemma exponent_layout_reads (ds : list Z) (e : Z) :
  Forall valid ds -> ds <> [] ->
  read_decimal
    (match ds with
     | d :: (_ :: _) as rest => digit_char d :: "."%char :: chars rest
     | _ => chars ds
     end
     ++ "e"%char
     :: (if e + Z.of_nat (List.length ds) - 1 <? 0 then "-"%char else "+"%char)
     :: chars (digits (Z.abs (e + Z.of_nat (List.length ds) - 1))))
  = Some (spelled ds 0, e).
Proof.
  intros V N. destruct ds as [|d [|d' ds']]; [congruence| |].
  - rewrite (read_decimal_exponent _ _ 0 _ (plain_chars _ V) (read_whole _ V)).
    do 2 f_equal. cbn. lia.
  - inversion V as [|? ? Vd V']; subst.
    change (digit_char d :: "."%char :: chars (d' :: ds'))
      with (chars [d] ++ "."%char :: chars (d' :: ds')).
    assert (V1 : Forall valid [d]) by (constructor; [exact Vd | constructor]).
    rewrite (read_decimal_exponent _ _ _ _ (plain_point _ _ V1 V')
               (read_point _ _ V1 V')).
    cbn [app]. do 2 f_equal. cbn [List.length]. lia.
Qed.

(** The text of digits reads as the decimal the digits stand for. *)
Lemma format_reads (ds : list Z) (e : Z) :
  Forall valid ds -> ds <> [] ->
  exists m e', read_decimal (format ds e) = Some (m, e')
               /\ of_decimal m e' = of_decimal (spelled ds 0) e.
Proof.
  intros V N. unfold format.
  pose proof (exponent_layout_reads ds e V N) as X.
  set (k := Z.of_nat (List.length ds)) in *.
  assert (K : 0 < k) by (unfold k; destruct ds; [congruence | cbn; lia]).
  destruct ((k <=? e + k) && (e + k <=? 21)) eqn:C1;
    [|destruct ((0 <? e + k) && (e + k <=? 21)) eqn:C2;
      [|destruct ((-6 <? e + k) && (e + k <=? 0)) eqn:C3]].
  - (* digits and zeros *)
    apply andb_prop in C1. destruct C1 as [C1 _]. apply Z.leb_le in C1.
    exists (spelled ds 0 * 10 ^ e), 0. split; [|apply of_decimal_shift; lia].
    rewrite chars_zeros. unfold chars. rewrite <- map_app.
    fold (chars (ds ++ repeat 0 (Z.to_nat e))).
    assert (V' : Forall valid (ds ++ repeat 0 (Z.to_nat e)))
      by (apply Forall_app; split; [exact V | apply valid_zeros]).
    rewrite (read_decimal_plain _ _ 0 (plain_chars _ V') (read_whole _ V')).
    rewrite spelled_app, spelled_zeros, Z2Nat.id by lia. reflexivity.
  - (* the point among the digits *)
    apply andb_prop in C2. destruct C2 as [C2 C2'].
    rewrite C2', andb_true_r in C1.
    apply Z.leb_gt in C1. apply Z.ltb_lt in C2.
    exists (spelled ds 0), e. split; [|reflexivity].
    assert (Vfs : Forall valid (firstn (Z.to_nat (e + k)) ds)
                  /\ Forall valid (skipn (Z.to_nat (e + k)) ds))
      by (apply Forall_app; now rewrite firstn_skipn).
    destruct Vfs as [Vf Vs].
    rewrite (read_decimal_plain _ _ _ (plain_point _ _ Vf Vs)
               (read_point _ _ Vf Vs)).
    rewrite firstn_skipn. do 2 f_equal.
    rewrite length_skipn. unfold k in *. lia.
  - (* zeros before the digits *)
    apply andb_prop in C3. destruct C3 as [_ C3]. apply Z.leb_le in C3.
    exists (spelled ds 0), e. split; [|reflexivity].
    rewrite chars_zeros.
    change ("0"%char :: "."%char :: chars (repeat 0 (Z.to_nat (- (e + k))))
            ++ chars ds)
      with (chars [0] ++ "."%char
            :: (chars (repeat 0 (Z.to_nat (- (e + k)))) ++ chars ds)).
    unfold chars at 2 3. rewrite <- map_app.
    fold (chars (repeat 0 (Z.to_nat (- (e + k))) ++ ds)).
    assert (V0 : Forall valid [0])
      by (constructor; [unfold valid; lia | constructor]).
    assert (Vz : Forall valid (repeat 0 (Z.to_nat (- (e + k))) ++ ds))
      by (apply Forall_app; split; [apply valid_zeros | exact V]).
    rewrite (read_decimal_plain _ _ _ (plain_point _ _ V0 Vz)
               (read_point _ _ V0 Vz)).
    rewrite !spelled_app, spelled_zeros.
    change (spelled [0] 0) with 0. rewrite Z.mul_0_l.
    do 2 f_equal. rewrite length_app, repeat_length. unfold k in *. lia.
  - (* the exponent layout *)
    exists (spelled ds 0), e. split; [exact X | reflexivity].
Qed.

Lemma read_decimal_minus (rest : list ascii) :
  read_decimal ("-"%char :: rest) = None.
Proof.
  unfold read_decimal. cbn [split_exponent].
  change (Ascii.eqb "-" "e") with false. cbv iota.
  destruct (split_exponent rest) as [m x]. cbn [read_digits].
  change (Ascii.eqb "-" ".") with false. cbv iota.
  change (char_digit "-") with (@None Z). cbv iota. now destruct x.
Qed.

Lemma digits_nonempty (z : Z) : 0 < z -> digits z <> [].
Proof.
  intros Hz E. pose proof (digits_spelled z ltac:(lia)) as S.
  rewrite E in S. cbn in S. lia.
Qed.

Lemma read_unsigned_format (s e : Z) :
  0 < s -> read_unsigned (format (digits s) e) = of_decimal s e.
Proof.
  intros Hs.
  destruct (format_reads (digits s) e (digits_valid s) (digits_nonempty s Hs))
    as [m [e' [R E]]].
  unfold read_unsigned. rewrite R, E, digits_spelled by lia. reflexivity.
Qed.

Lemma format_no_sign (s e : Z) (rest : list ascii) :
  0 < s -> format (digits s) e <> "-"%char :: rest.
Proof.
  intros Hs E.
  destruct (format_reads (digits s) e (digits_valid s) (digits_nonempty s Hs))
    as [m [e' [R _]]].
  rewrite E, read_decimal_minus in R. discriminate.
Qed.

Lemma toString_positive (p : positive) :
  toString (Finite (Z.pos p))
  = string_of_list_ascii
      (format (digits (fst (shortest (Z.pos p)))) (snd (shortest (Z.pos p)))).
Proof. reflexivity. Qed.

Lemma toString_negative (p : positive) :
  toString (Finite (Z.neg p))
  = String "-"
      (string_of_list_ascii
         (format (digits (fst (shortest (Z.pos p)))) (snd (shortest (Z.pos p))))).
Proof. reflexivity. Qed.

Lemma of_text_unsigned (l : list ascii) :
  (forall rest, l <> "-"%char :: rest) ->
  of_text (string_of_list_ascii l) = read_unsigned l.
Proof.
  intros H. unfold of_text. rewrite list_ascii_of_string_of_list_ascii.
  destruct l as [|c rest]; [reflexivity|].
  destruct (Ascii.eqb_spec c "-") as [->|_]; [|reflexivity].
  now destruct (H rest).
Qed.

Lemma of_text_signed (l : list ascii) :
  of_text (String "-" (string_of_list_ascii l)) = opp (read_unsigned l).
Proof.
  unfold of_text. cbn [list_ascii_of_string].
  rewrite list_ascii_of_string_of_list_ascii. reflexivity.
Qed.

Lemma of_text_zero : of_text "0" = Finite 0.
Proof. vm_compute. reflexivity. Qed.

(** The text of a double reads back as that double. *)
Theorem toString_reads_back (x : number) :
  double x -> of_text (toString x) = x.
Proof.
  destruct x as [|[|]|[|p|p]]; intros D.
  - reflexivity.
  - reflexivity.
  - reflexivity.
  - exact of_text_zero.
  - destruct (shortest_sound (Z.pos p) ltac:(lia) D) as [S P].
    rewrite toString_positive, of_text_unsigned.
    + now rewrite read_unsigned_format.
    + intros rest. now apply format_no_sign.
  - destruct (shortest_sound (Z.pos p) ltac:(lia) D) as [S P].
    rewrite toString_negative, of_text_signed, read_unsigned_format by exact P.
    now rewrite S.
Qed.

End JsNumberFacts.

(** * Properties of the job-run tree item *)

Module DatabricksJobRunFacts.

Import Types.
Import NotebookTask SparkJarTask SparkPythonTask SparkSubmitTask.
Import DatabricksJobRun.

Local Open Scope string_scope.
Local Open Scope Z_scope.

(** *** Dates and durations *)

(** A [Date] holds the integers up to 8.64e15 in magnitude, and no other
    integer. *)
Lemma new_Date_integer (t : Z) :
  Z.abs t <= 8640000000000000 -> new_Date (JsNumber.of_Z t) = Some t.
Proof.
  intros H. pose proof JsNumberFacts.one_pos as O.
  rewrite JsNumberFacts.of_Z_exact by lia. unfold new_Date.
  rewrite Z.abs_mul, (Z.abs_eq JsNumber.one) by lia.
  destruct (Z.leb_spec (Z.abs t * JsNumber.one)
                       (8640000000000000 * JsNumber.one)); [|nia].
  f_equal. apply Z.quot_mul. lia.
Qed.

Lemma new_Date_out_of_range (t : Z) :
  8640000000000000 < Z.abs t -> new_Date (JsNumber.of_Z t) = None.
Proof.
  intros H. pose proof JsNumberFacts.one_pos as O.
  destruct (Z.le_gt_cases (Z.abs t) (2 ^ 53)) as [S|L].
  - rewrite JsNumberFacts.of_Z_exact by exact S. unfold new_Date.
    rewrite Z.abs_mul, (Z.abs_eq JsNumber.one) by lia.
    destruct (Z.leb_spec (Z.abs t * JsNumber.one)
                         (8640000000000000 * JsNumber.one)); [nia|reflexivity].
  - destruct (JsNumber.of_Z t) as [|s|m] eqn:E; try reflexivity.
    apply JsNumberFacts.of_Z_large in E; [|lia]. unfold new_Date.
    destruct (Z.leb_spec (Z.abs m) (8640000000000000 * JsNumber.one));
      [nia|reflexivity].
Qed.

(** The number of seconds that is printed reads back as itself. *)
Lemma elapsed_reads_back (later earlier : JsNumber.number) :
  JsNumber.of_text (JsNumber.toString (elapsed_seconds later earlier))
  = elapsed_seconds later earlier.
Proof.
  apply JsNumberFacts.toString_reads_back. apply JsNumberFacts.div_double.
Qed.

Lemma elapsed_of_integers (later earlier : Z) :
  elapsed_seconds (getTime later) (getTime earlier)
  = JsNumber.div (JsNumber.of_Z (later - earlier)) (JsNumber.of_Z 1000).
Proof.
  unfold elapsed_seconds, getTime. now rewrite JsNumberFacts.sub_integers.
Qed.


(** The sum of the start and the three durations, added from left to
    right, is exact as long as no number in it passes 2^53. *)
Lemma sum_of_durations (start setup execution cleanup : Z) :
  Z.abs start <= 2 ^ 53 -> 0 <= setup -> 0 <= execution -> 0 <= cleanup ->
  setup + execution + cleanup <= 2 ^ 53 ->
  start + setup + execution <= 2 ^ 53 ->
  JsNumber.add
    (JsNumber.add
       (JsNumber.add (JsNumber.of_Z start) (JsNumber.of_Z setup))
       (JsNumber.of_Z execution))
    (JsNumber.of_Z cleanup)
  = JsNumber.of_Z (start + setup + execution + cleanup).
Proof.
  intros Hs Ha Hb Hc Ht Hp.
  rewrite (JsNumberFacts.of_Z_exact start) by lia.
  rewrite (JsNumberFacts.of_Z_exact setup) by lia.
  rewrite (JsNumberFacts.of_Z_exact execution) by lia.
  rewrite (JsNumberFacts.of_Z_exact cleanup) by lia.
  rewrite JsNumberFacts.add_integers.
  rewrite (JsNumberFacts.of_Z_exact (start + setup)) by lia.
  rewrite JsNumberFacts.add_integers.
  rewrite (JsNumberFacts.of_Z_exact (start + setup + execution)) by lia.
  apply JsNumberFacts.add_integers.
Qed.

Section Facts.

Variable JSON_stringify : list (string * string) -> string.
Variable trimChar : string -> string -> string.

Lemma equals_true (x : option string) (s : string) :
  equals x s = true <-> x = Some s.
Proof.
  destruct x as [v|]; cbn; [|split; discriminate].
  rewrite String.eqb_eq. split; congruence.
Qed.

Lemma equals_false (x : option string) (s : string) :
  equals x s = false <-> x <> Some s.
Proof. rewrite <- equals_true. now destruct (equals x s). Qed.

(** C7.  The bucket of a job run is [succeeded] when its result state is
    SUCCESS, [failed] when it is FAILED, CANCELED or TIMEDOUT, and [running]
    for every other result state, the unset one included. *)
Theorem state_bucket (this : DatabricksJobRun) :
  let result := result_state (Types.state (definition this)) in
  (result = Some "SUCCESS" -> state this = "succeeded")
  /\ (result = Some "FAILED" \/ result = Some "CANCELED"
      \/ result = Some "TIMEDOUT" -> state this = "failed")
  /\ (result <> Some "SUCCESS" -> result <> Some "FAILED" ->
      result <> Some "CANCELED" -> result <> Some "TIMEDOUT" ->
      state this = "running")
  /\ (result = None \/ result = Some "" -> state this = "running").
Proof.
  intros result. unfold state. fold result.
  assert (Hrun : result <> Some "SUCCESS" -> result <> Some "FAILED" ->
                 result <> Some "CANCELED" -> result <> Some "TIMEDOUT" ->
                 (if equals result "SUCCESS" then "succeeded"
                  else if equals result "FAILED" || equals result "CANCELED"
                          || equals result "TIMEDOUT" then "failed"
                  else "running") = "running").
  { intros H1 H2 H3 H4.
    apply equals_false in H1, H2, H3, H4. now rewrite H1, H2, H3, H4. }
  split; [|split; [|split]].
  - intros ->. reflexivity.
  - intros [-> | [-> | ->]]; reflexivity.
  - exact Hrun.
  - intros [-> | ->]; reflexivity.
Qed.

Lemma string_app_assoc (a b c : string) : (a ++ b) ++ c = a ++ b ++ c.
Proof. induction a as [|x a IH]; cbn; [reflexivity | now rewrite IH]. Qed.

Lemma endDate_exact (this : DatabricksJobRun) :
  0 <= setup_duration (definition this) ->
  0 <= execution_duration (definition this) ->
  0 <= cleanup_duration (definition this) ->
  setup_duration (definition this) + execution_duration (definition this)
  + cleanup_duration (definition this) <= 2 ^ 53 ->
  Z.abs (Types.start_time (definition this)) <= 8640000000000000 ->
  Types.start_time (definition this)
  + (setup_duration (definition this) + execution_duration (definition this)
     + cleanup_duration (definition this)) <= 2 ^ 53 ->
  endDate this
  = new_Date
      (JsNumber.of_Z
         (Types.start_time (definition this)
          + (setup_duration (definition this)
             + execution_duration (definition this)
             + cleanup_duration (definition this)))).
Proof.
  intros Ha Hb Hc Ht Hs Hf. unfold endDate.
  rewrite sum_of_durations by lia.
  do 2 f_equal. lia.
Qed.

Lemma tooltip_throws_with_details (now : Z) (this : DatabricksJobRun) (e : JsError) :
  task_details JSON_stringify this = Threw e ->
  tooltip JSON_stringify trimChar now this = Threw e.
Proof. intros H. unfold tooltip. now rewrite H. Qed.


(** C9.  Whatever becomes of the cancel request, the trace of [stop] holds
    the request, then the wait of 10000 ms, then the one request for a
    refresh of the job list; the notice of the cancel call, if there is one,
    comes during the wait or after the refresh and changes neither. *)
Theorem stop_refreshes_once (this : DatabricksJobRun) (response : CancelResponse) :
  List.length (filter is_refresh (stop this response)) = 1%nat
  /\ filter is_wait (stop this response) = [Wait 10000]
  /\ exists during after : list UiEffect,
       stop this response
       = ([CancelRunJob (job_run_id this); Wait 10000]
          ++ during
          ++ [ExecuteCommand "databricksJobs.refresh" false]
          ++ after)%list
       /\ filter is_refresh during = []
       /\ filter is_refresh after = []
       /\ (forall s m, response = Some (s, m) ->
             (during ++ after)%list = [on_settled this s])
       /\ (response = None -> (during ++ after)%list = []).
Proof.
  unfold stop.
  destruct response as [[s m]|]; [destruct m|]; cbn [callbacks_at app].
  - split; [now destruct s|]. split; [now destruct s|].
    exists [on_settled this s], [].
    repeat split; try (now destruct s); try discriminate.
    intros s' m' E. now injection E as -> _.
  - split; [now destruct s|]. split; [now destruct s|].
    exists [], [on_settled this s].
    repeat split; try (now destruct s); try discriminate.
    intros s' m' E. now injection E as -> _.
  - split; [reflexivity|]. split; [reflexivity|].
    exists [], []. repeat split. discriminate.
Qed.

(** C10.  The three task getters look at the payloads in one order,
    notebook, JAR, Python, Spark-Submit, and each is about the first
    payload that is there: [task_type] names it, and [task_description] and
    [task_details] return its description, except that a getter which
    joins the [parameters] of that payload ([task_details] for a JAR, a
    Python and a Spark-Submit payload, [task_description] for a
    Spark-Submit payload) throws a [TypeError] when it has none; with no
    payload all three return [undefined]. *)
Theorem task_getters_agree (this : DatabricksJobRun) :
  let t := task (definition this) in
  (forall n, notebook_task t = Some n ->
     task_type this = Some "Notebook"
     /\ task_description this = Returned (Some ("Notebook: " ++ notebook_path n))
     /\ task_details JSON_stringify this
        = Returned
            (Some ("Notebook: " ++ notebook_path n ++ LF
                   ++ "Revision Timestamp: "
                   ++ opt_toString
                        (option_map Number_toString (revision_timestamp n))
                   ++ LF ++ "Parameters: "
                   ++ opt_toString
                        (option_map JSON_stringify (base_parameters n)))))
  /\ (forall j, notebook_task t = None -> spark_jar_task t = Some j ->
        task_type this = Some "JAR"
        /\ task_description this
           = Returned (Some ("JAR: " ++ opt_toString (jar_uri j) ++ " - "
                             ++ main_class_name j))
        /\ task_details JSON_stringify this
           = match SparkJarTask.parameters j with
             | Some parameters =>
                 Returned
                   (Some ("JAR: " ++ opt_toString (jar_uri j) ++ LF
                          ++ "Main Class: " ++ main_class_name j ++ LF
                          ++ "Parameters: " ++ join " " parameters))
             | None => Threw join_of_undefined
             end)
  /\ (forall p, notebook_task t = None -> spark_jar_task t = None ->
        spark_python_task t = Some p ->
        task_type this = Some "Python"
        /\ task_description this = Returned (Some ("Python: " ++ python_file p))
        /\ task_details JSON_stringify this
           = match SparkPythonTask.parameters p with
             | Some parameters =>
                 Returned
                   (Some ("Python: " ++ python_file p ++ LF
                          ++ "Parameters: " ++ join " " parameters))
             | None => Threw join_of_undefined
             end)
  /\ (forall s, notebook_task t = None -> spark_jar_task t = None ->
        spark_python_task t = None -> spark_submit_task t = Some s ->
        task_type this = Some "Submit"
        /\ task_description this
           = match SparkSubmitTask.parameters s with
             | Some parameters =>
                 Returned (Some ("Spark-Submit: " ++ join " " parameters))
             | None => Threw join_of_undefined
             end
        /\ task_details JSON_stringify this = task_description this)
  /\ (notebook_task t = None -> spark_jar_task t = None ->
      spark_python_task t = None -> spark_submit_task t = None ->
      task_type this = None
      /\ task_description this = Returned None
      /\ task_details JSON_stringify this = Returned None).
Proof.
  intros t. unfold task_type, task_description, task_details. fold t.
  repeat split; intros;
    repeat match goal with
           | H : _ = _ |- _ => rewrite H; clear H
           end;
    try reflexivity;
    match goal with
    | |- context [join_parameters _ ?ps] => now destruct ps
    end.
Qed.

(** ** Further properties of the tree item *)

(** X19.  For a run that has not succeeded, failed runs included, and
    whose start is a time value a [Date] can hold, the tooltip has no
    finish line: it prints the task details, the start and, marked as
    running, the seconds from the start to the current time, in digits
    that read back as that number, and it throws what the task details
    throw.  The number is the quotient by 1000 of the double nearest to
    the milliseconds between the two, which up to 2^53 ms is the double
    nearest to the exact quotient. *)
Theorem tooltip_of_unfinished_run (now : Z) (this : DatabricksJobRun) :
  let start := Types.start_time (definition this) in
  let seconds := elapsed_seconds (JsNumber.of_Z now) (getTime start) in
  state this <> "succeeded" ->
  Z.abs start <= 8640000000000000 ->
  (forall details, task_details JSON_stringify this = Returned details ->
   tooltip JSON_stringify trimChar now this
   = Returned
       (opt_toString details
        ++ "Started: " ++ trimChar (toISOString_time start) "T" ++ " UTC" ++ LF
        ++ "Duration: " ++ JsNumber.toString seconds
        ++ " seconds (running)" ++ LF))
  /\ (forall e, task_details JSON_stringify this = Threw e ->
      tooltip JSON_stringify trimChar now this = Threw e)
  /\ JsNumber.of_text (JsNumber.toString seconds) = seconds
  /\ (Z.abs now <= 2 ^ 53 ->
      seconds
      = JsNumber.div (JsNumber.of_Z (now - start)) (JsNumber.of_Z 1000))
  /\ (Z.abs now <= 2 ^ 53 -> Z.abs (now - start) <= 2 ^ 53 ->
      seconds = JsNumber.nearest ((now - start) * JsNumber.one) 1000
      /\ exists units,
           seconds = JsNumber.Finite units
           /\ 2 ^ 53 * Z.abs (units * 1000 - (now - start) * JsNumber.one)
              <= Z.abs (now - start) * JsNumber.one).
Proof.
  intros start seconds Hs Hstart.
  assert (Hq : Z.abs now <= 2 ^ 53 ->
               seconds = JsNumber.div (JsNumber.of_Z (now - start))
                                      (JsNumber.of_Z 1000)).
  { intros Hn. unfold seconds.
    rewrite (JsNumberFacts.of_Z_exact now Hn).
    change (JsNumber.Finite (now * JsNumber.one)) with (getTime now).
    apply elapsed_of_integers. }
  split; [|split; [|split; [|split]]].
  - intros details Hd. unfold tooltip. fold start.
    rewrite Hd, (new_Date_integer start Hstart).
    apply String.eqb_neq in Hs. rewrite Hs.
    rewrite !string_app_assoc. reflexivity.
  - intros e. apply tooltip_throws_with_details.
  - apply elapsed_reads_back.
  - exact Hq.
  - intros Hn Hd.
    assert (E : seconds
                = JsNumber.nearest ((now - start) * JsNumber.one) 1000).
    { rewrite (Hq Hn), !JsNumberFacts.of_Z_exact by lia.
      apply JsNumberFacts.div_integers. lia. }
    split; [exact E|].
    destruct (JsNumberFacts.quotient_by_1000 (now - start) Hd) as [units [U B]].
    exists units. rewrite E. now split.
Qed.

(** X20.  The tooltip throws what the task details throw.  When these
    return, it returns a text or throws the [RangeError] of an invalid
    date, and it throws exactly when the start is not a time value a
    [Date] can hold, or the run has succeeded and its end date is invalid.
    For non-negative durations and numbers up to 2^53 the end date is
    invalid exactly when the start plus the durations is past 8.64e15. *)
Theorem tooltip_throws_on_invalid_dates (now : Z) (this : DatabricksJobRun) :
  let d := definition this in
  let start := Types.start_time d in
  let total := setup_duration d + execution_duration d + cleanup_duration d in
  (forall e, task_details JSON_stringify this = Threw e ->
   tooltip JSON_stringify trimChar now this = Threw e)
  /\ (forall details, task_details JSON_stringify this = Returned details ->
      (tooltip JSON_stringify trimChar now this
       = Threw (RangeError "Invalid time value")
       <-> 8640000000000000 < Z.abs start
           \/ (state this = "succeeded" /\ endDate this = None))
      /\ ((exists text,
             tooltip JSON_stringify trimChar now this = Returned text)
          \/ tooltip JSON_stringify trimChar now this
             = Threw (RangeError "Invalid time value")))
  /\ (0 <= setup_duration d -> 0 <= execution_duration d ->
      0 <= cleanup_duration d -> total <= 2 ^ 53 ->
      Z.abs start <= 8640000000000000 -> start + total <= 2 ^ 53 ->
      (endDate this = None <-> 8640000000000000 < start + total)).
Proof.
  intros d start total. split; [|split].
  - intros e. apply tooltip_throws_with_details.
  - intros details Hd. unfold tooltip. fold d start. rewrite Hd.
    destruct (Z.le_gt_cases (Z.abs start) 8640000000000000) as [Hs|Hs].
    + rewrite (new_Date_integer start Hs).
      destruct (String.eqb_spec (state this) "succeeded") as [Es|Es].
      * destruct (endDate this) as [finish|].
        -- split; [|left; eexists; reflexivity].
           split; [discriminate|]. intros [H|[_ H]]; [lia | discriminate].
        -- split; [|right; reflexivity].
           split; [intros _; right; now split | reflexivity].
      * split; [|left; eexists; reflexivity].
        split; [discriminate|]. intros [H|[H _]]; [lia | contradiction].
    + rewrite (new_Date_out_of_range start Hs).
      split; [|right; reflexivity].
      split; [intros _; now left | reflexivity].
  - intros Ha Hb Hc Ht Hs Hf.
    assert (T0 : 0 <= total) by (unfold total; lia).
    rewrite (endDate_exact this Ha Hb Hc Ht Hs Hf). fold d start total.
    destruct (Z.le_gt_cases (start + total) 8640000000000000) as [V|V].
    + rewrite new_Date_integer by lia. split; [discriminate | lia].
    + rewrite new_Date_out_of_range by lia. split; [intros _; exact V | reflexivity].
Qed.

(** X21.  For a run without any task payload the tooltip, when it
    returns, starts with the text [undefined] followed by the start
    line. *)
Theorem tooltip_without_payload (now : Z) (this : DatabricksJobRun) (text : string) :
  let t := task (definition this) in
  notebook_task t = None -> spark_jar_task t = None ->
  spark_python_task t = None -> spark_submit_task t = None ->
  tooltip JSON_stringify trimChar now this = Returned text ->
  exists rest : string, text = "undefinedStarted: " ++ rest.
Proof.
  intros t H1 H2 H3 H4. unfold tooltip, task_details. fold t.
  rewrite H1, H2, H3, H4. cbn [opt_toString].
  destruct (new_Date (JsNumber.of_Z (Types.start_time (definition this))));
    [|discriminate].
  destruct (String.eqb (state this) "succeeded").
  - destruct (endDate this); [|discriminate].
    intros [= <-]. rewrite !string_app_assoc. eexists. reflexivity.
  - intros [= <-]. rewrite !string_app_assoc. eexists. reflexivity.
Qed.

(** X22.  The context value of a job run built from a record is
    [RUNNING_JOB] exactly when its result state is none of SUCCESS, FAILED,
    CANCELED and TIMEDOUT, and [JOB_RUN] otherwise. *)
Theorem contextValue_of_run (item : iDatabricksJobRun) :
  let result := result_state (Types.state item) in
  let finished :=
    result = Some "SUCCESS" \/ result = Some "FAILED"
    \/ result = Some "CANCELED" \/ result = Some "TIMEDOUT" in
  (contextValue (fromInterface item) = "RUNNING_JOB" <-> ~ finished)
  /\ (contextValue (fromInterface item) = "JOB_RUN" <-> finished).
Proof.
  intros result finished. subst finished.
  unfold contextValue, state, fromInterface. cbn [definition type]. fold result.
  destruct (equals result "SUCCESS") eqn:E1;
    [|destruct (equals result "FAILED") eqn:E2;
      [|destruct (equals result "CANCELED") eqn:E3;
        [|destruct (equals result "TIMEDOUT") eqn:E4]]];
    cbn [orb];
    repeat match goal with
           | H : equals _ _ = true |- _ => apply equals_true in H
           | H : equals _ _ = false |- _ => apply equals_false in H
           end;
    (split; split; intros K; try discriminate K; try tauto; try reflexivity).
Qed.

End Facts.

Import Samples.

(** *** The theorems on the sample runs *)

Lemma state_bucket_witness :
  result_state (Types.state (definition (run (Some "CANCELED") 0 0 0 0 no_task)))
  = Some "CANCELED"
  /\ state (run (Some "CANCELED") 0 0 0 0 no_task) = "failed".
Proof.
  split; [reflexivity|].
  apply (proj1 (proj2 (state_bucket (run (Some "CANCELED") 0 0 0 0 no_task)))).
  right. left. reflexivity.
Defined.

(** The three cases of the specification. *)
Example state_of_samples :
  state (run (Some "SUCCESS") 0 0 0 0 no_task) = "succeeded"
  /\ state (run (Some "CANCELED") 0 0 0 0 no_task) = "failed"
  /\ state (run (Some "") 0 0 0 0 no_task) = "running"
  /\ state (run None 0 0 0 0 no_task) = "running".
Proof. repeat split. Qed.



(** A run that has not succeeded is measured against the clock. *)
Example tooltip_of_running_run :
  tooltip braces keep 1250 (run None 0 0 0 0 no_task)
  = Returned ("undefinedStarted: 00:00:00.000Z UTC" ++ LF
              ++ "Duration: 1.25 seconds (running)" ++ LF).
Proof. now vm_compute. Qed.

(** Past 2^53 ms the difference of two time values is rounded before it
    is divided. *)
Example tooltip_of_old_run :
  tooltip braces keep 8000000000000001
    (run None (-8640000000000000) 0 0 0 no_task)
  = Returned ("undefinedStarted: 00:00:00.000Z UTC" ++ LF
              ++ "Duration: 16640000000000 seconds (running)" ++ LF).
Proof. now vm_compute. Qed.

Lemma task_getters_agree_witness :
  (exists n, notebook_task (task (definition (run None 0 0 0 0 notebook_and_python_task)))
             = Some n)
  /\ task_type (run None 0 0 0 0 notebook_and_python_task) = Some "Notebook"
  /\ task_description (run None 0 0 0 0 notebook_and_python_task)
     = Returned (Some "Notebook: /Shared/etl")
  /\ task_details braces (run None 0 0 0 0 notebook_and_python_task)
     = Returned (Some ("Notebook: /Shared/etl" ++ LF
                       ++ "Revision Timestamp: 1600000000000" ++ LF
                       ++ "Parameters: {day:1}")).
Proof.
  split; [eexists; reflexivity|].
  destruct (proj1 (task_getters_agree braces
                     (run None 0 0 0 0 notebook_and_python_task))
                  _ eq_refl) as [Ht [Hd Hx]].
  split; [exact Ht|]. split; [exact Hd|].
  rewrite Hx. now vm_compute.
Defined.

(** A JAR payload without [parameters]: the type and the description are
    those of the JAR payload, and the details are a [TypeError]. *)
Lemma task_details_throws_without_parameters :
  task_type (run None 0 0 0 0 jar_without_parameters) = Some "JAR"
  /\ task_description (run None 0 0 0 0 jar_without_parameters)
     = Returned (Some "JAR: undefined - com.example.Main")
  /\ task_details braces (run None 0 0 0 0 jar_without_parameters)
     = Threw (TypeError "Cannot read properties of undefined (reading 'join')")
  /\ (forall details,
        task_details braces (run None 0 0 0 0 jar_without_parameters)
        <> Returned details)
  /\ tooltip braces keep 99 (run None 0 0 0 0 jar_without_parameters)
     = Threw (TypeError "Cannot read properties of undefined (reading 'join')").
Proof.
  split; [reflexivity|]. split; [reflexivity|]. split; [reflexivity|].
  split; [intros details; discriminate | reflexivity].
Qed.

(** The identifier of a run is printed as JavaScript prints the number:
    past 2^53 that is the shortest digits of the double, not those of the
    integer. *)
Example number_of_a_large_identifier :
  Number_toString 42 = "42"
  /\ Number_toString 1152921504606846976 = "1152921504606847000".
Proof. now vm_compute. Qed.

(** A rejected cancel call that settles during the wait. *)
Example stop_after_rejection :
  stop succeeded_run (Some (Rejected "403", DuringTheWait))
  = [CancelRunJob 42; Wait 10000; ShowErrorMessage "ERROR: 403";
     ExecuteCommand "databricksJobs.refresh" false].
Proof. reflexivity. Qed.

(** *** The further properties on the sample runs *)

Lemma tooltip_of_unfinished_run_witness :
  state (run (Some "FAILED") 1000 5 5 5 python_task) <> "succeeded"
  /\ Z.abs 1000 <= 8640000000000000
  /\ tooltip braces keep 61000 (run (Some "FAILED") 1000 5 5 5 python_task)
     = Returned ("Python: dbfs:/jobs/etl.py" ++ LF
                 ++ "Parameters: --day 1"
                 ++ "Started: 00:00:01.000Z UTC" ++ LF
                 ++ "Duration: 60 seconds (running)" ++ LF)
  /\ tooltip braces keep 61000
       (run (Some "FAILED") 1000 5 5 5 jar_without_parameters)
     = Threw (TypeError "Cannot read properties of undefined (reading 'join')").
Proof.
  assert (Hs : state (run (Some "FAILED") 1000 5 5 5 python_task) <> "succeeded")
    by (vm_compute; discriminate).
  assert (Hs' : state (run (Some "FAILED") 1000 5 5 5 jar_without_parameters)
                <> "succeeded")
    by (vm_compute; discriminate).
  assert (H0 : Z.abs 1000 <= 8640000000000000) by (vm_compute; discriminate).
  split; [exact Hs|]. split; [exact H0|]. split.
  - rewrite (proj1 (tooltip_of_unfinished_run braces keep 61000
                      (run (Some "FAILED") 1000 5 5 5 python_task) Hs H0)
                   _ eq_refl).
    now vm_compute.
  - exact (proj1 (proj2 (tooltip_of_unfinished_run braces keep 61000
                           (run (Some "FAILED") 1000 5 5 5 jar_without_parameters)
                           Hs' H0))
                 _ eq_refl).
Defined.

Lemma tooltip_throws_on_invalid_dates_witness :
  0 <= 0 /\ 0 <= 1 /\ 0 + 1 + 0 <= 2 ^ 53
  /\ Z.abs 8640000000000000 <= 8640000000000000
  /\ 8640000000000000 + (0 + 1 + 0) <= 2 ^ 53
  /\ endDate late_run = None
  /\ tooltip braces keep 99 late_run = Threw (RangeError "Invalid time value").
Proof.
  assert (Ha : 0 <= 0) by lia.
  assert (Hb : 0 <= 1) by lia.
  assert (Ht : 0 + 1 + 0 <= 2 ^ 53) by lia.
  assert (Hs : Z.abs 8640000000000000 <= 8640000000000000)
    by (vm_compute; discriminate).
  assert (Hf : 8640000000000000 + (0 + 1 + 0) <= 2 ^ 53) by lia.
  repeat (split; [assumption|]).
  destruct (tooltip_throws_on_invalid_dates braces keep 99 late_run)
    as [_ [Hthrows Hend]].
  assert (He : endDate late_run = None)
    by (apply (Hend Ha Hb Ha Ht Hs Hf); vm_compute; reflexivity).
  split; [exact He|].
  apply (proj1 (Hthrows _ eq_refl)). right. split; [reflexivity | exact He].
Defined.

Lemma tooltip_without_payload_witness :
  tooltip braces keep 1250 (run None 0 0 0 0 no_task)
  = Returned ("undefinedStarted: 00:00:00.000Z UTC" ++ LF
              ++ "Duration: 1.25 seconds (running)" ++ LF)
  /\ exists rest : string,
       "undefinedStarted: 00:00:00.000Z UTC" ++ LF
       ++ "Duration: 1.25 seconds (running)" ++ LF
       = "undefinedStarted: " ++ rest.
Proof.
  assert (Ht : tooltip braces keep 1250 (run None 0 0 0 0 no_task)
               = Returned ("undefinedStarted: 00:00:00.000Z UTC" ++ LF
                           ++ "Duration: 1.25 seconds (running)" ++ LF))
    by now vm_compute.
  split; [exact Ht|].
  exact (tooltip_without_payload braces keep 1250 (run None 0 0 0 0 no_task) _
           eq_refl eq_refl eq_refl eq_refl Ht).
Defined.

End DatabricksJobRunFacts.
